(** * bpgsql: the PostgreSQL v2 protocol engine and its type registry

    A shallow embedding of [bpgsql.py].  Python 2 byte strings are lists of
    8-bit characters, Python integers are [Z], dictionaries are [gmap]s,
    objects that are shared and mutated ([_PgType], [_ResultSet]) live in
    stores and are named by their address, and methods of [Connection] are
    computations in a state-and-exception monad over the interpreter state. *)

From Stdlib Require Import ZArith List Ascii String Lia.
From stdpp Require Import base list gmap strings.

Local Open Scope Z_scope.

(** ** Byte strings *)

Abbreviation str := (list ascii) (only parsing).

Definition b (s : string) : str := list_ascii_of_string s.

Definition NUL : ascii := "000"%char.
Definition NL : ascii := "010"%char.
Definition BACKSLASH : ascii := "092"%char.
Definition QUOTE : ascii := "039"%char.

Definition ord (ch : ascii) : Z := Z.of_N (N_of_ascii ch).
Definition chr (z : Z) : ascii := ascii_of_N (Z.to_N (z mod 256)).

Definition len {A} (l : list A) : Z := Z.of_nat (length l).

(** [s[:n]] and [s[n:]]: a negative bound counts from the end and every
    bound is clipped to the string. *)
Definition slice_bound {A} (s : list A) (n : Z) : nat :=
  if n <? 0 then Z.to_nat (Z.max 0 (len s + n)) else Z.to_nat n.

Definition slice_to {A} (s : list A) (n : Z) : list A := take (slice_bound s n) s.
Definition slice_from {A} (s : list A) (n : Z) : list A := drop (slice_bound s n) s.

(** [s.split(sep, 1)] for a one-character separator: the text before the
    first separator and the text after it, or nothing when [sep] does not
    occur (the source then fails to unpack a one-element list). *)
Fixpoint split1 (sep : ascii) (s : str) : option (str * str) :=
  match s with
  | [] => None
  | ch :: s' =>
      if decide (ch = sep) then Some ([], s')
      else match split1 sep s' with
           | Some (before, after) => Some (ch :: before, after)
           | None => None
           end
  end.

(** [s.replace(old, new)] for a one-character [old], on byte strings and
    on unicode strings alike. *)
Fixpoint replace {A} `{EqDecision A} (old : A) (new : list A) (s : list A) : list A :=
  match s with
  | [] => []
  | ch :: s' => (if decide (ch = old) then new else [ch]) ++ replace old new s'
  end.

(** Decimal text of an integer, as [str(n)] and ["%d" % n] give it. *)
Definition digit_char (d : Z) : ascii := ascii_of_N (Z.to_N (48 + d)).

Fixpoint digits_fuel (fuel : nat) (n : Z) (acc : str) : str :=
  match fuel with
  | O => acc
  | S fuel' =>
      let acc' := digit_char (n mod 10) :: acc in
      if n / 10 =? 0 then acc' else digits_fuel fuel' (n / 10) acc'
  end.

(** A number has no more decimal digits than binary ones. *)
Definition str_of_nonneg (n : Z) : str := digits_fuel (S (Z.to_nat (Z.log2 n))) n [].

Definition str_of_Z (z : Z) : str :=
  if z <? 0 then "-"%char :: str_of_nonneg (- z) else str_of_nonneg z.

(** ["%0<w>d" % n] for a non-negative [n]: zero-padded on the left to at
    least [w] characters. *)
Definition zero_pad (w : nat) (n : Z) : str :=
  let d := str_of_nonneg n in
  replicate (w - length d) "0"%char ++ d.

(** ** The [struct] module: network byte order *)

(** Big-endian value of a byte string. *)
Definition be_value (s : str) : Z :=
  fold_left (fun acc ch => Z.lor (Z.shiftl acc 8) (ord ch)) s 0.

Definition to_signed (bits : Z) (u : Z) : Z :=
  if u <? 2 ^ (bits - 1) then u else u - 2 ^ bits.

(** Big-endian bytes of the low [8 * n] bits of [z]. *)
Fixpoint be_bytes (n : nat) (z : Z) : str :=
  match n with
  | O => []
  | S n' => chr (Z.shiftr z (8 * Z.of_nat n')) :: be_bytes n' z
  end.

(** ** Exceptions *)

Inductive exn :=
| InterfaceError (msg : str)
| DatabaseError (msg : str)
| OperationalError (msg : str)
| AttributeError
| IndexError
| TypeError
| ValueError
| UnicodeDecodeError
| UnicodeEncodeError
| StructError.

(** The DB-API hierarchy: the classes derived from the module's [Error]. *)
Definition is_library_error (e : exn) : bool :=
  match e with
  | InterfaceError _ | DatabaseError _ | OperationalError _ => true
  | _ => false
  end.

(** Outcome of a call: a value, a raised exception, or a loop cut off by
    its iteration bound (shown unreachable for the loops of the engine). *)
Inductive res (A : Type) :=
| Ok (a : A)
| Raise (e : exn)
| OutOfFuel.
Arguments Ok {A} a.
Arguments Raise {A} e.
Arguments OutOfFuel {A}.

(** Outcome of a call into a function that has no loop and no state. *)
Inductive outcome (A : Type) :=
| Returns (a : A)
| Raises (e : exn).
Arguments Returns {A} a.
Arguments Raises {A} e.

(** [_unpack('!h', s)] and [_unpack('!i', s)]. *)
Definition unpack_h (s : str) : outcome Z :=
  if decide (length s = 2%nat) then Returns (to_signed 16 (be_value s)) else Raises StructError.

Definition unpack_i (s : str) : outcome Z :=
  if decide (length s = 4%nat) then Returns (to_signed 32 (be_value s)) else Raises StructError.

(** [_pack('!i', z)]; [struct] rejects a value outside the 32-bit range. *)
Definition pack_i (z : Z) : outcome str :=
  if (- 2 ^ 31 <=? z) && (z <? 2 ^ 31) then Returns (be_bytes 4 z) else Raises StructError.

(** ** Host values *)

(** Unicode strings are lists of code points. *)
Abbreviation ustr := (list N) (only parsing).

Definition u (s : string) : ustr := N_of_ascii <$> b s.

Inductive pyval :=
| PyNone
| PyStr (s : str)
| PyUnicode (s : ustr)
| PyInt (z : Z)
| PyLong (z : Z)
| PyBool (v : bool)
| PyDate (year month day : Z)
| PyObject (class_name : str) (state : str).

Inductive pytype :=
| NoneType | StrType | UnicodeType | IntType | LongType | BoolType | DateType
| ClassType (class_name : str).

(** [type(obj)] *)
Definition type_of (obj : pyval) : pytype :=
  match obj with
  | PyNone => NoneType
  | PyStr _ => StrType
  | PyUnicode _ => UnicodeType
  | PyInt _ => IntType
  | PyLong _ => LongType
  | PyBool _ => BoolType
  | PyDate _ _ _ => DateType
  | PyObject c _ => ClassType c
  end.

Global Instance pytype_eq_dec : EqDecision pytype.
Proof. solve_decision. Defined.

Definition pytype_code (t : pytype) : nat + str :=
  match t with
  | NoneType => inl 0%nat | StrType => inl 1%nat | UnicodeType => inl 2%nat
  | IntType => inl 3%nat | LongType => inl 4%nat | BoolType => inl 5%nat
  | DateType => inl 6%nat | ClassType c => inr c
  end.

Definition pytype_decode (c : nat + str) : pytype :=
  match c with
  | inl 0%nat => NoneType | inl 1%nat => StrType | inl 2%nat => UnicodeType
  | inl 3%nat => IntType | inl 4%nat => LongType | inl 5%nat => BoolType
  | inl _ => DateType | inr c => ClassType c
  end.

Global Instance pytype_countable : Countable pytype.
Proof. apply (inj_countable' pytype_code pytype_decode). by intros []. Defined.

(** [types.StringTypes] *)
Definition StringTypes : list pytype := [StrType; UnicodeType].

(** [str(x)] for a [datetime.date]: [isoformat], that is
    ["%04d-%02d-%02d" % (year, month, day)]. *)
Definition date_str (year month day : Z) : str :=
  zero_pad 4 year ++ b "-" ++ zero_pad 2 month ++ b "-" ++ zero_pad 2 day.

(** The dates [datetime.date] can hold. *)
Definition is_leap (y : Z) : bool :=
  (y mod 4 =? 0) && (negb (y mod 100 =? 0) || (y mod 400 =? 0)).

Definition days_in_month (y m : Z) : Z :=
  if m =? 2 then (if is_leap y then 29 else 28)
  else if (m =? 4) || (m =? 6) || (m =? 9) || (m =? 11) then 30 else 31.

Definition valid_date (y m d : Z) : Prop :=
  1 <= y <= 9999 /\ 1 <= m <= 12 /\ 1 <= d <= days_in_month y m.

(** [str(x)] *)
Definition py_str (x : pyval) : outcome str :=
  match x with
  | PyNone => Returns (b "None")
  | PyStr s => Returns s
  | PyUnicode s =>
      if forallb (fun c => (c <? 128)%N) s then Returns (ascii_of_N <$> s)
      else Raises UnicodeEncodeError
  | PyInt z | PyLong z => Returns (str_of_Z z)
  | PyBool v => Returns (if v then b "True" else b "False")
  | PyDate y m d => Returns (date_str y m d)
  | PyObject _ state => Returns state
  end.

(** ** The Python library the module calls into

    [str.decode('utf-8')], the constructors [int], [long], [float] and
    [Decimal] used as field decoders, and the [crypt] and [md5] modules
    are not part of the repository; the engine is parametric in them. *)
Class PyLib := {
  utf8_decode : str -> option ustr;
  py_int : str -> outcome pyval;
  py_long : str -> outcome pyval;
  py_float : str -> outcome pyval;
  py_Decimal : str -> outcome pyval;
  crypt_module : option (str -> str -> str);
  md5_hexdigest : str -> str
}.

(** ** Field decoders *)

Abbreviation converter := (list ascii -> outcome pyval) (only parsing).

Definition _bool_convert (s : str) : outcome pyval :=
  if decide (s = b "t") then Returns (PyBool true)
  else if decide (s = b "f") then Returns (PyBool false)
  else Raises (InterfaceError (b "Boolean type came across as unknown value [" ++ s ++ b "]")).

Definition _char_convert `{PyLib} (s : str) : outcome pyval :=
  match utf8_decode s with
  | Some text => Returns (PyUnicode text)
  | None => Raises UnicodeDecodeError
  end.

Definition _identity (d : str) : outcome pyval := Returns (PyStr d).

(** ** Type descriptors and the type manager *)

Inductive type_tag :=
| STRING | BINARY | NUMBER | DATETIME | ROWID
| TagName (s : str).

Record _PgType := {
  pg_name : str;
  pg_converter : converter;
  pg_type_id : type_tag;
  pg_oid : option Z
}.

(** [_PgType.__init__] *)
Definition new_PgType (name : str) (conv : converter) (type_id : type_tag) : _PgType :=
  {| pg_name := name; pg_converter := conv; pg_type_id := type_id; pg_oid := None |}.

Definition set_pg_oid (oid : option Z) (t : _PgType) : _PgType :=
  {| pg_name := pg_name t; pg_converter := pg_converter t;
     pg_type_id := pg_type_id t; pg_oid := oid |}.

Global Instance _PgType_inhabited : Inhabited _PgType :=
  populate (new_PgType [] _identity (TagName [])).

(** Descriptors are objects: a dictionary holds the address of a descriptor
    in the store, and two dictionaries can hold the same address. *)
Abbreviation pg_store := (list _PgType) (only parsing).

Record _TypeManager := {
  pg_types : gmap str nat;
  oid_map : gmap Z nat;
  python_converters : gmap pytype (pyval -> outcome pyval)
}.

Definition set_pg_types (f : gmap str nat -> gmap str nat) (self : _TypeManager) :=
  {| pg_types := f (pg_types self); oid_map := oid_map self;
     python_converters := python_converters self |}.

Definition set_oid_map (f : gmap Z nat -> gmap Z nat) (self : _TypeManager) :=
  {| pg_types := pg_types self; oid_map := f (oid_map self);
     python_converters := python_converters self |}.

Definition set_python_converters
    (f : gmap pytype (pyval -> outcome pyval) -> gmap pytype (pyval -> outcome pyval))
    (self : _TypeManager) :=
  {| pg_types := pg_types self; oid_map := oid_map self;
     python_converters := f (python_converters self) |}.

Module TypeManager.

(** [_TypeManager.__init__] *)
Definition __init__ : _TypeManager :=
  {| pg_types := ∅; oid_map := ∅; python_converters := ∅ |}.

(** [_clone]: fresh dictionaries for the names and the host encoders,
    holding the addresses the original holds; the OID index starts empty. *)
Definition _clone (self : _TypeManager) : _TypeManager :=
  {| pg_types := pg_types self;
     oid_map := oid_map __init__;
     python_converters := python_converters self |}.

(** The quoted literal of a [str] or a [unicode]: backslashes doubled,
    then a backslash put before each single quote, the whole between single
    quotes.  Nothing else has its type in [StringTypes]. *)
Definition quoted (obj : pyval) : outcome pyval :=
  match obj with
  | PyStr s =>
      Returns (PyStr (b "'" ++ replace QUOTE [BACKSLASH; QUOTE]
                            (replace BACKSLASH [BACKSLASH; BACKSLASH] s) ++ b "'"))
  | PyUnicode s =>
      Returns (PyUnicode (u "'" ++ replace (N_of_ascii QUOTE) (N_of_ascii <$> [BACKSLASH; QUOTE])
                                (replace (N_of_ascii BACKSLASH)
                                   (N_of_ascii <$> [BACKSLASH; BACKSLASH]) s) ++ u "'"))
  | _ => Raises AttributeError
  end.

Definition python_to_sql (self : _TypeManager) (obj : pyval) : outcome pyval :=
  let t := type_of obj in
  match python_converters self !! t with
  | Some conv => conv obj
  | None =>
      match obj with
      | PyNone => Returns (PyStr (b "NULL"))
      | _ => if bool_decide (t ∈ StringTypes) then quoted obj else Returns obj
      end
  end.

Section WithLib.
Context `{PyLib}.

Definition _DEFAULT_PGTYPE : _PgType :=
  new_PgType (b "unknown") _char_convert (TagName (b "unknown")).

Definition get_type (self : _TypeManager) (h : pg_store) (oid : Z) : _PgType :=
  match oid_map self !! oid with
  | Some r => h !!! r
  | None => _DEFAULT_PGTYPE
  end.

Definition get_conversion (self : _TypeManager) (h : pg_store) (oid : Z) : converter :=
  pg_converter (get_type self h oid).

(** The body of the loop of [register_pgsql], for one name. *)
Definition register_pgsql_name (converter : converter) (type_id : type_tag)
    (st : _TypeManager * pg_store) (name : str) : _TypeManager * pg_store :=
  let '(self, h) := st in
  let oid := match pg_types self !! name with
             | Some r => pg_oid (h !!! r)
             | None => None
             end in
  let pg_type := length h in
  let h := h ++ [new_PgType name converter type_id] in
  let self := set_pg_types <[name := pg_type]> self in
  match oid with
  | Some oid => (set_oid_map <[oid := pg_type]> self, h)
  | None => (self, h)
  end.

Definition register_pgsql (typenames : str + list str) (converter : converter)
    (type_id : type_tag) (st : _TypeManager * pg_store) : _TypeManager * pg_store :=
  let typenames := match typenames with inl name => [name] | inr names => names end in
  foldl (register_pgsql_name converter type_id) st typenames.

Definition register_oid (oid : Z) (name : str) (st : _TypeManager * pg_store)
    : _TypeManager * pg_store :=
  let '(self, h) := st in
  let '(self, h, pg_type) :=
    match pg_types self !! name with
    | Some r => (self, h, r)
    | None =>
        (set_pg_types <[name := length h]> self,
         h ++ [new_PgType name _char_convert (TagName (b "unknown"))],
         length h)
    end in
  let h := alter (set_pg_oid (Some oid)) pg_type h in
  (set_oid_map <[oid := pg_type]> self, h).

Definition register_python (klass : pytype) (converter : pyval -> outcome pyval)
    (st : _TypeManager * pg_store) : _TypeManager * pg_store :=
  (set_python_converters <[klass := converter]> st.1, st.2).

End WithLib.
End TypeManager.

(** ** Result bundles *)

(** The class [Warning], first component of a message. *)
Inductive exc_class := WarningClass.

Record _ResultSet := {
  conversion : option (list converter);
  (* each entry stands for the 7-tuple (name, type_id, None, None, None, None, None) *)
  description : option (list (str * type_tag));
  error : option str;
  (* the attribute [completed] exists only once [_pkt_C] has assigned it *)
  completed : option str;
  null_byte_count : Z;
  num_fields : Z;
  rows : option (list (list pyval));
  messages : list (exc_class * str)
}.

(** [_ResultSet.__init__] *)
Definition new_ResultSet : _ResultSet :=
  {| conversion := None; description := None; error := None; completed := None;
     null_byte_count := 0; num_fields := 0; rows := None; messages := [] |}.

Global Instance _ResultSet_inhabited : Inhabited _ResultSet := populate new_ResultSet.

Definition set_conversion (v : option (list converter)) (r : _ResultSet) : _ResultSet :=
  let 'Build__ResultSet _ d e c nb nf rw m := r in Build__ResultSet v d e c nb nf rw m.
Definition set_error (v : option str) (r : _ResultSet) : _ResultSet :=
  let 'Build__ResultSet cv d _ c nb nf rw m := r in Build__ResultSet cv d v c nb nf rw m.
Definition set_completed (v : option str) (r : _ResultSet) : _ResultSet :=
  let 'Build__ResultSet cv d e _ nb nf rw m := r in Build__ResultSet cv d e v nb nf rw m.
Definition set_rows (v : option (list (list pyval))) (r : _ResultSet) : _ResultSet :=
  let 'Build__ResultSet cv d e c nb nf _ m := r in Build__ResultSet cv d e c nb nf v m.
Definition set_messages (v : list (exc_class * str)) (r : _ResultSet) : _ResultSet :=
  let 'Build__ResultSet cv d e c nb nf rw _ := r in Build__ResultSet cv d e c nb nf rw v.

(** [_ResultSet.set_description] *)
Definition set_description `{PyLib} (desc_list : list (str * Z * Z * Z))
    (type_manager : _TypeManager) (h : pg_store) (self : _ResultSet) : _ResultSet :=
  let num_fields := len desc_list in
  let description :=
    (fun '(name, oid, size, modifier) =>
       let pg_type := TypeManager.get_type type_manager h oid in
       (name, pg_type_id pg_type)) <$> desc_list in
  let 'Build__ResultSet cv _ e c _ _ _ m := self in
  Build__ResultSet cv (Some description) e c (Z.shiftr (num_fields + 7) 3) num_fields
    (Some []) m.

(** ** The interpreter state seen by one connection *)

(** A stream socket: the chunks the coming calls of [recv] deliver (none
    left, or an empty chunk, is the peer closing the stream) and the bytes
    sent so far.  [recv] and [send] retry on EINTR without any effect on
    the data, so the model has the data only. *)
Record socket := {
  incoming : list str;
  outgoing : str
}.

Record state := {
  (* attributes of the Connection *)
  __backend_pid : option Z;
  __backend_key : option Z;
  __socket : option socket;
  __input_buffer : str;
  __authenticated : Z;
  __ready : Z;
  __result : option (list nat);
  __current_result : option nat;
  __notify_queue : list (str * Z);
  __func_result : option str;
  type_manager : _TypeManager;
  __passwd : str;
  __userid : str;
  (* [self.stdin], [self.stdout]: the lines [readline] will return and the
     strings written; [None] when the attribute is absent or false *)
  stdin : option (list str);
  stdout : option (list str);
  (* the objects the attributes point to *)
  result_sets : list _ResultSet;
  descriptors : pg_store;
  (* the process *)
  sys_stdin : list str;
  sys_stdout : list str;
  (* packet types passed to [BPGSQL_LOGGER.debug('pkt_type: %s')] *)
  pkt_log : list str
}.

Definition set___backend (pid key : option Z) (s : state) : state :=
  let 'Build_state _ _ so ib au rd rs cr nq fr tm pw us si so' rh dh ssi sso lg := s in
  Build_state pid key so ib au rd rs cr nq fr tm pw us si so' rh dh ssi sso lg.
Definition set___socket (v : option socket) (s : state) : state :=
  let 'Build_state bp bk _ ib au rd rs cr nq fr tm pw us si so' rh dh ssi sso lg := s in
  Build_state bp bk v ib au rd rs cr nq fr tm pw us si so' rh dh ssi sso lg.
Definition set___input_buffer (v : str) (s : state) : state :=
  let 'Build_state bp bk so _ au rd rs cr nq fr tm pw us si so' rh dh ssi sso lg := s in
  Build_state bp bk so v au rd rs cr nq fr tm pw us si so' rh dh ssi sso lg.
Definition set___authenticated (v : Z) (s : state) : state :=
  let 'Build_state bp bk so ib _ rd rs cr nq fr tm pw us si so' rh dh ssi sso lg := s in
  Build_state bp bk so ib v rd rs cr nq fr tm pw us si so' rh dh ssi sso lg.
Definition set___ready (v : Z) (s : state) : state :=
  let 'Build_state bp bk so ib au _ rs cr nq fr tm pw us si so' rh dh ssi sso lg := s in
  Build_state bp bk so ib au v rs cr nq fr tm pw us si so' rh dh ssi sso lg.
Definition set___result (v : option (list nat)) (s : state) : state :=
  let 'Build_state bp bk so ib au rd _ cr nq fr tm pw us si so' rh dh ssi sso lg := s in
  Build_state bp bk so ib au rd v cr nq fr tm pw us si so' rh dh ssi sso lg.
Definition set___current_result (v : option nat) (s : state) : state :=
  let 'Build_state bp bk so ib au rd rs _ nq fr tm pw us si so' rh dh ssi sso lg := s in
  Build_state bp bk so ib au rd rs v nq fr tm pw us si so' rh dh ssi sso lg.
Definition set___notify_queue (v : list (str * Z)) (s : state) : state :=
  let 'Build_state bp bk so ib au rd rs cr _ fr tm pw us si so' rh dh ssi sso lg := s in
  Build_state bp bk so ib au rd rs cr v fr tm pw us si so' rh dh ssi sso lg.
Definition set___func_result (v : option str) (s : state) : state :=
  let 'Build_state bp bk so ib au rd rs cr nq _ tm pw us si so' rh dh ssi sso lg := s in
  Build_state bp bk so ib au rd rs cr nq v tm pw us si so' rh dh ssi sso lg.
Definition set_stdin (v : option (list str)) (s : state) : state :=
  let 'Build_state bp bk so ib au rd rs cr nq fr tm pw us _ so' rh dh ssi sso lg := s in
  Build_state bp bk so ib au rd rs cr nq fr tm pw us v so' rh dh ssi sso lg.
Definition set_stdout (v : option (list str)) (s : state) : state :=
  let 'Build_state bp bk so ib au rd rs cr nq fr tm pw us si _ rh dh ssi sso lg := s in
  Build_state bp bk so ib au rd rs cr nq fr tm pw us si v rh dh ssi sso lg.
Definition set_result_sets (v : list _ResultSet) (s : state) : state :=
  let 'Build_state bp bk so ib au rd rs cr nq fr tm pw us si so' _ dh ssi sso lg := s in
  Build_state bp bk so ib au rd rs cr nq fr tm pw us si so' v dh ssi sso lg.
Definition set_sys_stdin (v : list str) (s : state) : state :=
  let 'Build_state bp bk so ib au rd rs cr nq fr tm pw us si so' rh dh _ sso lg := s in
  Build_state bp bk so ib au rd rs cr nq fr tm pw us si so' rh dh v sso lg.
Definition set_sys_stdout (v : list str) (s : state) : state :=
  let 'Build_state bp bk so ib au rd rs cr nq fr tm pw us si so' rh dh ssi _ lg := s in
  Build_state bp bk so ib au rd rs cr nq fr tm pw us si so' rh dh ssi v lg.
Definition set_pkt_log (v : list str) (s : state) : state :=
  let 'Build_state bp bk so ib au rd rs cr nq fr tm pw us si so' rh dh ssi sso _ := s in
  Build_state bp bk so ib au rd rs cr nq fr tm pw us si so' rh dh ssi sso v.

(** ** Computations: state and exceptions *)

Definition M (A : Type) : Type := state -> res A * state.

Definition ret {A} (a : A) : M A := fun s => (Ok a, s).

Definition bind {A B} (m : M A) (k : A -> M B) : M B :=
  fun s =>
    match m s with
    | (Ok a, s') => k a s'
    | (Raise e, s') => (Raise e, s')
    | (OutOfFuel, s') => (OutOfFuel, s')
    end.

Definition raise {A} (e : exn) : M A := fun s => (Raise e, s).
Definition gets {A} (f : state -> A) : M A := fun s => (Ok (f s), s).
Definition modify (f : state -> state) : M unit := fun s => (Ok tt, f s).

(** The result of a pure call that can raise. *)
Definition lift {A} (r : outcome A) : M A :=
  fun s => (match r with Returns a => Ok a | Raises e => Raise e end, s).

Declare Scope py_scope.
Delimit Scope py_scope with py.
Notation "x <- m ;; k" := (bind m (fun x => k))
  (at level 100, m at next level, right associativity) : py_scope.
Notation "m ;; k" := (bind m (fun _ => k))
  (at level 100, right associativity) : py_scope.
Local Open Scope py_scope.

(** [while cond: body], cut off after [fuel] iterations. *)
Fixpoint while_ (fuel : nat) (cond : M bool) (body : M unit) : M unit :=
  c <- cond ;;
  if c then
    match fuel with
    | O => fun s => (OutOfFuel, s)
    | S fuel' => body ;; while_ fuel' cond body
    end
  else ret tt.

(** [while 1: body] with the local variables [l] the body updates: the
    body either goes round again with new locals ([inl]) or leaves the loop
    with a value ([inr]: a [break] or a [return]). *)
Fixpoint loop {L A} (fuel : nat) (body : L -> M (L + A)) (l : L) : M A :=
  match fuel with
  | O => fun s => (OutOfFuel, s)
  | S fuel' =>
      x <- body l ;;
      match x with
      | inl l' => loop fuel' body l'
      | inr a => ret a
      end
  end.

(** [[body for i in range(n)]]: the results of [n] runs, in order. *)
Fixpoint collect {A} (n : nat) (body : M A) : M (list A) :=
  match n with
  | O => ret []
  | S n' => x <- body ;; xs <- collect n' body ;; ret (x :: xs)
  end.

(** [range(n)] *)
Definition range (n : Z) : list nat := seq 0 (Z.to_nat n).

(** Bounds for the loops that wait on the socket: a round of a read loop
    takes a chunk off the socket, a round of a packet loop takes a byte
    off the input. *)
Definition chunks_left (s : state) : nat :=
  match __socket s with
  | Some sock => length (incoming sock)
  | None => 0
  end.

Definition bytes_left (s : state) : nat :=
  (length (__input_buffer s) +
   match __socket s with
   | Some sock => length (concat (incoming sock))
   | None => 0
   end)%nat.

(** Update of the object an attribute points to. *)
Definition update_result (r : nat) (f : _ResultSet -> _ResultSet) : M unit :=
  modify (fun s => set_result_sets (alter f r (result_sets s)) s).

(** [self.__current_result.<attribute>]: the bundle, or the AttributeError
    of an attribute access on [None]. *)
Definition current_result_object : M nat :=
  cur <- gets __current_result ;;
  match cur with
  | Some r => ret r
  | None => raise AttributeError
  end.

(** ** The connection *)

Module Connection.
Section WithLib.
Context `{PyLib}.

Definition __new_result : M unit :=
  modify (fun s =>
    let s := match __result s with
             | None => set___result (Some []) s
             | Some _ => s
             end in
    let r := length (result_sets s) in
    let s := set_result_sets (result_sets s ++ [new_ResultSet]) s in
    let s := set___current_result (Some r) s in
    set___result (Some (default [] (__result s) ++ [r])) s).

Definition __recv (bufsize : Z) : M str :=
  so <- gets __socket ;;
  match so with
  | None => raise AttributeError
  | Some sock =>
      match incoming sock with
      | [] => ret []
      | d :: rest =>
          modify (set___socket (Some {| incoming := rest; outgoing := outgoing sock |})) ;;
          ret d
      end
  end.

Definition __send (data : str) : M unit :=
  so <- gets __socket ;;
  match so with
  | None => raise (InterfaceError (b "Connection not open"))
  | Some sock =>
      modify (set___socket
                (Some {| incoming := incoming sock; outgoing := outgoing sock ++ data |}))
  end.

Definition __read_bytes (nBytes : Z) : M str :=
  fuel <- gets chunks_left ;;
  while_ (S fuel)
    (buf <- gets __input_buffer ;; ret (len buf <? nBytes))
    (d <- __recv 4096 ;;
     match d with
     | _ :: _ => modify (fun s => set___input_buffer (__input_buffer s ++ d) s)
     | [] => raise (OperationalError (b "Connection to backend closed"))
     end) ;;
  buf <- gets __input_buffer ;;
  modify (set___input_buffer (slice_from buf nBytes)) ;;
  ret (slice_to buf nBytes).

Definition __read_string (terminator : ascii) : M str :=
  fuel <- gets chunks_left ;;
  loop (S fuel)
    (fun _ : unit =>
       buf <- gets __input_buffer ;;
       match split1 terminator buf with
       | Some (result, rest) =>
           modify (set___input_buffer rest) ;;
           ret (inr result)
       | None =>
           (* need more data *)
           d <- __recv 4096 ;;
           match d with
           | _ :: _ =>
               modify (fun s => set___input_buffer (__input_buffer s ++ d) s) ;;
               ret (inl tt)
           | [] => raise (OperationalError (b "Connection to backend closed"))
           end
       end) tt.

(** The loop over the fields of a row in [__read_row]; [field_mask] and
    [row] are its local variables. *)
Fixpoint read_fields (ascii : bool) (result : nat) (null_bits : Z)
    (fields : list nat) (field_mask : Z) (row : list pyval) : M (list pyval) :=
  match fields with
  | [] => ret row
  | field_num :: fields' =>
      row <-
        (if Z.land null_bits field_mask =? 0 then
           (* field has no data (is null) *)
           ret (row ++ [PyNone])
         else
           (* field has data present, read what was sent *)
           raw <- __read_bytes 4 ;;
           field_size <- lift (unpack_i raw) ;;
           let field_size := if ascii then field_size - 4 else field_size in
           data <- __read_bytes field_size ;;
           conv <- gets (fun s => conversion (result_sets s !!! result)) ;;
           match conv with
           | None => raise TypeError
           | Some conv =>
               match conv !! field_num with
               | None => raise IndexError
               | Some f => v <- lift (f data) ;; ret (row ++ [v])
               end
           end) ;;
      read_fields ascii result null_bits fields' (Z.shiftr field_mask 1) row
  end.

Definition __read_row (ascii : bool) : M unit :=
  result <- current_result_object ;;
  null_byte_count <- gets (fun s => null_byte_count (result_sets s !!! result)) ;;
  (* the source starts from 0L and 128L when there are more than 32
     fields; int and long are the same integers here *)
  let null_bits := 0 in
  let field_mask := 128 in
  (* read bytes holding null bits and setup the field mask
     to point at the first (leftmost) field *)
  locals <-
    (if null_byte_count =? 0 then ret (null_bits, field_mask)
     else
       bytes <- __read_bytes null_byte_count ;;
       ret (fold_left (fun null_bits ch => Z.lor (Z.shiftl null_bits 8) (ord ch))
              bytes null_bits,
            Z.shiftl field_mask ((null_byte_count - 1) * 8))) ;;
  let '(null_bits, field_mask) := locals in
  (* read each field into a row *)
  num_fields <- gets (fun s => num_fields (result_sets s !!! result)) ;;
  row <- read_fields ascii result null_bits (range num_fields) field_mask [] ;;
  rws <- gets (fun s => rows (result_sets s !!! result)) ;;
  match rws with
  | None => raise AttributeError
  | Some rws => update_result result (set_rows (Some (rws ++ [row])))
  end.

(** *** Packet handling methods *)

(** Notification Response *)
Definition _pkt_A : M unit :=
  raw <- __read_bytes 4 ;;
  pid <- lift (unpack_i raw) ;;
  name <- __read_string NUL ;;
  modify (fun s => set___notify_queue (__notify_queue s ++ [(name, pid)]) s).

(** Binary Row *)
Definition _pkt_B : M unit := __read_row false.

(** Completed Response *)
Definition _pkt_C : M unit :=
  tag <- __read_string NUL ;;
  cur <- current_result_object ;;
  update_result cur (set_completed (Some tag)) ;;
  __new_result.

(** ASCII Row *)
Definition _pkt_D : M unit := __read_row true.

(** Error Response *)
Definition _pkt_E : M unit :=
  cur <- gets __current_result ;;
  match cur with
  | Some _ =>
      msg <- __read_string NUL ;;
      cur <- current_result_object ;;
      update_result cur (set_error (Some msg)) ;;
      __new_result
  | None =>
      msg <- __read_string NUL ;;
      raise (DatabaseError msg)
  end.

(** [stdin.readline()] on [self.stdin] or on [sys.stdin] *)
Definition readline (own : bool) : M str :=
  if own then
    f <- gets stdin ;;
    match f with
    | Some (line :: rest) => modify (set_stdin (Some rest)) ;; ret line
    | _ => ret []
    end
  else
    f <- gets sys_stdin ;;
    match f with
    | line :: rest => modify (set_sys_stdin rest) ;; ret line
    | [] => ret []
    end.

(** CopyIn Response *)
Definition _pkt_G : M unit :=
  own <- gets (fun s => bool_decide (is_Some (stdin s))) ;;
  fuel <- gets (fun s => length (if own then default [] (stdin s) else sys_stdin s)) ;;
  lastline <-
    loop (S fuel)
      (fun lastline : option str =>
         s <- readline own ;;
         if bool_decide (s = []) || bool_decide (s = BACKSLASH :: b "." ++ [NL])
         then ret (inr lastline)
         else __send s ;; ret (inl (Some s)))
      None ;;
  match lastline with
  | Some (ch :: rest) =>
      if bool_decide (last (ch :: rest) = Some NL) then ret tt else __send [NL]
  | _ => ret tt
  end ;;
  __send (BACKSLASH :: b "." ++ [NL]).

(** [stdout.write(s)] on [self.stdout] or on [sys.stdout] *)
Definition write (own : bool) (s : str) : M unit :=
  if own then modify (fun st => set_stdout (Some (default [] (stdout st) ++ [s])) st)
  else modify (fun st => set_sys_stdout (sys_stdout st ++ [s]) st).

(** CopyOut Response *)
Definition _pkt_H : M unit :=
  own <- gets (fun s => bool_decide (is_Some (stdout s))) ;;
  fuel <- gets bytes_left ;;
  loop (S fuel)
    (fun _ : unit =>
       s <- __read_string NL ;;
       if bool_decide (s = BACKSLASH :: b ".") then ret (inr tt)
       else write own s ;; write own [NL] ;; ret (inl tt))
    tt.

(** EmptyQuery Response *)
Definition _pkt_I : M unit :=
  __read_string NUL ;; ret tt.

(** Backend Key data *)
Definition _pkt_K : M unit :=
  raw <- __read_bytes 8 ;;
  pid <- lift (unpack_i (take 4 raw)) ;;
  key <- lift (unpack_i (drop 4 raw)) ;;
  modify (set___backend (Some pid) (Some key)).

(** Notice Response *)
Definition _pkt_N : M unit :=
  n <- __read_string NUL ;;
  cur <- current_result_object ;;
  update_result cur (fun r => set_messages (messages r ++ [(WarningClass, n)]) r).

(** Cursor Response *)
Definition _pkt_P : M unit :=
  __read_string NUL ;; ret tt.

(** Startup Response *)
Definition _pkt_R : M unit :=
  raw <- __read_bytes 4 ;;
  code <- lift (unpack_i raw) ;;
  if code =? 0 then modify (set___authenticated 1)
  else if code =? 1 then
    raise (InterfaceError (b "Kerberos V4 authentication is required by server, but not supported by this client"))
  else if code =? 2 then
    raise (InterfaceError (b "Kerberos V5 authentication is required by server, but not supported by this client"))
  else if code =? 3 then
    passwd <- gets __passwd ;;
    size <- lift (pack_i (len passwd + 5)) ;;
    __send (size ++ passwd ++ [NUL])
  else if code =? 4 then
    salt <- __read_bytes 2 ;;
    match crypt_module with
    | None =>
        raise (InterfaceError (b "Encrypted authentication is required by server, but Python crypt module not available"))
    | Some crypt =>
        passwd <- gets __passwd ;;
        let cpwd := crypt passwd salt in
        size <- lift (pack_i (len cpwd + 5)) ;;
        __send (size ++ cpwd ++ [NUL])
    end
  else if code =? 5 then
    passwd <- gets __passwd ;;
    userid <- gets __userid ;;
    let m := md5_hexdigest (passwd ++ userid) in
    salt <- __read_bytes 4 ;;
    let m := md5_hexdigest (m ++ salt) in
    let m := b "md5" ++ m ++ [NUL] in
    size <- lift (pack_i (len m + 4)) ;;
    __send (size ++ m)
  else
    raise (InterfaceError (b "Unknown startup response code: R" ++ str_of_Z code
                             ++ b " (unknown password encryption?)")).

(** Row Description *)
Definition _pkt_T : M unit :=
  raw <- __read_bytes 2 ;;
  nFields <- lift (unpack_h raw) ;;
  descr <-
    collect (length (range nFields))
      (fieldname <- __read_string NUL ;;
       raw <- __read_bytes 10 ;;
       oid <- lift (unpack_i (take 4 raw)) ;;
       type_size <- lift (unpack_h (take 2 (drop 4 raw))) ;;
       type_modifier <- lift (unpack_i (drop 6 raw)) ;;
       ret (fieldname, oid, type_size, type_modifier)) ;;
  (* Save the field description list *)
  cur <- current_result_object ;;
  tm <- gets type_manager ;;
  h <- gets descriptors ;;
  update_result cur (set_description descr tm h) ;;
  (* build a list of field conversion functions we can use against each row *)
  cur <- current_result_object ;;
  update_result cur
    (set_conversion
       (Some ((fun d => TypeManager.get_conversion tm h d.1.1.2) <$> descr))).

(** Function call response *)
Definition _pkt_V : M unit :=
  modify (set___func_result None) ;;
  fuel <- gets bytes_left ;;
  loop (S fuel)
    (fun _ : unit =>
       ch <- __read_bytes 1 ;;
       if bool_decide (ch = b "0") then ret (inr tt)
       else if bool_decide (ch = b "G") then
         raw <- __read_bytes 4 ;;
         result_size <- lift (unpack_i raw) ;;
         data <- __read_bytes result_size ;;
         modify (set___func_result (Some data)) ;;
         ret (inl tt)
       else
         raise (InterfaceError (b "Unexpected byte: [" ++ ch ++ b "] in Function call reponse")))
    tt.

(** Ready for Query *)
Definition _pkt_Z : M unit :=
  modify (set___ready 1).

(** [self.__class__.__dict__.get('_pkt_' + pkt_type, None)] *)
Definition method_table : list (str * M unit) :=
  [(b "A", _pkt_A); (b "B", _pkt_B); (b "C", _pkt_C); (b "D", _pkt_D);
   (b "E", _pkt_E); (b "G", _pkt_G); (b "H", _pkt_H); (b "I", _pkt_I);
   (b "K", _pkt_K); (b "N", _pkt_N); (b "P", _pkt_P); (b "R", _pkt_R);
   (b "T", _pkt_T); (b "V", _pkt_V); (b "Z", _pkt_Z)].

Definition lookup_method (pkt_type : str) : option (M unit) :=
  (fun entry => entry.2) <$> find (fun entry => bool_decide (entry.1 = pkt_type)) method_table.

(** Read a single response from the backend *)
Definition __read_response : M unit :=
  pkt_type <- __read_bytes 1 ;;
  modify (fun s => set_pkt_log (pkt_log s ++ [pkt_type]) s) ;;
  match lookup_method pkt_type with
  | Some method => method
  | None =>
      raise (InterfaceError (b "Unrecognized packet type from server: " ++ pkt_type))
  end.

(** [while not self.__ready: self.__read_response()] *)
Definition read_until_ready : M unit :=
  fuel <- gets bytes_left ;;
  while_ (S fuel) (ready <- gets __ready ;; ret (ready =? 0)) __read_response.

(** ["%<n>s"] of [struct.pack]: cut or NUL-padded to [n] bytes. *)
Definition pack_s (n : nat) (s : str) : str := take n (s ++ replicate n NUL).

(** The end of [Connection.__init__], once the socket is connected: the
    startup packet for protocol version 2.0, then packets until the
    backend is ready. *)
Definition startup (dbname user options : str) : M unit :=
  __send (be_bytes 4 296 ++ be_bytes 2 2 ++ be_bytes 2 0 ++ pack_s 64 dbname
            ++ pack_s 32 user ++ pack_s 64 options ++ pack_s 64 [] ++ pack_s 64 []) ;;
  read_until_ready.

(** [_execute], from the point where the command text is final (the
    parameters, if any, are already substituted), up to the end of the
    packet loop. *)
Definition run_batch (cmd : str) : M unit :=
  modify (set___ready 0) ;;
  modify (set___result None) ;;
  __new_result ;;
  __send (b "Q" ++ cmd ++ [NUL]) ;;
  read_until_ready.

Definition _execute (cmd : str)
    : M (option (list (str * type_tag)) * option (list (list pyval))
         * list (exc_class * str) * str) :=
  let expanded_cmd := cmd in
  run_batch cmd ;;
  all <- gets __result ;;
  match all with
  | None => raise TypeError
  | Some all =>
      let result := slice_to all (-1) in
      modify (set___result None) ;;
      (* Convert old-style results to what the new Cursor class expects *)
      match result with
      | [] => raise IndexError
      | result :: _ =>
          result <- gets (fun s => result_sets s !!! result) ;;
          match error result with
          | Some (ch :: msg) => raise (DatabaseError (ch :: msg))
          | _ => ret (description result, rows result, messages result, expanded_cmd)
          end
      end
  end.

End WithLib.
End Connection.

(** The attributes [Connection.__init__] sets before it sends anything, on
    a connected socket [sock], with [tm] the clone of the default type
    manager and [h] the descriptors that exist. *)
Definition new_connection (sock : socket) (password user : str)
    (tm : _TypeManager) (h : pg_store) (sys_in : list str) : state :=
  {| __backend_pid := None; __backend_key := None; __socket := Some sock;
     __input_buffer := []; __authenticated := 0; __ready := 0;
     __result := None; __current_result := None; __notify_queue := [];
     __func_result := None; type_manager := tm; __passwd := password;
     __userid := user; stdin := None; stdout := None; result_sets := [];
     descriptors := h; sys_stdin := sys_in; sys_stdout := []; pkt_log := [] |}.

(** ** The default type manager *)

(** [s.split(sep)] for a one-character separator. *)
Fixpoint split (sep : ascii) (s : str) : list str :=
  match s with
  | [] => [[]]
  | ch :: s' =>
      if decide (ch = sep) then [] :: split sep s'
      else match split sep s' with
           | part :: parts => (ch :: part) :: parts
           | [] => [[ch]]
           end
  end.

Global Instance valid_date_dec y m d : Decision (valid_date y m d).
Proof. unfold valid_date. apply _. Defined.

Section Defaults.
Context `{PyLib}.

(** The integer an [int] or a [long] holds. *)
Definition as_integer (r : outcome pyval) : outcome Z :=
  match r with
  | Returns (PyInt z) | Returns (PyLong z) => Returns z
  | Returns _ => Raises TypeError
  | Raises e => Raises e
  end.

Definition _date_convert (s : str) : outcome pyval :=
  match split "-"%char s with
  | [y; m; d] =>
      match as_integer (py_int y) with
      | Returns y =>
          match as_integer (py_int m) with
          | Returns m =>
              match as_integer (py_int d) with
              | Returns d => if decide (valid_date y m d) then Returns (PyDate y m d)
                             else Raises ValueError
              | Raises e => Raises e
              end
          | Raises e => Raises e
          end
      | Raises e => Raises e
      end
  | _ => Raises ValueError
  end.

(** [lambda x: "'%s'::date" % str(x)] *)
Definition date_to_sql (x : pyval) : outcome pyval :=
  match py_str x with
  | Returns s => Returns (PyStr (b "'" ++ s ++ b "'::date"))
  | Raises e => Raises e
  end.

(** [DEFAULT_TYPE_MANAGER] and the descriptors it points to, after the
    registrations at module level. *)
Definition default_registrations : _TypeManager * pg_store :=
  let st := (TypeManager.__init__, []) in
  let st := TypeManager.register_pgsql (inr [b "char"; b "varchar"; b "text"])
              _char_convert STRING st in
  let st := TypeManager.register_pgsql (inl (b "bytea")) _identity BINARY st in
  let st := TypeManager.register_pgsql (inr [b "int2"; b "int4"]) py_int NUMBER st in
  let st := TypeManager.register_pgsql (inl (b "int8")) py_long NUMBER st in
  let st := TypeManager.register_pgsql (inr [b "float4"; b "float8"]) py_float NUMBER st in
  let st := TypeManager.register_pgsql (inl (b "numeric")) py_Decimal NUMBER st in
  let st := TypeManager.register_pgsql (inl (b "oid")) py_long ROWID st in
  let st := TypeManager.register_pgsql (inl (b "bool")) _bool_convert (TagName (b "bool")) st in
  let st := TypeManager.register_pgsql (inl (b "date")) _date_convert DATETIME st in
  TypeManager.register_python DateType date_to_sql st.

Definition DEFAULT_TYPE_MANAGER : _TypeManager := default_registrations.1.

End Defaults.

(** ** A library instance for closed examples

    Text is decoded when it is pure ASCII (where UTF-8 is the identity),
    integers are read from plain decimal digits, and there is no [crypt]
    module.  The theorems below hold for every instance; the examples are
    run with this one. *)

Definition ascii_decode (s : str) : option ustr :=
  if forallb (fun ch => ord ch <? 128) s then Some (N_of_ascii <$> s) else None.

Fixpoint decimal_value (s : str) (acc : Z) : option Z :=
  match s with
  | [] => Some acc
  | ch :: s' =>
      if (48 <=? ord ch) && (ord ch <=? 57) then decimal_value s' (10 * acc + (ord ch - 48))
      else None
  end.

Definition parse_decimal (s : str) : outcome pyval :=
  match s with
  | [] => Raises ValueError
  | ch :: s' =>
      if decide (ch = "-"%char) then
        match s', decimal_value s' 0 with
        | _ :: _, Some z => Returns (PyInt (- z))
        | _, _ => Raises ValueError
        end
      else match decimal_value s 0 with
           | Some z => Returns (PyInt z)
           | None => Raises ValueError
           end
  end.

Definition ascii_lib : PyLib :=
  {| utf8_decode := ascii_decode;
     py_int := parse_decimal;
     py_long := parse_decimal;
     py_float := fun s => Returns (PyObject (b "float") s);
     py_Decimal := fun s => Returns (PyObject (b "Decimal") s);
     crypt_module := None;
     md5_hexdigest := fun s => s |}.

(** ** The literal encoder as the specification words it *)

(** A backslash before every backslash and every single quote. *)
Definition escaped {A} `{EqDecision A} (backslash quote : A) (s : list A) : list A :=
  s ≫= (fun ch => if decide (ch = backslash ∨ ch = quote) then [backslash; ch] else [ch]).

(** The [w] decimal digits of [n], most significant first: the YYYY, MM
    and DD of a date. *)
Definition fixed_digits (w : nat) (n : Z) : str :=
  (fun i => digit_char ((n / 10 ^ Z.of_nat (w - 1 - i)) mod 10)) <$> seq 0 w.

(** Checking a decidable property on the [k] integers from [n] on. *)
Fixpoint all_from (k : nat) (n : Z) (P : Z -> bool) : bool :=
  match k with
  | O => true
  | S k' => P n && all_from k' (n + 1) P
  end.

(** ** The copy-in stream as the specification words it *)

(** The line that ends a copy stream: backslash, period, newline. *)
Definition copy_terminator : str := BACKSLASH :: b "." ++ [NL].

(** The lines read before end-of-input (an empty [readline]) or before a
    terminator line. *)
Fixpoint lines_before_end (lines : list str) : list str :=
  match lines with
  | [] => []
  | s :: rest =>
      if bool_decide (s = []) || bool_decide (s = copy_terminator) then []
      else s :: lines_before_end rest
  end.

(** What goes out: the lines, a newline when the last of them lacks one,
    and the terminator line. *)
Definition copy_in_stream (lines : list str) : str :=
  let sent := lines_before_end lines in
  concat sent
    ++ match last sent with
       | Some line => if bool_decide (last line = Some NL) then [] else [NL]
       | None => []
       end
    ++ copy_terminator.

(** The lines left in [self.stdin] ([own]) or in [sys.stdin]. *)
Definition file_of (own : bool) (s : state) : list str :=
  if own then default [] (stdin s) else sys_stdin s.

(** The input [_pkt_G] reads from. *)
Definition copy_source (s : state) : list str :=
  match stdin s with
  | Some lines => lines
  | None => sys_stdin s
  end.

(** The packet types of a batch in which neither CommandComplete nor
    ErrorResponse was handled. *)
Definition no_completion (tags : list str) : Prop :=
  Forall (fun t => t ≠ b "C" /\ t ≠ b "E") tags.

(** ** What a computation leaves alone *)

(** [m] does not change the part [view] of the state, whatever its outcome. *)
Definition frames {V A} (view : state -> V) (m : M A) : Prop :=
  forall s, view (m s).2 = view s.

(** The bundles: the list of the batch, the current bundle, the objects. *)
Definition result_view (s : state) : option (list nat) * option nat * list _ResultSet :=
  (__result s, __current_result s, result_sets s).

(** ** Invariants of the result assembler *)

(** A bundle never has both an error and a completion tag. *)
Definition one_outcome (r : _ResultSet) : Prop :=
  ~ (is_Some (error r) /\ is_Some (completed r)).

(** The rows of a bundle have as many values as its description has
    fields, the count that [set_description] stored. *)
Definition rows_match (r : _ResultSet) : Prop :=
  forall rws, rows r = Some rws ->
    exists d, description r = Some d
              /\ num_fields r = len d
              /\ Forall (fun row : list pyval => length row = length d) rws.

Definition bundle_ok (r : _ResultSet) : Prop := one_outcome r /\ rows_match r.

(** A bundle that has seen neither [C] nor [E]. *)
Definition open_bundle (r : _ResultSet) : Prop := error r = None /\ completed r = None.

(** The state of the assembler during a batch whose bundles are the
    objects from address [n0] on: these bundles are well formed, the
    current one is one of them and still open, and the list of the batch
    holds only them.  Every address in use is that of an object. *)
Definition batch_inv (n0 : nat) (s : state) : Prop :=
  (n0 <= length (result_sets s))%nat
  /\ (forall r, (n0 <= r)%nat -> bundle_ok (result_sets s !!! r))
  /\ (forall r, __current_result s = Some r ->
        (n0 <= r < length (result_sets s))%nat /\ open_bundle (result_sets s !!! r))
  /\ (forall l r, __result s = Some l -> r ∈ l ->
        (n0 <= r < length (result_sets s))%nat).

(** [m] keeps the invariant, whatever its outcome. *)
Definition keeps {A} (n0 : nat) (m : M A) : Prop :=
  forall s, batch_inv n0 s -> batch_inv n0 (m s).2.

(** Every value [m] returns satisfies [Q]. *)
Definition returns {A} (Q : A -> Prop) (m : M A) : Prop :=
  forall s a, (m s).1 = Ok a -> Q a.

(** ** Row decoding as the specification words it *)

Section RowSpec.
Local Open Scope py_scope.

(** ceil(n/8), the size of the NULL bitmap of [n] fields. *)
Definition bitmap_size (n : Z) : Z := n / 8 + (if n mod 8 =? 0 then 0 else 1).

(** The bit of field [i]: bytes in order, most significant bit first, so
    that the most significant bit of the first byte is field 0. *)
Definition field_present (bitmap : str) (i : nat) : bool :=
  match bitmap !! (i / 8)%nat with
  | Some byte => Z.testbit (ord byte) (7 - Z.of_nat (i mod 8))
  | None => false
  end.

(** The decoder of field [i] of bundle [result], applied to [data]. *)
Definition apply_decoder (result i : nat) (data : str) : M pyval :=
  conv <- gets (fun s => conversion (result_sets s !!! result)) ;;
  match conv with
  | None => raise TypeError
  | Some conv =>
      match conv !! i with
      | None => raise IndexError
      | Some f => lift (f data)
      end
  end.

(** One field: when its bit is set, a 4-byte big-endian length (which
    counts itself in an AsciiRow), then that many bytes, decoded; when it
    is clear, nothing is read and the value is null. *)
Definition decode_field (ascii : bool) (result : nat) (bitmap : str) (i : nat) : M pyval :=
  if field_present bitmap i then
    raw <- Connection.__read_bytes 4 ;;
    length <- lift (unpack_i raw) ;;
    let size := if ascii then length - 4 else length in
    data <- Connection.__read_bytes size ;;
    apply_decoder result i data
  else ret PyNone.

Fixpoint decode_fields (ascii : bool) (result : nat) (bitmap : str) (fields : list nat)
    : M (list pyval) :=
  match fields with
  | [] => ret []
  | i :: fields' =>
      v <- decode_field ascii result bitmap i ;;
      vs <- decode_fields ascii result bitmap fields' ;;
      ret (v :: vs)
  end.

(** A row for the current bundle: the bitmap, the fields, and the row
    appended to the rows of the bundle. *)
Definition decode_row (ascii : bool) : M unit :=
  result <- current_result_object ;;
  n <- gets (fun s => num_fields (result_sets s !!! result)) ;;
  bitmap <- Connection.__read_bytes (bitmap_size n) ;;
  row <- decode_fields ascii result bitmap (range n) ;;
  rws <- gets (fun s => rows (result_sets s !!! result)) ;;
  match rws with
  | None => raise AttributeError
  | Some rws => update_result result (set_rows (Some (rws ++ [row])))
  end.

End RowSpec.

(** A bundle with a field description of [n] fields, as
    [set_description] leaves it. *)
Definition described (n : Z) (r : _ResultSet) : Prop :=
  0 <= n /\ num_fields r = n /\ null_byte_count r = Z.shiftr (n + 7) 3.

(** ** A connection in the middle of a batch, for closed examples

    The current bundle is the only one of the batch; it has the
    description of [SELECT NULL::text, 'hi'] (two fields of type OID 25,
    which the bootstrap has not bound, so the default descriptor
    applies), and [wire] is what the backend sends next. *)
Definition two_text_fields : list (list ascii * Z * Z * Z) :=
  [(b "a", 25, -1, -1); (b "b", 25, -1, -1)].

Definition mid_batch (wire : list ascii) : state :=
  let tm := TypeManager._clone (@DEFAULT_TYPE_MANAGER ascii_lib) in
  let h := (@default_registrations ascii_lib).2 in
  let bundle :=
    set_conversion
      (Some ((fun d => @TypeManager.get_conversion ascii_lib tm h d.1.1.2) <$> two_text_fields))
      (@set_description ascii_lib two_text_fields tm h new_ResultSet) in
  let s := new_connection {| incoming := [wire]; outgoing := [] |} [] (b "user") tm h [] in
  set___current_result (Some 0%nat) (set___result (Some [0%nat]) (set_result_sets [bundle] s)).

(** ** Termination and consumption of input *)

(** The call of [m] in state [s] is not cut off by an iteration bound. *)
Definition terminates_at {A} (m : M A) (s : state) : Prop := (m s).1 ≠ OutOfFuel.

Definition terminates {A} (m : M A) : Prop := forall s, terminates_at m s.

(** [m] never adds to the input that is left. *)
Definition shrinks {A} (m : M A) : Prop :=
  forall s, (bytes_left (m s).2 <= bytes_left s)%nat.

(** ** Exceptions of the public methods

    The engine raises the exceptions of [exn]; the cursor, the connection
    string parser and the public methods of the connection raise some more. *)
Inductive exception :=
| Raised (e : exn)
| Error (msg : list ascii)
| ProgrammingError (msg : list ascii)
| StopIteration
| UnboundLocalError.

(** The classes derived from the module's [Error], [Error] included. *)
Definition is_Error (e : exception) : bool :=
  match e with
  | Raised e => is_library_error e
  | Error _ | ProgrammingError _ => true
  | StopIteration | UnboundLocalError => false
  end.

(** Outcome of a call into a function that has no loop over the socket. *)
Inductive result (A : Type) :=
| Value (a : A)
| Throws (e : exception).
Arguments Value {A} a.
Arguments Throws {A} e.

(** ** The connection string *)

(** The characters [str.strip()] takes off: space, tab, newline, vertical
    tab, form feed and carriage return. *)
Definition is_space (ch : ascii) : bool :=
  (ord ch =? 32) || ((9 <=? ord ch) && (ord ch <=? 13)).

Fixpoint lstrip (s : list ascii) : list ascii :=
  match s with
  | ch :: s' => if is_space ch then lstrip s' else s
  | [] => []
  end.

Definition strip (s : list ascii) : list ascii := reverse (lstrip (reverse (lstrip s))).

(** The local variables of [_parseDSN]; [keyword] is unbound until the
    first [=] is read. *)
Record dsn_locals := {
  dsn_result : gmap (list ascii) (list ascii);
  dsn_state : Z;
  dsn_buf : list ascii;
  dsn_keyword : option (list ascii)
}.

(** [result[keyword] = buf] *)
Definition dsn_store (l : dsn_locals) : result (gmap (list ascii) (list ascii)) :=
  match dsn_keyword l with
  | Some keyword => Value (<[keyword := dsn_buf l]> (dsn_result l))
  | None => Throws UnboundLocalError
  end.

(** The body of the loop of [_parseDSN], for one character. *)
Definition dsn_step (l : dsn_locals) (ch : ascii) : result dsn_locals :=
  let '{| dsn_result := result; dsn_state := state; dsn_buf := buf;
          dsn_keyword := keyword |} := l in
  if state =? 1 then        (* reading keyword *)
    if decide (ch = "="%char) then
      Value {| dsn_result := result; dsn_state := 2; dsn_buf := [];
               dsn_keyword := Some (strip buf) |}
    else
      Value {| dsn_result := result; dsn_state := state; dsn_buf := buf ++ [ch];
               dsn_keyword := keyword |}
  else if state =? 2 then   (* have read '=' *)
    if decide (ch = "'"%char) then
      Value {| dsn_result := result; dsn_state := 3; dsn_buf := buf;
               dsn_keyword := keyword |}
    else if decide (ch <> " "%char) then
      Value {| dsn_result := result; dsn_state := 4; dsn_buf := [ch];
               dsn_keyword := keyword |}
    else Value l
  else if state =? 3 then   (* reading single-quoted val *)
    if decide (ch = "'"%char) then
      match dsn_store l with
      | Value result =>
          Value {| dsn_result := result; dsn_state := 1; dsn_buf := [];
                   dsn_keyword := keyword |}
      | Throws e => Throws e
      end
    else
      Value {| dsn_result := result; dsn_state := state; dsn_buf := buf ++ [ch];
               dsn_keyword := keyword |}
  else if state =? 4 then   (* reading non-quoted val *)
    if decide (ch = " "%char) then
      match dsn_store l with
      | Value result =>
          Value {| dsn_result := result; dsn_state := 1; dsn_buf := [];
                   dsn_keyword := keyword |}
      | Throws e => Throws e
      end
    else
      Value {| dsn_result := result; dsn_state := state; dsn_buf := buf ++ [ch];
               dsn_keyword := keyword |}
  else Value l.

(** [for ch in text: ...] *)
Fixpoint dsn_loop (l : dsn_locals) (text : list ascii) : result dsn_locals :=
  match text with
  | [] => Value l
  | ch :: text' =>
      match dsn_step l ch with
      | Value l' => dsn_loop l' text'
      | Throws e => Throws e
      end
  end.

Definition _parseDSN (s : option (list ascii)) : result (gmap (list ascii) (list ascii)) :=
  match s with
  | None | Some [] => Value ∅
  | Some s =>
      match dsn_loop {| dsn_result := ∅; dsn_state := 1; dsn_buf := [];
                        dsn_keyword := None |} (strip s) with
      | Value l =>
          (* was reading non-quoted val when string ran out *)
          if dsn_state l =? 4 then dsn_store l else Value (dsn_result l)
      | Throws e => Throws e
      end
  end.






(** The keyword is bound whenever the parser is past the first [=]. *)
Definition dsn_bound (l : dsn_locals) : Prop :=
  dsn_state l = 1 \/ is_Some (dsn_keyword l).

(** ** Cursors *)

(** [l[i:j]] and [l[i]] for a list: a negative index counts from the end;
    a slice clips its bounds, an index out of range raises IndexError. *)
Definition slice {A} (l : list A) (i j : Z) : list A :=
  drop (slice_bound l i) (take (slice_bound l j) l).

Definition index {A} (l : list A) (i : Z) : option A :=
  if i <? 0 then (if - i <=? len l then l !! Z.to_nat (len l + i) else None)
  else l !! Z.to_nat i.

Module Cursor.

(** The connection a cursor was created from: the one whose state the
    computations thread. *)
Inductive connection_ref := TheConnection.

Record t := {
  arraysize : Z;
  connection : option connection_ref;
  description : option (list (list ascii * type_tag));
  lastrowid : option Z;
  messages : list (exc_class * list ascii);
  rowcount : Z;
  rownumber : option Z;
  __rows : option (list (list pyval));
  query : list ascii
}.

Definition set_rownumber (v : option Z) (self : t) : t :=
  {| arraysize := arraysize self; connection := connection self;
     description := description self; lastrowid := lastrowid self;
     messages := messages self; rowcount := rowcount self; rownumber := v;
     __rows := __rows self; query := query self |}.

Definition __init__ (conn : option connection_ref) : t :=
  {| arraysize := 1; connection := conn; description := None; lastrowid := None;
     messages := []; rowcount := -1; rownumber := None; __rows := None; query := [] |}.

(** [close]: [self.__init__(None)] *)
Definition close (self : t) : t := __init__ None.

Definition no_result_set : exception := Error (b "No result set available").

Definition fetchmany (size : option Z) (self : t) : result (list (list pyval)) * t :=
  match __rows self with
  | None => (Throws no_result_set, self)
  | Some rows =>
      let size := default (arraysize self) size in
      match rownumber self with
      | None => (Throws (Raised TypeError), self)
      | Some n =>
          let self := set_rownumber (Some (n + size)) self in
          (Value (slice rows n (n + size)), self)
      end
  end.

Definition fetchall (self : t) : result (list (list pyval)) * t :=
  match __rows self with
  | None => (Throws no_result_set, self)
  | Some _ =>
      match rownumber self with
      | None => (Throws (Raised TypeError), self)
      | Some n => fetchmany (Some (rowcount self - n)) self
      end
  end.

Definition next (self : t) : result (list pyval) * t :=
  match __rows self with
  | None => (Throws no_result_set, self)
  | Some rows =>
      match rownumber self with
      | None =>
          (* [None >= rowcount] is false; [None + 1] raises *)
          (Throws (Raised TypeError), self)
      | Some n =>
          if rowcount self <=? n then (Throws StopIteration, self)
          else
            let self := set_rownumber (Some (n + 1)) self in
            match index rows n with
            | Some row => (Value row, self)
            | None => (Throws (Raised IndexError), self)
            end
      end
  end.

(** [fetchone]: the next row, or [None] when [next] raises StopIteration. *)
Definition fetchone (self : t) : result (option (list pyval)) * t :=
  match next self with
  | (Value row, self) => (Value (Some row), self)
  | (Throws StopIteration, self) => (Value None, self)
  | (Throws e, self) => (Throws e, self)
  end.

Definition scroll (n : Z) (mode : list ascii) (self : t) : result unit * t :=
  match __rows self with
  | None => (Throws no_result_set, self)
  | Some _ =>
      let newpos :=
        if decide (mode = b "relative") then
          match rownumber self with
          | Some pos => Value (pos + n)
          | None => Throws (Raised TypeError)
          end
        else if decide (mode = b "absolute") then Value n
        else Throws (ProgrammingError (b "Unknown scroll mode [" ++ mode ++ b "]")) in
      match newpos with
      | Value newpos =>
          if (newpos <? 0) || (rowcount self <=? newpos)
          then (Throws (Raised IndexError), self)
          else (Value tt, set_rownumber (Some newpos) self)
      | Throws e => (Throws e, self)
      end
  end.

(** [for row in self: ...], collecting the rows: [__iter__] gives the
    cursor itself, and the loop calls [next] until it raises
    StopIteration; [None] when the bound [fuel] cuts the loop off. *)
Fixpoint rows_of_iteration (fuel : nat) (self : t)
    : option (result (list (list pyval)) * t) :=
  match fuel with
  | O => None
  | S fuel' =>
      match next self with
      | (Value row, self) =>
          match rows_of_iteration fuel' self with
          | Some (Value rows, self) => Some (Value (row :: rows), self)
          | other => other
          end
      | (Throws StopIteration, self) => Some (Value [], self)
      | (Throws e, self) => Some (Throws e, self)
      end
  end.

Section WithLib.
Context `{PyLib}.

(** [execute(cmd)], without parameters. *)
Definition execute (cmd : list ascii) (self : t) (s : state) : res unit * t * state :=
  let self :=
    {| arraysize := arraysize self; connection := connection self;
       description := None; lastrowid := lastrowid self; messages := [];
       rowcount := -1; rownumber := None; __rows := None; query := query self |} in
  match connection self with
  | None => (Raise AttributeError, self, s)
  | Some TheConnection =>
      match Connection._execute cmd s with
      | (Ok (description, rows, messages, query), s) =>
          let self :=
            {| arraysize := arraysize self; connection := connection self;
               description := description; lastrowid := lastrowid self;
               messages := messages; rowcount := rowcount self;
               rownumber := rownumber self; __rows := rows; query := query |} in
          match rows with
          | Some rows' =>
              (Ok tt,
               {| arraysize := arraysize self; connection := connection self;
                  description := description; lastrowid := lastrowid self;
                  messages := messages; rowcount := len rows';
                  rownumber := Some 0; __rows := rows; query := query |}, s)
          | None => (Ok tt, self, s)
          end
      | (Raise e, s) => (Raise e, self, s)
      | (OutOfFuel, s) => (OutOfFuel, self, s)
      end
  end.

End WithLib.
End Cursor.

(** A cursor that holds the rows [rows] of a query and stands at row
    [n], as [execute] and the fetches leave it. *)
Definition holds (rows : list (list pyval)) (n : Z) (c : Cursor.t) : Prop :=
  Cursor.__rows c = Some rows
  /\ Cursor.rowcount c = len rows
  /\ Cursor.rownumber c = Some n.

(** A cursor on which every fetch raises [Error] and changes nothing. *)
Definition refuses_fetches (c : Cursor.t) : Prop :=
  Cursor.next c = (Throws Cursor.no_result_set, c)
  /\ Cursor.fetchone c = (Throws Cursor.no_result_set, c)
  /\ (forall size, Cursor.fetchmany size c = (Throws Cursor.no_result_set, c))
  /\ Cursor.fetchall c = (Throws Cursor.no_result_set, c)
  /\ (forall n mode, Cursor.scroll n mode c = (Throws Cursor.no_result_set, c)).

(** ** Public methods of the connection *)

(** [_pack('!I', z)]: an unsigned 32-bit integer. *)
Definition pack_I (z : Z) : outcome (list ascii) :=
  if (0 <=? z) && (z <? 2 ^ 32) then Returns (be_bytes 4 z) else Raises StructError.

(** The arguments [funcall] takes: ints, longs and strings. *)
Inductive funarg :=
| ArgInt (z : Z)
| ArgLong (z : Z)
| ArgStr (s : list ascii).

(** [for x in l: body(x)] *)
Fixpoint for_each {A} (l : list A) (body : A -> M unit) : M unit :=
  match l with
  | [] => ret tt
  | x :: l' => body x ;; for_each l' body
  end.

Module Public.
Section WithLib.
Context `{PyLib}.

(** [__del__]: the Terminate message, then the socket is closed and
    forgotten. *)
Definition __del__ : M unit :=
  so <- gets __socket ;;
  match so with
  | Some _ => Connection.__send (b "X") ;; modify (set___socket None)
  | None => ret tt
  end.

Definition close : M unit :=
  so <- gets __socket ;;
  match so with
  | None => raise (InterfaceError (b "Can't close connection that's not open"))
  | Some _ => __del__
  end.



(** The body of the loop of [funcall] over the arguments. *)
Definition send_arg (arg : funarg) : M unit :=
  match arg with
  | ArgLong z =>
      if 0 <=? z then
        (* Make sure positive longs, such as OIDs, get sent back as unsigned ints *)
        size <- lift (pack_i 4) ;; value <- lift (pack_I z) ;;
        Connection.__send (size ++ value)
      else
        size <- lift (pack_i 4) ;; value <- lift (pack_i z) ;;
        Connection.__send (size ++ value)
  | ArgInt z =>
      size <- lift (pack_i 4) ;; value <- lift (pack_i z) ;;
      Connection.__send (size ++ value)
  | ArgStr arg =>
      size <- lift (pack_i (len arg)) ;;
      Connection.__send size ;;
      Connection.__send arg
  end.

(** [funcall], up to the packet loop: the FunctionCall message. *)
Definition send_funcall (oid : Z) (args : list funarg) : M unit :=
  modify (set___ready 0) ;;
  oid <- lift (pack_I oid) ;;
  nargs <- lift (pack_i (len args)) ;;
  Connection.__send (b "F" ++ [NUL] ++ oid ++ nargs) ;;
  for_each args send_arg.

Definition funcall (oid : Z) (args : list funarg) : M (option (list ascii)) :=
  send_funcall oid args ;;
  Connection.read_until_ready ;;
  result <- gets __func_result ;;
  modify (set___func_result None) ;;
  ret result.

End WithLib.
End Public.

(** What [funcall] puts on the wire for an argument: four bytes for an
    integer, the bytes of a string. *)
Definition arg_bytes (arg : funarg) : list ascii :=
  match arg with
  | ArgInt z | ArgLong z => be_bytes 4 z
  | ArgStr s => s
  end.

(** The arguments [struct] can pack: an int in the signed 32-bit range,
    a long in the signed or the unsigned one, a string shorter than
    2^31 bytes. *)
Definition arg_fits (arg : funarg) : Prop :=
  match arg with
  | ArgInt z => - 2 ^ 31 <= z < 2 ^ 31
  | ArgLong z => - 2 ^ 31 <= z < 2 ^ 32
  | ArgStr s => len s < 2 ^ 31
  end.

(** The FunctionCall message of protocol 2.0: [F], an empty string, the
    OID of the function, the number of arguments, and for each argument
    its size and its bytes. *)
Definition funcall_message (oid : Z) (args : list funarg) : list ascii :=
  b "F" ++ [NUL] ++ be_bytes 4 oid ++ be_bytes 4 (len args)
    ++ concat ((fun arg => be_bytes 4 (len (arg_bytes arg)) ++ arg_bytes arg) <$> args).

(** ** Reading a literal back

    A lexer for a literal between single quotes in which a backslash
    takes the next character as it is: the text up to the closing quote,
    unescaped, and what follows the closing quote; nothing when the
    input does not start with a quote or the literal is not closed. *)
Fixpoint read_quoted {A} `{EqDecision A} (backslash quote : A) (s : list A)
    : option (list A * list A) :=
  match s with
  | [] => None
  | ch :: s' =>
      if decide (ch = quote) then Some ([], s')
      else if decide (ch = backslash) then
        match s' with
        | [] => None
        | ch' :: s'' =>
            match read_quoted backslash quote s'' with
            | Some (text, rest) => Some (ch' :: text, rest)
            | None => None
            end
        end
      else
        match read_quoted backslash quote s' with
        | Some (text, rest) => Some (ch :: text, rest)
        | None => None
        end
  end.

Definition read_literal {A} `{EqDecision A} (backslash quote : A) (s : list A)
    : option (list A * list A) :=
  match s with
  | ch :: s' => if decide (ch = quote) then read_quoted backslash quote s' else None
  | [] => None
  end.

(** ** The input as a stream *)

(** The bytes the backend has sent and the engine has not read yet: the
    input buffer, then what the socket holds. *)
Definition pending (s : state) : list ascii :=
  __input_buffer s
    ++ match __socket s with
       | Some sock => concat (incoming sock)
       | None => []
       end.

(** The socket is open and the backend does not close the stream before
    the end of what it sends. *)
Definition receiving (s : state) : Prop :=
  exists sock, __socket s = Some sock /\ Forall (fun d => d <> []) (incoming sock).

(** The state [s] with its input replaced: [buf] in the buffer, the
    chunks [inc] on the socket. *)
Definition with_input (buf : list ascii) (inc : list (list ascii)) (s : state) : state :=
  set___input_buffer buf
    (set___socket
       (match __socket s with
        | Some sock => Some {| incoming := inc; outgoing := outgoing sock |}
        | None => None
        end) s).

(** The state [s'] is the state [s] with the stream [w] as its input. *)
Definition advanced (w : list ascii) (s s' : state) : Prop :=
  exists buf inc,
    s' = with_input buf inc s /\ buf ++ concat inc = w /\ Forall (fun d => d <> []) inc.

(** The state after the type byte of a response has gone to the log. *)
Definition logged (pkt_type : list ascii) (s : state) : state :=
  set_pkt_log (pkt_log s ++ [pkt_type]) s.

(** The bytes sent to the backend so far. *)
Definition sent (s : state) : list ascii :=
  match __socket s with
  | Some sock => outgoing sock
  | None => []
  end.

(** [m] only adds to the list of bundles of the batch. *)
Definition grows {A} (m : M A) : Prop :=
  forall s l0, __result s = Some l0 -> exists l, __result (m s).2 = Some (l0 ++ l).

(** The startup packet of protocol 2.0: its length, the version, and
    the five fields of fixed width. *)
Definition startup_packet (dbname user options : list ascii) : list ascii :=
  be_bytes 4 296 ++ be_bytes 2 2 ++ be_bytes 2 0 ++ Connection.pack_s 64 dbname
    ++ Connection.pack_s 32 user ++ Connection.pack_s 64 options
    ++ Connection.pack_s 64 [] ++ Connection.pack_s 64 [].

(** A packet that starts with its own length. *)
Definition password_packet (body : list ascii) : list ascii :=
  be_bytes 4 (len body + 4) ++ body.

(** Copy-out data: each line and a newline, then the terminator line. *)
Definition copy_out_stream (lines : list (list ascii)) : list ascii :=
  concat ((fun line => line ++ [NL]) <$> lines) ++ copy_terminator.

(** The file [_pkt_H] writes to: [self.stdout], or [sys.stdout]. *)
Definition copy_sink (s : state) : list (list ascii) :=
  match stdout s with
  | Some f => f
  | None => sys_stdout s
  end.

(** The answer to an authentication request: the password in clear for
    AuthenticationCleartextPassword ([None]), and for
    AuthenticationMD5Password with a salt, [md5] and the digest of the
    salt and the digest of password and user name. *)
Definition password_answer `{PyLib} (challenge : option (list ascii)) (s : state)
    : list ascii :=
  match challenge with
  | None => __passwd s ++ [NUL]
  | Some salt =>
      b "md5" ++ md5_hexdigest (md5_hexdigest (__passwd s ++ __userid s) ++ salt) ++ [NUL]
  end.

(** The authentication request for it. *)
Definition password_request (challenge : option (list ascii)) : list ascii :=
  b "R" ++ match challenge with
           | None => be_bytes 4 3
           | Some salt => be_bytes 4 5 ++ salt
           end.


(** * Properties *)

(** ** The literal encoder *)

Lemma replace_escaped {A} `{EqDecision A} (backslash quote : A) (s : list A) :
  backslash ≠ quote ->
  replace quote [backslash; quote] (replace backslash [backslash; backslash] s)
  = escaped backslash quote s.
Proof.
  intros Hne. induction s as [|ch s IH]; [reflexivity|].
  cbn [replace escaped mbind list_bind]. fold (escaped backslash quote s).
  destruct (decide (ch = backslash)) as [->|Hb].
  - cbn. rewrite !decide_False by congruence. rewrite decide_True by auto.
    cbn. by rewrite IH.
  - cbn. destruct (decide (ch = quote)) as [->|Hq].
    + rewrite decide_True by auto. cbn. by rewrite IH.
    + rewrite decide_False by (intros [?|?]; congruence). cbn. by rewrite IH.
Qed.

Lemma all_from_spec (k : nat) (n : Z) (P : Z -> bool) :
  all_from k n P = true -> forall i, n <= i < n + Z.of_nat k -> P i = true.
Proof.
  revert n. induction k as [|k IH]; intros n Hall i Hi; [lia|].
  cbn [all_from] in Hall. apply andb_true_iff in Hall as [Hn Hrest].
  destruct (decide (i = n)) as [->|Hne]; [done|].
  apply (IH (n + 1)); [done|lia].
Qed.

Lemma zero_pad_fixed_digits (w : nat) (bound : nat) (n : Z) :
  all_from bound 0 (fun i => bool_decide (zero_pad w i = fixed_digits w i)) = true ->
  0 <= n < Z.of_nat bound -> zero_pad w n = fixed_digits w n.
Proof.
  intros Hall Hn. apply (all_from_spec _ _ _ Hall n) in Hn.
  by apply bool_decide_eq_true in Hn.
Qed.

Lemma days_in_month_le (y m : Z) : days_in_month y m <= 31.
Proof. unfold days_in_month. repeat case_match; lia. Qed.

Lemma date_str_fixed (y m d : Z) :
  valid_date y m d ->
  date_str y m d = fixed_digits 4 y ++ b "-" ++ fixed_digits 2 m ++ b "-" ++ fixed_digits 2 d.
Proof.
  intros (Hy & Hm & Hd). pose proof (days_in_month_le y m).
  unfold date_str.
  rewrite (zero_pad_fixed_digits 4 (Z.to_nat 10000) y), (zero_pad_fixed_digits 2 100 m),
    (zero_pad_fixed_digits 2 100 d) by (lia || (vm_compute; reflexivity)).
  reflexivity.
Qed.

(** C8: with the default registrations, the literal encoder turns the null
    value into [NULL], a byte string or a unicode string into the string
    between single quotes with a backslash before every backslash and
    every single quote, and a calendar date into ['YYYY-MM-DD'::date]. *)
Theorem python_to_sql_default `{PyLib} :
  TypeManager.python_to_sql DEFAULT_TYPE_MANAGER PyNone = Returns (PyStr (b "NULL"))
  /\ (forall s : str,
        TypeManager.python_to_sql DEFAULT_TYPE_MANAGER (PyStr s)
        = Returns (PyStr (b "'" ++ escaped BACKSLASH QUOTE s ++ b "'")))
  /\ (forall s : ustr,
        TypeManager.python_to_sql DEFAULT_TYPE_MANAGER (PyUnicode s)
        = Returns (PyUnicode (u "'" ++ escaped (N_of_ascii BACKSLASH) (N_of_ascii QUOTE) s ++ u "'")))
  /\ (forall y m d : Z,
        valid_date y m d ->
        TypeManager.python_to_sql DEFAULT_TYPE_MANAGER (PyDate y m d)
        = Returns (PyStr (b "'" ++ fixed_digits 4 y ++ b "-" ++ fixed_digits 2 m ++ b "-"
                       ++ fixed_digits 2 d ++ b "'::date"))).
Proof.
  assert (Hconv : forall t, python_converters DEFAULT_TYPE_MANAGER !! t
                            = if decide (t = DateType) then Some date_to_sql else None).
  { intros t. unfold DEFAULT_TYPE_MANAGER, default_registrations, TypeManager.register_python.
    cbn [fst set_python_converters python_converters].
    replace (python_converters _) with (∅ : gmap pytype (pyval -> outcome pyval))
      by reflexivity.
    rewrite lookup_insert. repeat case_decide; congruence || by rewrite ?lookup_empty. }
  split; [|split; [|split]].
  - unfold TypeManager.python_to_sql. cbn [type_of]. rewrite Hconv.
    rewrite decide_False by discriminate. reflexivity.
  - intros s. unfold TypeManager.python_to_sql. cbn [type_of]. rewrite Hconv.
    rewrite decide_False by discriminate.
    rewrite (bool_decide_eq_true_2 (StrType ∈ StringTypes)) by (by left).
    unfold TypeManager.quoted.
    rewrite replace_escaped by (vm_compute; discriminate). reflexivity.
  - intros s. unfold TypeManager.python_to_sql. cbn [type_of]. rewrite Hconv.
    rewrite decide_False by discriminate.
    rewrite (bool_decide_eq_true_2 (UnicodeType ∈ StringTypes)) by (right; by left).
    unfold TypeManager.quoted. cbn [fmap list_fmap].
    rewrite replace_escaped by (vm_compute; discriminate). reflexivity.
  - intros y m d Hd. unfold TypeManager.python_to_sql. cbn [type_of]. rewrite Hconv.
    rewrite decide_True by done.
    unfold date_to_sql. cbn [py_str]. rewrite date_str_fixed by done.
    by rewrite <- !app_assoc.
Qed.

Lemma python_to_sql_default_witness :
  valid_date 2024 2 29
  /\ @TypeManager.python_to_sql (@DEFAULT_TYPE_MANAGER ascii_lib) (PyDate 2024 2 29)
     = Returns (PyStr (b "'2024-02-29'::date")).
Proof.
  split; [vm_compute; intuition discriminate|].
  apply (proj2 (proj2 (proj2 (@python_to_sql_default ascii_lib)))).
  vm_compute; intuition discriminate.
Defined.

(** ** Copy-in *)

Section CopyIn.
Context `{PyLib}.
Local Open Scope py_scope.

Lemma readline_run (own : bool) (s : state) :
  exists s',
    Connection.readline own s = (Ok (hd [] (file_of own s)), s')
    /\ file_of own s' = tl (file_of own s)
    /\ __socket s' = __socket s.
Proof.
  destruct s; destruct own; unfold Connection.readline, file_of, bind, gets; cbn.
  - destruct stdin0 as [[|line rest]|]; cbn; eauto.
  - destruct sys_stdin0 as [|line rest]; cbn; eauto.
Qed.

Lemma send_run (data : str) (s : state) (sock : socket) :
  __socket s = Some sock ->
  Connection.__send data s
  = (Ok tt, set___socket
              (Some {| incoming := incoming sock; outgoing := outgoing sock ++ data |}) s).
Proof. intros Hs. unfold Connection.__send, bind, gets, modify. by rewrite Hs. Qed.

Lemma file_of_set_socket own v s : file_of own (set___socket v s) = file_of own s.
Proof. by destruct s, own. Qed.

Lemma socket_set_socket v s : __socket (set___socket v s) = v.
Proof. by destruct s. Qed.

(** The read loop of [_pkt_G]: it sends the lines before the end and
    leaves with the last of them. *)
Lemma copy_loop_run (own : bool) (lines : list str) :
  forall (fuel : nat) (s : state) (inc : list str) (out : str) (lastline : option str),
    file_of own s = lines ->
    __socket s = Some {| incoming := inc; outgoing := out |} ->
    (length lines < fuel)%nat ->
    exists s',
      loop fuel
        (fun lastline : option str =>
           s <- Connection.readline own ;;
           if bool_decide (s = []) || bool_decide (s = BACKSLASH :: b "." ++ [NL])
           then ret (inr lastline)
           else Connection.__send s ;; ret (inl (Some s)))
        lastline s
      = (Ok (match last (lines_before_end lines) with
             | Some l => Some l
             | None => lastline
             end), s')
      /\ __socket s'
         = Some {| incoming := inc; outgoing := out ++ concat (lines_before_end lines) |}.
Proof.
  induction lines as [|line rest IH]; intros fuel s inc out lastline Hfile Hsock Hfuel.
  - destruct fuel as [|fuel]; [cbn in Hfuel; lia|].
    destruct (readline_run own s) as (s' & Hrun & _ & Hs').
    rewrite Hfile in Hrun. cbn [loop]. unfold bind at 1. unfold bind at 1.
    rewrite Hrun. cbn. exists s'. rewrite Hs', Hsock, app_nil_r. done.
  - destruct fuel as [|fuel]; [cbn in Hfuel; lia|].
    destruct (readline_run own s) as (s' & Hrun & Hfile' & Hs').
    rewrite Hfile in Hrun, Hfile'. cbn [hd tl] in Hrun, Hfile'.
    cbn [loop lines_before_end]. unfold bind at 1. unfold bind at 1.
    rewrite Hrun. fold copy_terminator.
    fold (b "." ++ [NL]). fold copy_terminator.
    destruct (bool_decide (line = []) || bool_decide (line = copy_terminator)) eqn:Hend.
    + cbn. exists s'. rewrite Hs', Hsock, app_nil_r. done.
    + rewrite Hsock in Hs'. unfold bind at 1. rewrite (send_run _ _ _ Hs'). cbn [ret].
      edestruct (IH fuel (set___socket
                   (Some {| incoming := inc; outgoing := out ++ line |}) s')
                   inc (out ++ line) (Some line)) as (s'' & Hloop & Hs'').
      { by rewrite file_of_set_socket. }
      { by rewrite socket_set_socket. }
      { cbn in Hfuel. lia. }
      exists s''. cbn [incoming outgoing]. split.
      * etransitivity; [exact Hloop|]. f_equal.
        destruct (lines_before_end rest) as [|x xs] eqn:Hr; [done|].
        rewrite last_cons_cons.
        destruct (last (x :: xs)) eqn:Hl; [done|]. by apply last_None in Hl.
      * rewrite Hs''. cbn [concat]. by rewrite app_assoc.
Qed.

Lemma last_lines_before_end_nonempty (lines : list str) :
  last (lines_before_end lines) ≠ Some [].
Proof.
  induction lines as [|x xs IH]; [done|].
  cbn. destruct x as [|c x]; [done|].
  cbn. case_match; [done|].
  destruct (lines_before_end xs) eqn:E; [done|].
  by rewrite last_cons_cons.
Qed.

Lemma pkt_G_run (s : state) (inc : list str) (out : str) :
  __socket s = Some {| incoming := inc; outgoing := out |} ->
  exists s',
    Connection._pkt_G s = (Ok tt, s')
    /\ __socket s'
       = Some {| incoming := inc; outgoing := out ++ copy_in_stream (copy_source s) |}.
Proof.
  intros Hsock. unfold Connection._pkt_G.
  unfold bind at 1. cbn [gets]. unfold bind at 1. cbn [gets].
  set (own := bool_decide (is_Some (stdin s))).
  assert (Hsrc : file_of own s = copy_source s).
  { unfold file_of, copy_source, own. destruct (stdin s); by cbn. }
  rewrite <- Hsrc.
  destruct (copy_loop_run own (file_of own s) (S (length (file_of own s))) s inc out None
              eq_refl Hsock ltac:(lia)) as (s' & Hloop & Hs').
  unfold bind at 1.
  replace (length (if own then default [] (stdin s) else sys_stdin s))
    with (length (file_of own s)) by reflexivity.
  rewrite Hloop. unfold copy_in_stream. fold copy_terminator.
  fold (b "." ++ [NL]). fold copy_terminator.
  pose proof (last_lines_before_end_nonempty (file_of own s)) as Hne.
  destruct (last (lines_before_end (file_of own s))) as [[|ch l]|] eqn:Hlast; [done| |].
  - unfold bind at 1. destruct (bool_decide (last (ch :: l) = Some NL)) eqn:Hnl.
    + cbn [ret]. rewrite (send_run _ _ _ Hs'). cbn [incoming outgoing].
      eexists; split; [reflexivity|].
      rewrite socket_set_socket. by rewrite app_nil_l, app_assoc.
    + rewrite (send_run _ _ _ Hs'). cbn [incoming outgoing].
      erewrite send_run by apply socket_set_socket.
      eexists; split; [reflexivity|].
      cbn [incoming outgoing]. rewrite socket_set_socket.
      by rewrite <- !app_assoc.
  - unfold bind at 1. cbn [ret]. rewrite (send_run _ _ _ Hs').
    eexists; split; [reflexivity|].
    cbn [incoming outgoing]. rewrite socket_set_socket.
    by rewrite app_nil_l, app_assoc.
Qed.

(** C9: on CopyInResponse, with the socket open, the handler returns
    and what it has sent is, in order, the lines read before
    end-of-input or before a terminator line, one newline when the last
    of these lines does not end in one, and the terminator line. *)
Theorem pkt_G_sends (s : state) (sock : socket) :
  __socket s = Some sock ->
  (Connection._pkt_G s).1 = Ok tt
  /\ __socket (Connection._pkt_G s).2
     = Some {| incoming := incoming sock;
               outgoing := outgoing sock ++ copy_in_stream (copy_source s) |}.
Proof.
  intros Hsock. destruct sock as [inc out].
  destruct (pkt_G_run s inc out Hsock) as (s' & -> & Hs'). done.
Qed.

End CopyIn.

Lemma pkt_G_sends_witness :
  let s := new_connection {| incoming := []; outgoing := b "COPY" |} [] []
             TypeManager.__init__ [] [b "1" ++ [NL]; b "2"; copy_terminator; b "3"] in
  (Connection._pkt_G s).1 = Ok tt
  /\ __socket (Connection._pkt_G s).2
     = Some {| incoming := [];
               outgoing := b "COPY" ++ copy_in_stream (copy_source s) |}.
Proof.
  intros s. apply (pkt_G_sends s {| incoming := []; outgoing := b "COPY" |}). reflexivity.
Defined.

(** ** The type registry *)

Section Registry.
Context `{PyLib}.

(** C7: the lookup of a decoder by OID is a total function: it gives
    the descriptor the OID index holds for the OID and its decoder, and
    where the index has no entry, the default descriptor, whose
    category is [unknown] and whose decoder is the UTF-8 text decoder. *)
Theorem get_conversion_total (self : _TypeManager) (h : pg_store) (oid : Z) :
  match oid_map self !! oid with
  | Some r =>
      TypeManager.get_type self h oid = h !!! r
      /\ TypeManager.get_conversion self h oid = pg_converter (h !!! r)
  | None =>
      TypeManager.get_type self h oid = TypeManager._DEFAULT_PGTYPE
      /\ TypeManager.get_conversion self h oid = _char_convert
      /\ pg_type_id (TypeManager.get_type self h oid) = TagName (b "unknown")
  end.
Proof.
  unfold TypeManager.get_conversion, TypeManager.get_type.
  destruct (oid_map self !! oid); auto.
Qed.

(** After [register_oid], the OID index and the name index hold the
    same descriptor, and this is what the lookup gives. *)
Lemma get_type_register_oid (oid : Z) (name : str) (self : _TypeManager) (h : pg_store) :
  let st := TypeManager.register_oid oid name (self, h) in
  exists r, pg_types st.1 !! name = Some r
            /\ oid_map st.1 !! oid = Some r
            /\ TypeManager.get_type st.1 st.2 oid = st.2 !!! r.
Proof.
  unfold TypeManager.register_oid, TypeManager.get_type.
  destruct (pg_types self !! name) as [r|] eqn:Hname; cbn.
  - exists r. by rewrite lookup_insert_eq.
  - exists (length h). by rewrite !lookup_insert_eq.
Qed.

(** The first registration under a name that [register_oid] has bound
    moves the OID to the new descriptor. *)
Lemma register_pgsql_name_rebinds (name : str) (conv : converter) (type_id : type_tag)
    (self : _TypeManager) (h : pg_store) (r : nat) (oid : Z) :
  pg_types self !! name = Some r ->
  pg_oid (h !!! r) = Some oid ->
  let st := TypeManager.register_pgsql_name conv type_id (self, h) name in
  pg_types st.1 !! name = Some (length h)
  /\ oid_map st.1 !! oid = Some (length h)
  /\ st.2 !!! length h = new_PgType name conv type_id.
Proof.
  intros Hname Hoid. unfold TypeManager.register_pgsql_name.
  rewrite Hname, Hoid. cbn [fst snd set_oid_map set_pg_types oid_map pg_types].
  rewrite !lookup_insert_eq.
  split; [done|]. split; [done|]. by apply list_lookup_total_middle.
Qed.

(** A registration under a name whose descriptor carries no OID leaves
    the OID index as it is; the descriptor a registration installs
    carries none. *)
Lemma register_pgsql_name_unbound (name : list ascii) (conv : converter) (type_id : type_tag)
    (self : _TypeManager) (h : pg_store) (r : nat) :
  pg_types self !! name = Some r ->
  pg_oid (h !!! r) = None ->
  let st := TypeManager.register_pgsql_name conv type_id (self, h) name in
  oid_map st.1 = oid_map self
  /\ pg_types st.1 !! name = Some (length h)
  /\ pg_oid (st.2 !!! length h) = None.
Proof.
  intros Hname Hoid. unfold TypeManager.register_pgsql_name.
  rewrite Hname, Hoid. cbn [fst snd set_pg_types oid_map pg_types].
  rewrite lookup_insert_eq. split; [done|]. split; [done|].
  by rewrite list_lookup_total_middle.
Qed.

(** [register_oid] on a clone writes the OID into the descriptor the
    original holds under the name, and changes nothing else in the
    descriptors that existed. *)
Lemma register_oid_on_clone (M : _TypeManager) (h : pg_store) (name : list ascii)
    (r : nat) (oid : Z) :
  pg_types M !! name = Some r ->
  (r < length h)%nat ->
  let st := TypeManager.register_oid oid name (TypeManager._clone M, h) in
  st.2 = <[r := set_pg_oid (Some oid) (h !!! r)]> h
  /\ pg_oid (st.2 !!! r) = Some oid.
Proof.
  intros Hname Hr. unfold TypeManager.register_oid, TypeManager._clone.
  cbn [pg_types]. rewrite Hname. cbn [fst snd].
  apply lookup_lt_is_Some in Hr as [x Hx].
  assert (Hh : alter (set_pg_oid (Some oid)) r h = <[r := set_pg_oid (Some oid) (h !!! r)]> h).
  { apply list_eq. intros i.
    rewrite list_lookup_alter, list_lookup_insert.
    rewrite list_lookup_total_alt, Hx. cbn.
    pose proof (lookup_lt_Some _ _ _ Hx).
    destruct (decide (r = i)) as [->|Hne].
    - by rewrite decide_True by done.
    - by rewrite decide_False by (intros [? _]; done). }
  rewrite Hh. split; [done|].
  rewrite list_lookup_total_alt, list_lookup_insert_eq by (by eapply lookup_lt_Some). done.
Qed.

(** C2, at the bootstrap of a connection: binding the OID of [int4] in
    the clone writes the OID into the descriptor that the default type
    manager holds under that name. *)
Theorem register_oid_on_clone_writes_default :
  let M := DEFAULT_TYPE_MANAGER in
  let h := default_registrations.2 in
  let C := TypeManager._clone M in
  let st := TypeManager.register_oid 23 (b "int4") (C, h) in
  exists r, pg_types M !! b "int4" = Some r
            /\ pg_oid (h !!! r) = None
            /\ pg_oid (st.2 !!! r) = Some 23.
Proof. exists 5%nat. vm_compute. auto. Qed.

(** C3: after [register_oid] has bound OID 17 to [bytea], a first
    registration under that name moves the OID to its descriptor, and
    a second one leaves the OID on the descriptor of the first. *)
Theorem second_register_pgsql_keeps_old_descriptor :
  let st0 := TypeManager.register_oid 17 (b "bytea") default_registrations in
  let st1 := TypeManager.register_pgsql (inl (b "bytea")) _identity BINARY st0 in
  let st2 := TypeManager.register_pgsql (inl (b "bytea")) _bool_convert (TagName (b "bool")) st1 in
  oid_map st1.1 !! 17 = pg_types st1.1 !! b "bytea"
  /\ oid_map st2.1 !! 17 = pg_types st1.1 !! b "bytea"
  /\ oid_map st2.1 !! 17 ≠ pg_types st2.1 !! b "bytea"
  /\ pg_type_id (TypeManager.get_type st2.1 st2.2 17) = BINARY.
Proof. vm_compute. repeat split; discriminate. Qed.

End Registry.

(** ** Frame rules *)

Section Frames.
Context {V : Type} (view : state -> V).
Local Open Scope py_scope.

Lemma frames_ret {A} (a : A) : frames view (ret a).
Proof. by intros s. Qed.

Lemma frames_raise {A} (e : exn) : frames view (@raise A e).
Proof. by intros s. Qed.

Lemma frames_gets {A} (f : state -> A) : frames view (gets f).
Proof. by intros s. Qed.

Lemma frames_lift {A} (r : outcome A) : frames view (lift r).
Proof. by intros s. Qed.

Lemma frames_out_of_fuel {A} : frames view (fun s => (@OutOfFuel A, s)).
Proof. by intros s. Qed.

Lemma frames_modify (f : state -> state) :
  (forall s, view (f s) = view s) -> frames view (modify f).
Proof. intros Hf s. apply Hf. Qed.

Lemma frames_bind {A B} (m : M A) (k : A -> M B) :
  frames view m -> (forall a, frames view (k a)) -> frames view (bind m k).
Proof.
  intros Hm Hk s. unfold bind. specialize (Hm s).
  destruct (m s) as [[a|e|] s']; cbn in *; [|done..].
  by rewrite Hk.
Qed.

Lemma frames_while (fuel : nat) (cond : M bool) (body : M unit) :
  frames view cond -> frames view body -> frames view (while_ fuel cond body).
Proof.
  intros Hc Hb. induction fuel as [|fuel IH]; cbn [while_].
  - apply frames_bind; [done|]. intros []; [apply frames_out_of_fuel|apply frames_ret].
  - apply frames_bind; [done|]. intros []; [|apply frames_ret].
    apply frames_bind; auto.
Qed.

Lemma frames_loop {L A} (fuel : nat) (body : L -> M (L + A)) (l : L) :
  (forall l, frames view (body l)) -> frames view (loop fuel body l).
Proof.
  intros Hb. revert l. induction fuel as [|fuel IH]; intros l; cbn [loop].
  - apply frames_out_of_fuel.
  - apply frames_bind; [done|]. intros [l'|a]; [apply IH|apply frames_ret].
Qed.

Lemma frames_collect {A} (n : nat) (body : M A) :
  frames view body -> frames view (collect n body).
Proof.
  intros Hb. induction n as [|n IH]; cbn [collect]; [apply frames_ret|].
  apply frames_bind; [done|]. intros x.
  apply frames_bind; [done|]. intros xs. apply frames_ret.
Qed.

End Frames.

(** A frame for a view is a frame for what is computed from the view. *)
Lemma frames_compose {V W A} (view : state -> V) (f : V -> W) (m : M A) :
  frames view m -> frames (fun s => f (view s)) m.
Proof. intros Hm s. by rewrite Hm. Qed.

(** Breaks a frame goal down along the structure of the computation. *)
Ltac frames_step :=
  lazymatch goal with
  | |- frames _ (bind _ _) => apply frames_bind; [|intros ?]
  | |- frames _ (ret _) => apply frames_ret
  | |- frames _ (raise _) => apply frames_raise
  | |- frames _ (gets _) => apply frames_gets
  | |- frames _ (lift _) => apply frames_lift
  | |- frames _ (fun s => (OutOfFuel, s)) => apply frames_out_of_fuel
  | |- frames _ (while_ _ _ _) => apply frames_while
  | |- frames _ (loop _ _ _) => apply frames_loop; intros ?
  | |- frames _ (collect _ _) => apply frames_collect
  | |- frames _ (modify _) =>
      apply frames_modify; intros []; first [reflexivity | cbn; repeat case_match; reflexivity]
  | |- frames _ (match ?x with _ => _ end) => destruct x
  | |- frames _ (let '(_, _) := ?x in _) => destruct x
  end.

Create HintDb frames.

Ltac frames_auto := repeat (first [solve [auto with frames] | frames_step]).

Section IoFrames.
(** Reading and writing leave the bundles alone. *)

Lemma recv_frames_results n : frames result_view (Connection.__recv n).
Proof. unfold Connection.__recv. frames_auto. Qed.

Lemma send_frames_results d : frames result_view (Connection.__send d).
Proof. unfold Connection.__send. frames_auto. Qed.

Hint Resolve recv_frames_results send_frames_results : frames.

Lemma read_bytes_frames_results n : frames result_view (Connection.__read_bytes n).
Proof. unfold Connection.__read_bytes. frames_auto. Qed.

Lemma read_string_frames_results t : frames result_view (Connection.__read_string t).
Proof. unfold Connection.__read_string. frames_auto. Qed.

End IoFrames.

#[global] Hint Resolve recv_frames_results send_frames_results
  read_bytes_frames_results read_string_frames_results : frames.

(** ** Notices before the first batch *)

Section Startup.
Context `{PyLib}.

Lemma current_result_of_view (s s' : state) :
  result_view s' = result_view s -> __current_result s' = __current_result s.
Proof. unfold result_view. congruence. Qed.

(** Without a current bundle the notice handler does not return. *)
Lemma pkt_N_without_bundle (s : state) :
  __current_result s = None -> (Connection._pkt_N s).1 ≠ Ok tt.
Proof.
  intros Hcur. unfold Connection._pkt_N, bind at 1.
  pose proof (read_string_frames_results NUL s) as Hview.
  apply current_result_of_view in Hview.
  destruct (Connection.__read_string NUL s) as [[msg|e|] s']; cbn in *; [|done..].
  unfold bind, current_result_object, bind, gets. rewrite Hview, Hcur. done.
Qed.

(** C4: the backend accepts the startup packet and sends a notice before
    it is ready: the startup loop ends in the AttributeError of the
    notice handler, which finds no bundle to append to. *)
Theorem startup_notice_raises :
  let server := [b "R" ++ be_bytes 4 0; b "Nwelcome" ++ [NUL]; b "Z"] in
  let s := new_connection {| incoming := server; outgoing := [] |} [] (b "user")
             (TypeManager._clone DEFAULT_TYPE_MANAGER) default_registrations.2 [] in
  (Connection.startup (b "db") (b "user") [] s).1 = Raise AttributeError
  /\ __ready (Connection.startup (b "db") (b "user") [] s).2 = 0
  /\ __input_buffer (Connection.startup (b "db") (b "user") [] s).2 = [].
Proof. vm_compute. auto. Qed.

End Startup.

(** ** The result assembler *)

Section Assembler.
Context `{PyLib}.
Local Open Scope py_scope.

Lemma batch_inv_view (n0 : nat) (s s' : state) :
  result_view s' = result_view s -> batch_inv n0 s -> batch_inv n0 s'.
Proof.
  unfold result_view, batch_inv. intros Hv. injection Hv as -> -> ->. done.
Qed.

Lemma keeps_frames {A} (n0 : nat) (m : M A) : frames result_view m -> keeps n0 m.
Proof. intros Hm s. apply batch_inv_view, Hm. Qed.

Lemma keeps_bind {A B} (n0 : nat) (m : M A) (k : A -> M B) :
  keeps n0 m -> (forall a, keeps n0 (k a)) -> keeps n0 (bind m k).
Proof.
  intros Hm Hk s Hs. unfold bind. specialize (Hm s Hs).
  destruct (m s) as [[a|e|] s']; cbn in *; [|done..].
  by apply Hk.
Qed.

Lemma keeps_while (n0 fuel : nat) (cond : M bool) (body : M unit) :
  keeps n0 cond -> keeps n0 body -> keeps n0 (while_ fuel cond body).
Proof.
  intros Hc Hb. induction fuel as [|fuel IH]; cbn [while_].
  - apply keeps_bind; [done|]. intros []; by intros s.
  - apply keeps_bind; [done|]. intros []; [|by intros s].
    apply keeps_bind; auto.
Qed.

Lemma new_ResultSet_ok : bundle_ok new_ResultSet /\ open_bundle new_ResultSet.
Proof.
  repeat split; cbn; try done.
  - by intros [[? ?] _].
Qed.

(** The objects are what they were after an allocation: the new object
    is what a lookup past the end already gave. *)
Lemma lookup_total_alloc (sets : list _ResultSet) (r : nat) :
  (sets ++ [new_ResultSet]) !!! r = sets !!! r.
Proof.
  destruct (decide (r < length sets)%nat).
  - by rewrite lookup_total_app_l.
  - rewrite (list_lookup_total_alt sets), lookup_ge_None_2 by lia.
    rewrite list_lookup_total_alt.
    destruct ((sets ++ [new_ResultSet]) !! r) as [x|] eqn:Hx; [|done].
    apply lookup_app_Some in Hx as [Hx|[_ Hx]].
    + apply lookup_lt_Some in Hx. lia.
    + destruct (r - length sets)%nat; cbn in Hx; [by inversion Hx|done].
Qed.

Lemma lookup_total_alter (f : _ResultSet -> _ResultSet) (sets : list _ResultSet) (r r' : nat) :
  alter f r sets !!! r' = sets !!! r'
  \/ (r' = r /\ alter f r sets !!! r' = f (sets !!! r')).
Proof.
  destruct (decide (r' = r)) as [->|Hne].
  - destruct (decide (r < length sets)%nat) as [Hlt|Hge].
    + right. split; [done|].
      apply lookup_lt_is_Some in Hlt as [x Hx].
      rewrite !list_lookup_total_alt, list_lookup_alter, Hx.
      rewrite decide_True by done. done.
    + left. rewrite !list_lookup_total_alt, list_lookup_alter.
      rewrite decide_True by done. rewrite lookup_ge_None_2 by lia. done.
  - left. by rewrite !list_lookup_total_alt, list_lookup_alter_ne.
Qed.

(** The state after [__new_result]. *)
Lemma new_result_run (s : state) :
  let s' := (Connection.__new_result s).2 in
  result_sets s' = result_sets s ++ [new_ResultSet]
  /\ __current_result s' = Some (length (result_sets s))
  /\ __result s' = Some (default [] (__result s) ++ [length (result_sets s)]).
Proof. destruct s as [? ? ? ? ? ? [l|] ? ? ? ? ? ? ? ? ? ? ? ? ?]; cbn; auto. Qed.

(** Starting a new bundle restores the invariant once the bundle that
    was current has received its outcome. *)
Lemma new_result_restores (n0 : nat) (s : state) :
  (n0 <= length (result_sets s))%nat ->
  (forall r, (n0 <= r)%nat -> bundle_ok (result_sets s !!! r)) ->
  (forall l r, __result s = Some l -> r ∈ l -> (n0 <= r < length (result_sets s))%nat) ->
  batch_inv n0 (Connection.__new_result s).2.
Proof.
  intros Hlen Hok Hlist.
  destruct (new_result_run s) as (Hsets & Hcur & Hres).
  unfold batch_inv. rewrite Hsets, Hcur, Hres, length_app. cbn [length].
  split; [lia|]. split; [|split].
  - intros r Hr. rewrite lookup_total_alloc. by apply Hok.
  - intros r [= <-]. split; [lia|]. rewrite lookup_total_alloc.
    rewrite list_lookup_total_alt, lookup_ge_None_2 by lia. apply new_ResultSet_ok.
  - intros l r [= <-] Hr. apply elem_of_app in Hr as [Hr|Hr].
    + destruct (__result s) as [l0|] eqn:Hl0; cbn in Hr;
        [|by apply elem_of_nil in Hr].
      specialize (Hlist l0 r eq_refl Hr). lia.
    + apply list_elem_of_singleton in Hr as ->. lia.
Qed.

Lemma keeps_new_result (n0 : nat) : keeps n0 Connection.__new_result.
Proof.
  intros s (Hlen & Hok & _ & Hlist). by apply new_result_restores.
Qed.

End Assembler.

(** ** Rows *)

Section Rows.
Context `{PyLib}.
Local Open Scope py_scope.

Lemma returns_ret {A} (Q : A -> Prop) (a : A) : Q a -> returns Q (ret a).
Proof. intros Ha s a' [= <-]. done. Qed.

Lemma returns_raise {A} (Q : A -> Prop) (e : exn) : returns Q (raise e).
Proof. by intros s a. Qed.

Lemma returns_bind {A B} (Q : B -> Prop) (m : M A) (k : A -> M B) :
  (forall a, returns Q (k a)) -> returns Q (bind m k).
Proof.
  intros Hk s a'. unfold bind. destruct (m s) as [[a|e|] s']; [|done..].
  apply Hk.
Qed.

Lemma fields_frame_results (ascii : bool) (result : nat) (null_bits : Z) (fields : list nat) :
  forall field_mask row,
    frames result_view (Connection.read_fields ascii result null_bits fields field_mask row).
Proof.
  induction fields as [|field_num fields IH]; intros field_mask row;
    cbn [Connection.read_fields]; frames_auto.
Qed.

Lemma fields_fill_row (ascii : bool) (result : nat) (null_bits : Z) (fields : list nat) :
  forall field_mask row,
    returns (fun row' => length row' = (length row + length fields)%nat)
      (Connection.read_fields ascii result null_bits fields field_mask row).
Proof.
  induction fields as [|field_num fields IH]; intros field_mask row;
    cbn [Connection.read_fields].
  - apply returns_ret. cbn. lia.
  - intros s row'. unfold bind at 1.
    match goal with |- context [(?m s)] =>
      assert (Hone : returns (fun r => length r = S (length row)) m) end.
    { case_match; [apply returns_ret; rewrite length_app; cbn; lia|].
      repeat (apply returns_bind; intros ?).
      repeat case_match; try apply returns_raise.
      apply returns_bind; intros ?. apply returns_ret. rewrite length_app; cbn; lia. }
    match goal with |- context [(?m s)] =>
      specialize (Hone s); destruct (m s) as [[row1|e|] s1]; [|done..] end.
    intros Hrest. apply IH in Hrest. rewrite Hrest, (Hone row1 eq_refl). cbn. lia.
Qed.

Lemma set_rows_fields v r :
  error (set_rows v r) = error r /\ completed (set_rows v r) = completed r
  /\ description (set_rows v r) = description r /\ num_fields (set_rows v r) = num_fields r
  /\ rows (set_rows v r) = v.
Proof. by destruct r. Qed.

(** Appending a row with as many values as the bundle has fields keeps
    the invariant. *)
Lemma append_row_keeps (n0 result : nat) (rws : list (list pyval)) (row : list pyval)
    (s : state) :
  batch_inv n0 s ->
  rows (result_sets s !!! result) = Some rws ->
  length row = length (range (num_fields (result_sets s !!! result))) ->
  batch_inv n0 (update_result result (set_rows (Some (rws ++ [row]))) s).2.
Proof.
  intros (Hlen & Hok & Hcur & Hlist) Hrows Hrow.
  unfold update_result, modify. cbn [snd].
  destruct s; cbn in *. unfold batch_inv; cbn. rewrite length_alter.
  split; [done|]. split; [|split; [|done]].
  - intros r Hr.
    destruct (lookup_total_alter (set_rows (Some (rws ++ [row]))) result_sets0 result r)
      as [->|[-> ->]]; [by apply Hok|].
    destruct (Hok result Hr) as [Hone Hmatch].
    destruct (set_rows_fields (Some (rws ++ [row])) (result_sets0 !!! result))
      as (He & Hc & Hd & Hn & Hr').
    split.
    + unfold one_outcome. by rewrite He, Hc.
    + intros rws'. rewrite Hr', Hd, Hn. intros [= <-].
      destruct (Hmatch rws Hrows) as (d & Hdesc & Hnum & Hall).
      exists d. repeat split; [done..|].
      apply Forall_app. split; [done|]. apply Forall_singleton.
      rewrite Hrow, Hnum. unfold range, len. by rewrite length_seq, Nat2Z.id.
  - intros r Hr. destruct (Hcur r Hr) as [Hn0 Hopen]. split; [done|].
    destruct (lookup_total_alter (set_rows (Some (rws ++ [row]))) result_sets0 result r)
      as [->|[-> ->]]; [done|].
    destruct (set_rows_fields (Some (rws ++ [row])) (result_sets0 !!! result))
      as (He & Hc & _).
    unfold open_bundle. by rewrite He, Hc.
Qed.

Lemma keeps_read_row (n0 : nat) (ascii : bool) : keeps n0 (Connection.__read_row ascii).
Proof.
  unfold Connection.__read_row.
  apply keeps_bind; [apply keeps_frames; unfold current_result_object; frames_auto|].
  intros result. apply keeps_bind; [apply keeps_frames; frames_auto|].
  intros null_byte_count. apply keeps_bind; [apply keeps_frames; frames_auto|].
  intros [null_bits field_mask] s Hs.
  unfold bind at 1. cbn [gets]. unfold bind at 1.
  pose proof (fields_frame_results ascii result null_bits
                (range (num_fields (result_sets s !!! result))) field_mask [] s) as Hview.
  pose proof (fields_fill_row ascii result null_bits
                (range (num_fields (result_sets s !!! result))) field_mask [] s) as Hrow.
  destruct (Connection.read_fields _ _ _ _ _ _ s) as [[row|e|] s1]; cbn [fst snd] in *;
    [|by eapply batch_inv_view..].
  specialize (Hrow row eq_refl). cbn in Hrow.
  assert (Hsets : result_sets s1 = result_sets s) by (unfold result_view in Hview; congruence).
  apply (batch_inv_view n0 s s1 Hview) in Hs.
  unfold bind at 1. cbn [gets].
  destruct (rows (result_sets s1 !!! result)) as [rws|] eqn:Hrows; [|done].
  apply append_row_keeps; [done..|]. by rewrite Hsets.
Qed.

End Rows.

(** ** Packet handlers and the invariant *)

Section Handlers.
Context `{PyLib}.
Local Open Scope py_scope.

Lemma current_result_object_frames {V} (view : state -> V) :
  frames view current_result_object.
Proof. unfold current_result_object. frames_auto. Qed.

Lemma readline_frames_results own : frames result_view (Connection.readline own).
Proof. unfold Connection.readline. frames_auto. Qed.

Lemma write_frames_results own d : frames result_view (Connection.write own d).
Proof. unfold Connection.write. frames_auto. Qed.

Hint Resolve current_result_object_frames readline_frames_results
  write_frames_results : frames.

(** An update that respects the two bundle properties keeps the invariant. *)
Lemma keeps_update_result (n0 r : nat) (f : _ResultSet -> _ResultSet) :
  (forall x, bundle_ok x -> bundle_ok (f x)) ->
  (forall x, open_bundle x -> open_bundle (f x)) ->
  keeps n0 (update_result r f).
Proof.
  intros Hfok Hfopen s (Hlen & Hok & Hcur & Hlist).
  unfold update_result, modify. cbn [snd].
  destruct s; cbn in *. unfold batch_inv; cbn. rewrite length_alter.
  split; [done|]. split; [|split; [|done]].
  - intros r' Hr'.
    destruct (lookup_total_alter f result_sets0 r r') as [->|[-> ->]]; auto.
  - intros r' Hr'. destruct (Hcur r' Hr') as [Hn0 Hopen]. split; [done|].
    destruct (lookup_total_alter f result_sets0 r r') as [->|[-> ->]]; auto.
Qed.

(** Giving the current bundle its outcome and starting a new one. *)
Lemma keeps_finish_bundle (n0 : nat) (f : _ResultSet -> _ResultSet) :
  (forall x, open_bundle x -> bundle_ok x -> bundle_ok (f x)) ->
  keeps n0 (cur <- current_result_object ;; update_result cur f ;; Connection.__new_result).
Proof.
  intros Hf s Hs. pose proof Hs as (Hlen & Hok & Hcur & Hlist).
  unfold current_result_object, bind at 1. unfold bind at 1. cbn [gets].
  destruct (__current_result s) as [cur|] eqn:Hc; [|exact Hs].
  cbn [ret]. unfold bind, update_result, modify.
  destruct (Hcur cur eq_refl) as [Hn0 Hopen].
  apply new_result_restores; destruct s; cbn in *; rewrite ?length_alter.
  - done.
  - intros r Hr. destruct (lookup_total_alter f result_sets0 cur r) as [->|[-> ->]]; auto.
  - done.
Qed.

Lemma set_completed_ok v x : open_bundle x -> bundle_ok x -> bundle_ok (set_completed v x).
Proof.
  destruct x; intros [He Hc] [Hone Hmatch]; cbn in *; subst.
  split; [|done]. by intros [[? ?] _].
Qed.

Lemma set_error_ok v x : open_bundle x -> bundle_ok x -> bundle_ok (set_error v x).
Proof.
  destruct x; intros [He Hc] [Hone Hmatch]; cbn in *; subst.
  split; [|done]. by intros [_ [? ?]].
Qed.

Lemma keeps_pkt_C n0 : keeps n0 Connection._pkt_C.
Proof.
  unfold Connection._pkt_C. apply keeps_bind; [apply keeps_frames; frames_auto|].
  intros tag. apply keeps_finish_bundle, set_completed_ok.
Qed.

Lemma keeps_pkt_E n0 : keeps n0 Connection._pkt_E.
Proof.
  unfold Connection._pkt_E. apply keeps_bind; [apply keeps_frames; frames_auto|].
  intros [cur|]; [|apply keeps_frames; frames_auto].
  apply keeps_bind; [apply keeps_frames; frames_auto|].
  intros msg. apply keeps_finish_bundle, set_error_ok.
Qed.

Lemma keeps_pkt_N n0 : keeps n0 Connection._pkt_N.
Proof.
  unfold Connection._pkt_N. apply keeps_bind; [apply keeps_frames; frames_auto|].
  intros n. apply keeps_bind; [apply keeps_frames; frames_auto|].
  intros cur. apply keeps_update_result; by intros [].
Qed.

Lemma keeps_pkt_T n0 : keeps n0 Connection._pkt_T.
Proof.
  unfold Connection._pkt_T.
  repeat (apply keeps_bind; [apply keeps_frames; solve [frames_auto]|]; intros ?).
  apply keeps_bind.
  - apply keeps_update_result.
    + intros [] [Hone Hmatch]. split; [done|]. cbn. intros rws [= <-].
      eexists. split; [reflexivity|]. split; [|constructor].
      cbn. unfold len. by rewrite length_fmap.
    + by intros [].
  - intros _. apply keeps_bind; [apply keeps_frames; frames_auto|]. intros cur.
    apply keeps_update_result; by intros [].
Qed.

Lemma keeps_method n0 (pkt_type : str) (method : M unit) :
  Connection.lookup_method pkt_type = Some method -> keeps n0 method.
Proof.
  assert (Hall : Forall (fun entry : str * M unit => keeps n0 entry.2)
                   Connection.method_table).
  { unfold Connection.method_table.
    repeat apply Forall_cons_2; try apply Forall_nil_2; cbn [snd];
      first [ apply keeps_pkt_C | apply keeps_pkt_E | apply keeps_pkt_N | apply keeps_pkt_T
            | apply keeps_read_row | apply keeps_frames ].
    - unfold Connection._pkt_A. frames_auto.
    - unfold Connection._pkt_G. frames_auto.
    - unfold Connection._pkt_H. frames_auto.
    - unfold Connection._pkt_I. frames_auto.
    - unfold Connection._pkt_K. frames_auto.
    - unfold Connection._pkt_P. frames_auto.
    - unfold Connection._pkt_R. frames_auto.
    - unfold Connection._pkt_V. frames_auto.
    - unfold Connection._pkt_Z. frames_auto. }
  unfold Connection.lookup_method. intros Hfind.
  destruct (find _ _) as [entry|] eqn:Hentry; [|done].
  injection Hfind as <-. apply find_some in Hentry as [Hin _].
  rewrite Forall_forall in Hall. by apply Hall, list_elem_of_In.
Qed.

Lemma keeps_read_response n0 : keeps n0 Connection.__read_response.
Proof.
  unfold Connection.__read_response.
  repeat (apply keeps_bind; [apply keeps_frames; solve [frames_auto]|]; intros ?).
  destruct (Connection.lookup_method _) eqn:Hm; [by eapply keeps_method|].
  apply keeps_frames; frames_auto.
Qed.

Lemma keeps_read_until_ready n0 : keeps n0 Connection.read_until_ready.
Proof.
  unfold Connection.read_until_ready.
  apply keeps_bind; [apply keeps_frames; frames_auto|]. intros fuel.
  apply keeps_while; [apply keeps_frames; frames_auto|apply keeps_read_response].
Qed.

(** From any state, the batch started by [_execute] runs under the
    invariant for the bundles it allocates. *)
Lemma run_batch_inv (cmd : str) (s : state) :
  batch_inv (length (result_sets s)) (Connection.run_batch cmd s).2.
Proof.
  unfold Connection.run_batch.
  unfold bind at 1. cbn [modify]. unfold bind at 1. cbn [modify].
  set (s0 := set___result None (set___ready 0 s)).
  assert (Hsets : result_sets s0 = result_sets s) by by destruct s.
  rewrite <- Hsets.
  assert (Hres : __result s0 = None) by by destruct s.
  assert (Hinv : batch_inv (length (result_sets s0)) (Connection.__new_result s0).2).
  { apply new_result_restores; [done| |].
    - (* the bundles of earlier batches are below the new address *)
      intros r Hr. rewrite list_lookup_total_alt, lookup_ge_None_2 by done.
      apply new_ResultSet_ok.
    - intros l r Hl. congruence. }
  unfold bind at 1.
  change (Connection.__new_result s0) with (Ok tt, (Connection.__new_result s0).2).
  cbv iota beta.
  revert Hinv. generalize (Connection.__new_result s0).2. intros s1 Hinv.
  revert s1 Hinv. change (keeps (length (result_sets s0))
    (Connection.__send (b "Q" ++ cmd ++ [NUL]) ;; Connection.read_until_ready)).
  apply keeps_bind; [apply keeps_frames; frames_auto|].
  intros _. apply keeps_read_until_ready.
Qed.

End Handlers.

(** ** The bundles of a batch *)

Section Batch.
Context `{PyLib}.

(** What [set_description] stores: the number of fields of the row
    description, the size of the bitmap for it, a description of that
    length, and no rows. *)
Lemma set_description_fields desc_list tm h (r : _ResultSet) :
  let r' := set_description desc_list tm h r in
  num_fields r' = len desc_list
  /\ null_byte_count r' = Z.shiftr (len desc_list + 7) 3
  /\ (exists d, description r' = Some d /\ length d = length desc_list)
  /\ rows r' = Some []
  /\ error r' = error r /\ completed r' = completed r.
Proof.
  destruct r; cbn. repeat split; try done.
  eexists. split; [done|]. by rewrite length_fmap.
Qed.

Lemma batch_bundles (cmd : str) (s : state) :
  let s' := (Connection.run_batch cmd s).2 in
  Forall (fun r => bundle_ok (result_sets s' !!! r)) (default [] (__result s')).
Proof.
  intros s'. destruct (run_batch_inv cmd s) as (_ & Hok & _ & Hlist). fold s' in Hok, Hlist.
  apply Forall_forall. intros r Hr.
  destruct (__result s') as [l|] eqn:Hl; cbn in Hr; [|by apply elem_of_nil in Hr].
  apply Hok. by destruct (Hlist l r eq_refl Hr).
Qed.

(** C5: whatever packets arrive during a batch, and however the batch
    ends, no bundle of the batch has both its error and its completion
    tag set, and the current bundle has neither. *)
Theorem batch_error_completion_exclusive (cmd : str) (s : state) :
  let s' := (Connection.run_batch cmd s).2 in
  Forall (fun r => ~ (is_Some (error (result_sets s' !!! r))
                      /\ is_Some (completed (result_sets s' !!! r))))
    (default [] (__result s'))
  /\ match __current_result s' with
     | Some r => error (result_sets s' !!! r) = None
                 /\ completed (result_sets s' !!! r) = None
     | None => True
     end.
Proof.
  intros s'. split.
  - eapply Forall_impl; [apply batch_bundles|]. by intros r [Hone _].
  - destruct (run_batch_inv cmd s) as (_ & _ & Hcur & _). fold s' in Hcur.
    destruct (__current_result s') as [r|]; [|done]. by destruct (Hcur r eq_refl).
Qed.


End Batch.

(** ** The packet log and the list of bundles *)

(** Unfolds the engine down to the reads and writes of the state. *)
Ltac unfold_engine :=
  unfold Connection._pkt_A, Connection._pkt_B, Connection._pkt_C, Connection._pkt_D,
    Connection._pkt_E, Connection._pkt_G, Connection._pkt_H, Connection._pkt_I,
    Connection._pkt_K, Connection._pkt_N, Connection._pkt_P, Connection._pkt_R,
    Connection._pkt_T, Connection._pkt_V, Connection._pkt_Z, Connection.__read_row,
    Connection.__read_bytes, Connection.__read_string, Connection.__recv,
    Connection.__send, Connection.readline, Connection.write, Connection.__new_result,
    current_result_object, update_result.

Section Log.
Context `{PyLib}.
Local Open Scope py_scope.

Lemma fields_frame_log (ascii : bool) (result : nat) (null_bits : Z) (fields : list nat) :
  forall field_mask row,
    frames pkt_log (Connection.read_fields ascii result null_bits fields field_mask row).
Proof.
  induction fields as [|field_num fields IH]; intros field_mask row;
    cbn [Connection.read_fields]; unfold_engine; frames_auto.
Qed.

Lemma fields_frame_result_list (ascii : bool) (result : nat) (null_bits : Z)
    (fields : list nat) :
  forall field_mask row,
    frames __result (Connection.read_fields ascii result null_bits fields field_mask row).
Proof.
  induction fields as [|field_num fields IH]; intros field_mask row;
    cbn [Connection.read_fields]; unfold_engine; frames_auto.
Qed.

Hint Resolve fields_frame_log fields_frame_result_list : frames.

Lemma lookup_method_Forall (P : str -> M unit -> Prop) :
  Forall (fun entry : str * M unit => P entry.1 entry.2) Connection.method_table ->
  forall pkt_type method, Connection.lookup_method pkt_type = Some method -> P pkt_type method.
Proof.
  intros Hall pkt_type method. unfold Connection.lookup_method. intros Hfind.
  destruct (find _ _) as [entry|] eqn:Hentry; [|done].
  injection Hfind as <-. apply find_some in Hentry as [Hin Hkey].
  apply bool_decide_eq_true in Hkey as <-.
  rewrite Forall_forall in Hall. by apply Hall, list_elem_of_In.
Qed.

(** No handler writes to the packet log. *)
Lemma methods_frame_log (pkt_type : str) (method : M unit) :
  Connection.lookup_method pkt_type = Some method -> frames pkt_log method.
Proof.
  apply (lookup_method_Forall (fun _ m => frames pkt_log m)).
  unfold Connection.method_table.
  repeat apply Forall_cons_2; try apply Forall_nil_2; cbn [fst snd];
    unfold_engine; frames_auto.
Qed.

(** Only the handlers of [C] and [E] touch the list of bundles. *)
Lemma methods_frame_result_list (pkt_type : str) (method : M unit) :
  Connection.lookup_method pkt_type = Some method ->
  pkt_type ≠ b "C" -> pkt_type ≠ b "E" -> frames __result method.
Proof.
  apply (lookup_method_Forall
           (fun t m => t ≠ b "C" -> t ≠ b "E" -> frames __result m)).
  unfold Connection.method_table.
  repeat apply Forall_cons_2; try apply Forall_nil_2; cbn [fst snd];
    intros HC HE; try done; unfold_engine; frames_auto.
Qed.

End Log.

(** ** A batch without completion *)

Section EmptyBatch.
Context `{PyLib}.
Local Open Scope py_scope.

Lemma read_bytes_frames_log n : frames pkt_log (Connection.__read_bytes n).
Proof. unfold_engine. frames_auto. Qed.

Lemma read_bytes_frames_result_list n : frames __result (Connection.__read_bytes n).
Proof. unfold_engine. frames_auto. Qed.

Lemma set_pkt_log_fields v s :
  pkt_log (set_pkt_log v s) = v /\ __result (set_pkt_log v s) = __result s.
Proof. by destruct s. Qed.

(** One response: the log grows by at most the type of the packet, and
    the list of bundles changes only for a [C] or an [E]. *)
Lemma read_response_log (s : state) :
  let s' := (Connection.__read_response s).2 in
  exists tags, pkt_log s' = pkt_log s ++ tags
               /\ (no_completion tags -> __result s' = __result s).
Proof.
  intros s'. pose proof (eq_refl s') as Hs'. unfold s' at 2 in Hs'. clearbody s'.
  unfold Connection.__read_response, bind at 1 in Hs'.
  pose proof (read_bytes_frames_log 1 s) as Hlog.
  pose proof (read_bytes_frames_result_list 1 s) as Hres.
  destruct (Connection.__read_bytes 1 s) as [[pkt_type|e|] s1]; cbn [fst snd] in *;
    [|subst s'; exists []; by rewrite app_nil_r..].
  unfold bind at 1 in Hs'. cbn [modify] in Hs'.
  destruct (set_pkt_log_fields (pkt_log s1 ++ [pkt_type]) s1) as [Hlog2 Hres2].
  revert Hs' Hlog2 Hres2. generalize (set_pkt_log (pkt_log s1 ++ [pkt_type]) s1).
  intros s2 Hs' Hlog2 Hres2.
  exists [pkt_type].
  destruct (Connection.lookup_method pkt_type) as [method|] eqn:Hm; subst s'.
  - split.
    + rewrite (methods_frame_log _ _ Hm s2). congruence.
    + intros Hno. apply Forall_singleton in Hno as [HC HE].
      rewrite (methods_frame_result_list _ _ Hm HC HE s2). congruence.
  - cbn [raise snd]. split; [|intros _]; congruence.
Qed.

Lemma read_loop_log (fuel : nat) (s : state) :
  let s' := (while_ fuel (ready <- gets __ready ;; ret (ready =? 0))
               Connection.__read_response s).2 in
  exists tags, pkt_log s' = pkt_log s ++ tags
               /\ (no_completion tags -> __result s' = __result s).
Proof.
  revert s. induction fuel as [|fuel IH]; intros s s';
    pose proof (eq_refl s') as Hs'; unfold s' at 2 in Hs'; clearbody s';
    cbn [while_] in Hs'; unfold bind at 1 in Hs'; unfold bind at 1 in Hs';
    cbn [gets ret] in Hs'.
  - destruct (__ready s =? 0); subst s'; exists []; by rewrite app_nil_r.
  - destruct (__ready s =? 0); [|subst s'; exists []; by rewrite app_nil_r].
    unfold bind at 1 in Hs'.
    destruct (read_response_log s) as (tags1 & Hlog1 & Hres1).
    destruct (Connection.__read_response s) as [[[]|e|] s1]; cbn [fst snd] in *;
      [|subst s'; by exists tags1..].
    destruct (IH s1) as (tags2 & Hlog2 & Hres2). rewrite <- Hs' in Hlog2, Hres2.
    exists (tags1 ++ tags2). split.
    + rewrite Hlog2, Hlog1. by rewrite app_assoc.
    + intros Hno. apply Forall_app in Hno as [Hno1 Hno2].
      rewrite Hres2, Hres1; done.
Qed.

(** The batch as a whole: the list of bundles holds the one bundle the
    batch started with unless a [C] or an [E] was handled. *)
Lemma run_batch_log (cmd : str) (s : state) :
  let s' := (Connection.run_batch cmd s).2 in
  exists tags, pkt_log s' = pkt_log s ++ tags
               /\ (no_completion tags -> __result s' = Some [length (result_sets s)]).
Proof.
  intros s'. pose proof (eq_refl s') as Hs'. unfold s' at 2 in Hs'. clearbody s'.
  unfold Connection.run_batch in Hs'.
  unfold bind at 1 in Hs'. cbn [modify] in Hs'. unfold bind at 1 in Hs'. cbn [modify] in Hs'.
  unfold bind at 1 in Hs'.
  set (s1 := (Connection.__new_result (set___result None (set___ready 0 s))).2) in *.
  change (Connection.__new_result (set___result None (set___ready 0 s)))
    with (Ok tt, s1) in Hs'.
  cbv iota beta in Hs'.
  assert (Hs1 : pkt_log s1 = pkt_log s /\ __result s1 = Some [length (result_sets s)])
    by by destruct s.
  destruct Hs1 as [Hlog1 Hres1]. clearbody s1.
  unfold bind at 1 in Hs'.
  assert (Hsend : frames (fun s => (pkt_log s, __result s))
                    (Connection.__send (b "Q" ++ cmd ++ [NUL])))
    by (unfold_engine; frames_auto).
  specialize (Hsend s1).
  destruct (Connection.__send _ s1) as [[[]|e|] s2]; cbn [fst snd] in *;
    injection Hsend as Hlog2 Hres2;
    [|subst s'; exists []; rewrite app_nil_r; split; congruence..].
  unfold Connection.read_until_ready, bind at 1 in Hs'. cbn [gets] in Hs'.
  destruct (read_loop_log (S (bytes_left s2)) s2) as (tags & Hlog & Hres).
  rewrite <- Hs' in Hlog, Hres.
  exists tags. split; [congruence|]. intros Hno. rewrite Hres by done. congruence.
Qed.

(** C10: when the packet loop of a batch ends normally, that is with
    ReadyForQuery, and no [C] and no [E] packet was handled since the
    batch began, [_execute] strips the only bundle, indexes the empty list
    and raises IndexError, which is no subclass of the module's [Error]. *)
Theorem execute_without_completion (cmd : str) (s : state) :
  let s' := (Connection.run_batch cmd s).2 in
  (Connection.run_batch cmd s).1 = Ok tt ->
  no_completion (drop (length (pkt_log s)) (pkt_log s')) ->
  (Connection._execute cmd s).1 = Raise IndexError
  /\ is_library_error IndexError = false.
Proof.
  intros s' Hok Hno. split; [|done].
  destruct (run_batch_log cmd s) as (tags & Hlog & Hres). fold s' in Hlog, Hres.
  rewrite Hlog, drop_app_length in Hno. specialize (Hres Hno).
  unfold Connection._execute, bind at 1.
  destruct (Connection.run_batch cmd s) as [[[]|e|] s1]; cbn [fst snd] in *; [|done..].
  subst s'. unfold bind at 1. cbn [gets]. rewrite Hres. reflexivity.
Qed.

End EmptyBatch.

Lemma execute_without_completion_witness :
  let server := [b "I" ++ [NUL] ++ b "Z"] in
  let s := set___ready 1
             (new_connection {| incoming := server; outgoing := [] |} [] (b "user")
                (TypeManager._clone (@DEFAULT_TYPE_MANAGER ascii_lib))
                (@default_registrations ascii_lib).2 []) in
  (@Connection.run_batch ascii_lib (b " ") s).1 = Ok tt
  /\ pkt_log (@Connection.run_batch ascii_lib (b " ") s).2 = [b "I"; b "Z"]
  /\ (@Connection._execute ascii_lib (b " ") s).1 = Raise IndexError
  /\ is_library_error IndexError = false.
Proof.
  intros server s.
  split; [vm_compute; reflexivity|]. split; [vm_compute; reflexivity|].
  apply (@execute_without_completion ascii_lib (b " ") s).
  - vm_compute; reflexivity.
  - vm_compute. repeat constructor; discriminate.
Defined.

(** ** The NULL bitmap *)

Lemma bitmap_size_shift (n : Z) : Z.shiftr (n + 7) 3 = bitmap_size n.
Proof.
  unfold bitmap_size. rewrite Z.shiftr_div_pow2 by lia. change (2 ^ 3) with 8.
  destruct (n mod 8 =? 0) eqn:Hm; [apply Z.eqb_eq in Hm|apply Z.eqb_neq in Hm];
    Z.div_mod_to_equations; lia.
Qed.

Lemma ord_range (ch : ascii) : 0 <= ord ch < 256.
Proof.
  unfold ord. pose proof (N_ascii_bounded ch). lia.
Qed.

Lemma be_value_snoc (s : str) (ch : ascii) :
  be_value (s ++ [ch]) = Z.lor (Z.shiftl (be_value s) 8) (ord ch).
Proof. unfold be_value. by rewrite fold_left_app. Qed.

Lemma ord_testbit_high (ch : ascii) (k : Z) : 8 <= k -> Z.testbit (ord ch) k = false.
Proof.
  intros Hk. pose proof (ord_range ch) as Hr.
  destruct (decide (ord ch = 0)) as [->|Hne]; [apply Z.testbit_0_l|].
  apply Z.bits_above_log2; [lia|].
  assert (Z.log2 (ord ch) < 8); [|lia].
  apply Z.log2_lt_pow2; lia.
Qed.

(** Bit [8 * length s - 1 - i] of the big-endian value is bit
    [7 - i mod 8] of byte [i / 8]. *)
Lemma be_value_testbit (s : str) (i : nat) :
  (i < 8 * length s)%nat ->
  Z.testbit (be_value s) (8 * Z.of_nat (length s) - 1 - Z.of_nat i) = field_present s i.
Proof.
  revert i. induction s as [|ch s IH] using rev_ind; intros i Hi; [cbn in Hi; lia|].
  rewrite length_app in *. cbn [length] in *.
  rewrite be_value_snoc, Z.lor_spec.
  unfold field_present.
  destruct (decide (i < 8 * length s)%nat) as [Hlt|Hge].
  - rewrite Z.shiftl_spec by lia.
    replace (8 * Z.of_nat (length s + 1) - 1 - Z.of_nat i - 8)
      with (8 * Z.of_nat (length s) - 1 - Z.of_nat i) by lia.
    rewrite IH by done. rewrite ord_testbit_high by lia. rewrite orb_false_r.
    unfold field_present.
    assert (i / 8 < length s)%nat by (apply Nat.Div0.div_lt_upper_bound; lia).
    rewrite lookup_app_l by done. done.
  - assert (Hdiv : (i / 8 = length s)%nat).
    { symmetry. apply Nat.div_unique with (r := (i - 8 * length s)%nat); lia. }
    rewrite Hdiv, list_lookup_middle by done.
    assert (Hmod : (i mod 8 = i - 8 * length s)%nat).
    { symmetry. apply Nat.mod_unique with (q := length s); lia. }
    rewrite Hmod.
    rewrite Z.shiftl_spec by lia. rewrite Z.testbit_neg_r by lia. cbn [orb].
    f_equal. lia.
Qed.

(** The test of the source on the mask of field [i]. *)
Lemma null_bit_test (s : str) (i : nat) :
  (i < 8 * length s)%nat ->
  (Z.land (be_value s) (2 ^ (8 * Z.of_nat (length s) - 1 - Z.of_nat i)) =? 0)
  = negb (field_present s i).
Proof.
  intros Hi. rewrite <- be_value_testbit by done.
  set (k := 8 * Z.of_nat (length s) - 1 - Z.of_nat i).
  assert (0 <= k) by (unfold k; lia).
  destruct (Z.testbit (be_value s) k) eqn:Hbit; cbn [negb].
  - apply Z.eqb_neq. intros Hz.
    assert (Z.testbit (Z.land (be_value s) (2 ^ k)) k = false)
      by (rewrite Hz; apply Z.testbit_0_l).
    rewrite Z.land_spec, Hbit, Z.pow2_bits_true in H0 by done. done.
  - apply Z.eqb_eq. apply Z.bits_inj'. intros j Hj.
    rewrite Z.land_spec, Z.testbit_0_l.
    destruct (decide (j = k)) as [->|Hne]; [by rewrite Hbit|].
    rewrite Z.pow2_bits_false by lia. apply andb_false_r.
Qed.

(** ** Reading a row *)

Section ReadRow.
Local Open Scope py_scope.

Lemma bind_assoc {A B C} (m : M A) (f : A -> M B) (g : B -> M C) (s : state) :
  bind (bind m f) g s = bind m (fun a => bind (f a) g) s.
Proof. unfold bind. by destruct (m s) as [[a|e|] s']. Qed.

(** Two continuations that agree on what [m] returns. *)
Lemma bind_ext {A B} (m : M A) (f g : A -> M B) (s : state) :
  (forall a s', m s = (Ok a, s') -> f a s' = g a s') -> bind m f s = bind m g s.
Proof. intros Hfg. unfold bind. destruct (m s) as [[a|e|] s']; auto. Qed.

Lemma set_input_buffer_same (s : state) : set___input_buffer (__input_buffer s) s = s.
Proof. by destruct s. Qed.

(** Reading no bytes does nothing. *)
Lemma read_bytes_zero (s : state) : Connection.__read_bytes 0 s = (Ok [], s).
Proof.
  unfold Connection.__read_bytes, bind, gets, modify, ret. cbn [while_].
  unfold bind, gets, ret.
  assert (Hlen : (len (__input_buffer s) <? 0) = false)
    by (apply Z.ltb_ge; unfold len; lia).
  rewrite Hlen. unfold slice_from, slice_to, slice_bound. cbn.
  by rewrite drop_0, set_input_buffer_same.
Qed.

(** The read loop ends with enough bytes in the buffer. *)
Lemma read_loop_exit (n : Z) (body : M unit) (fuel : nat) :
  forall s s',
    while_ fuel (buf <- gets __input_buffer ;; ret (len buf <? n)) body s = (Ok tt, s') ->
    n <= len (__input_buffer s').
Proof.
  induction fuel as [|fuel IH]; intros s s'; cbn [while_];
    unfold bind at 1; unfold bind at 1; cbn [gets ret];
    destruct (len (__input_buffer s) <? n) eqn:Hlen; try done;
    try (intros [= <-]; lia).
  unfold bind at 1. destruct (body s) as [[[]|e|] s1]; [|done..]. apply IH.
Qed.

(** A read of [n >= 0] bytes returns exactly [n] bytes. *)
Lemma read_bytes_length (n : Z) (s s' : state) (data : str) :
  0 <= n -> Connection.__read_bytes n s = (Ok data, s') -> length data = Z.to_nat n.
Proof.
  intros Hn. unfold Connection.__read_bytes, bind at 1. cbn [gets]. unfold bind at 1.
  destruct (while_ _ _ _ s) as [[[]|e|] s1] eqn:Hloop; [|done..].
  apply read_loop_exit in Hloop.
  unfold bind, gets, modify, ret. intros [= <- _].
  unfold slice_to, slice_bound. rewrite (proj2 (Z.ltb_ge n 0)) by done.
  rewrite length_take. unfold len in Hloop. lia.
Qed.

Lemma null_mask_shift (k : Z) : 0 < k -> Z.shiftr (2 ^ k) 1 = 2 ^ (k - 1).
Proof.
  intros Hk. rewrite Z.shiftr_div_pow2 by lia.
  replace k with (k - 1 + 1) at 1 by lia. rewrite Z.pow_add_r by lia.
  rewrite Z.div_mul; [done|]. by change (2 ^ 1) with 2.
Qed.

(** The field loop of the source on the fields from [i0] on, with the
    mask of field [i0], gives the values the specification reads. *)
Lemma read_fields_decode (ascii : bool) (result : nat) (bitmap : str) (k : nat) :
  forall (i0 : nat) (row : list pyval) (s : state),
    (i0 + k <= 8 * length bitmap)%nat ->
    Connection.read_fields ascii result (be_value bitmap) (seq i0 k)
      (2 ^ (8 * Z.of_nat (length bitmap) - 1 - Z.of_nat i0)) row s
    = (vs <- decode_fields ascii result bitmap (seq i0 k) ;; ret (row ++ vs)) s.
Proof.
  induction k as [|k IH]; intros i0 row s Hk; cbn [seq Connection.read_fields decode_fields].
  - unfold bind, ret. by rewrite app_nil_r.
  - rewrite null_bit_test by lia. rewrite bind_assoc.
    assert (Hrest : forall v s',
              Connection.read_fields ascii result (be_value bitmap) (seq (S i0) k)
                (Z.shiftr (2 ^ (8 * Z.of_nat (length bitmap) - 1 - Z.of_nat i0)) 1)
                (row ++ [v]) s'
              = (vs <- (vs <- decode_fields ascii result bitmap (seq (S i0) k) ;;
                        ret (v :: vs)) ;;
                 ret (row ++ vs)) s').
    { intros v s'. destruct (decide (k = 0%nat)) as [->|Hk0].
      { reflexivity. }
      rewrite null_mask_shift by lia.
      replace (8 * Z.of_nat (length bitmap) - 1 - Z.of_nat i0 - 1)
        with (8 * Z.of_nat (length bitmap) - 1 - Z.of_nat (S i0)) by lia.
      rewrite IH by lia. rewrite bind_assoc. apply bind_ext. intros vs s'' _.
      unfold bind, ret. by rewrite <- app_assoc. }
    unfold decode_field. destruct (field_present bitmap i0); cbn [negb].
    + (* field has data present *)
      unfold apply_decoder. rewrite !bind_assoc. apply bind_ext. intros raw s1 _.
      rewrite !bind_assoc. apply bind_ext. intros field_size s2 _.
      rewrite !bind_assoc. apply bind_ext. intros data s3 _.
      rewrite !bind_assoc. apply bind_ext. intros conv s4 _.
      destruct conv as [conv|]; [|done].
      destruct (conv !! i0) as [f|]; [|done].
      rewrite bind_assoc. apply bind_ext. intros v s5 _. apply Hrest.
    + (* field has no data (is null) *)
      apply Hrest.
Qed.

End ReadRow.

Section ReadRowSpec.
Local Open Scope py_scope.

Lemma bind_ok {A B} (m : M A) (k : A -> M B) (s s' : state) (a : A) :
  m s = (Ok a, s') -> bind m k s = k a s'.
Proof. intros Hm. unfold bind. by rewrite Hm. Qed.

Lemma bind_run_eq {A B} (m m' : M A) (k : A -> M B) (s : state) :
  m s = m' s -> bind m k s = bind m' k s.
Proof. intros Hm. unfold bind. by rewrite Hm. Qed.

Lemma current_result_object_run (s : state) (r : nat) :
  __current_result s = Some r -> current_result_object s = (Ok r, s).
Proof. intros Hcur. unfold current_result_object, bind, gets. by rewrite Hcur. Qed.

Lemma bitmap_size_bounds (n : Z) : 0 <= n -> 0 <= bitmap_size n /\ n <= 8 * bitmap_size n.
Proof.
  intros Hn. unfold bitmap_size.
  destruct (n mod 8 =? 0) eqn:Hm; [apply Z.eqb_eq in Hm|apply Z.eqb_neq in Hm];
    Z.div_mod_to_equations; lia.
Qed.

Lemma first_field_mask (size : Z) :
  0 < size -> Z.shiftl 128 ((size - 1) * 8) = 2 ^ (8 * size - 1 - 0).
Proof.
  intros Hs. rewrite Z.shiftl_mul_pow2 by lia. change 128 with (2 ^ 7).
  rewrite <- Z.pow_add_r by lia. f_equal. lia.
Qed.

(** C1: for a current bundle with a field description of [n] fields, the
    row reader of the source is the decoder of the specification: a NULL
    bitmap of ceil(n/8) bytes whose most significant bit of the first byte
    is field 0; for a set bit a 4-byte big-endian length (less 4 in an
    AsciiRow), that many bytes and the decoder of the field; for a clear
    bit no bytes and a null value. *)
Theorem read_row_decodes (ascii : bool) (s : state) (r : nat) (n : Z) :
  __current_result s = Some r ->
  described n (result_sets s !!! r) ->
  Connection.__read_row ascii s = decode_row ascii s.
Proof.
  intros Hcur (Hn & Hnum & Hsize). rewrite bitmap_size_shift in Hsize.
  destruct (bitmap_size_bounds n Hn) as [Hsize0 Hbits].
  unfold Connection.__read_row, decode_row.
  rewrite !(bind_ok current_result_object _ s s r (current_result_object_run s r Hcur)).
  rewrite !(bind_ok (gets _) _ s s _ eq_refl). rewrite Hnum, Hsize.
  destruct (bitmap_size n =? 0) eqn:Hzero.
  - (* no field: no bitmap *)
    apply Z.eqb_eq in Hzero. assert (n = 0) as -> by lia. rewrite Hzero in *.
    rewrite (bind_ok _ _ s s _ (read_bytes_zero s)).
    rewrite (bind_ok (ret _) _ s s _ eq_refl).
    rewrite (bind_ok (gets _) _ s s _ eq_refl). rewrite Hnum. reflexivity.
  - apply Z.eqb_neq in Hzero. rewrite bind_assoc. apply bind_ext.
    intros bitmap s1 Hread.
    pose proof (read_bytes_length _ _ _ _ Hsize0 Hread) as Hlen.
    pose proof (read_bytes_frames_results (bitmap_size n) s) as Hview.
    rewrite Hread in Hview. cbn [snd] in Hview.
    assert (Hsets : result_sets s1 = result_sets s)
      by (unfold result_view in Hview; congruence).
    rewrite (bind_ok (ret _) _ s1 s1 _ eq_refl).
    rewrite (bind_ok (gets _) _ s1 s1 _ eq_refl). rewrite Hsets, Hnum.
    rewrite first_field_mask by lia.
    replace (bitmap_size n) with (Z.of_nat (length bitmap)) by lia.
    change (fold_left _ bitmap 0) with (be_value bitmap).
    unfold range. change (8 * Z.of_nat (length bitmap) - 1 - 0)
      with (8 * Z.of_nat (length bitmap) - 1 - Z.of_nat 0).
    etransitivity.
    { apply bind_run_eq. apply read_fields_decode. lia. }
    rewrite bind_assoc. reflexivity.
Qed.

End ReadRowSpec.

Lemma set_description_described `{PyLib} desc_list tm h (r : _ResultSet) :
  described (len desc_list) (set_description desc_list tm h r).
Proof.
  destruct (set_description_fields desc_list tm h r) as (Hn & Hb & _).
  unfold described, len in *. repeat split; [lia|done..].
Qed.

Lemma read_row_decodes_witness :
  let s := mid_batch (chr 64 :: be_bytes 4 6 ++ b "hi") in
  __current_result s = Some 0%nat
  /\ described 2 (result_sets s !!! 0%nat)
  /\ Connection.__read_row true s = decode_row true s.
Proof.
  intros s.
  assert (Hd : described 2 (result_sets s !!! 0%nat)).
  { unfold described. split; [lia|]. split; reflexivity. }
  split; [reflexivity|]. split; [exact Hd|].
  apply (read_row_decodes true s 0%nat 2); [reflexivity|exact Hd].
Defined.

(** End-to-end scenario 2: the row of [SELECT NULL::text, 'hi'] has the
    bitmap byte 0b01000000 and decodes to a null and the text. *)
Example decode_row_null_then_text :
  let s := mid_batch (chr 64 :: be_bytes 4 6 ++ b "hi") in
  (decode_row true s).1 = Ok tt
  /\ rows (result_sets (decode_row true s).2 !!! 0%nat) = Some [[PyNone; PyUnicode (u "hi")]]
  /\ __input_buffer (decode_row true s).2 = [].
Proof. vm_compute. auto. Qed.

(** Boundary behaviours: no field, no bitmap; 8 fields, one byte; 9
    fields, two; 33 fields, five. *)
Example bitmap_size_boundaries :
  bitmap_size 0 = 0 /\ bitmap_size 8 = 1 /\ bitmap_size 9 = 2 /\ bitmap_size 33 = 5.
Proof. vm_compute. auto. Qed.

(** ** The iteration bounds are never reached *)

Section Termination.
Local Open Scope py_scope.

Lemma terminates_ret {A} (a : A) : terminates (ret a).
Proof. by intros s. Qed.

Lemma terminates_raise {A} (e : exn) : terminates (@raise A e).
Proof. by intros s. Qed.

Lemma terminates_gets {A} (f : state -> A) : terminates (gets f).
Proof. by intros s. Qed.

Lemma terminates_modify (f : state -> state) : terminates (modify f).
Proof. by intros s. Qed.

Lemma terminates_lift {A} (r : outcome A) : terminates (lift r).
Proof. intros s. unfold terminates_at, lift. by destruct r. Qed.

Lemma terminates_at_bind {A B} (m : M A) (k : A -> M B) (s : state) :
  terminates_at m s ->
  (forall a s', m s = (Ok a, s') -> terminates_at (k a) s') ->
  terminates_at (bind m k) s.
Proof.
  unfold terminates_at, bind. intros Hm Hk.
  destruct (m s) as [[a|e|] s']; cbn in *; [by apply Hk|done..].
Qed.

Lemma terminates_everywhere {A} (m : M A) (s : state) : terminates m -> terminates_at m s.
Proof. intros Hm. apply Hm. Qed.

Lemma terminates_bind {A B} (m : M A) (k : A -> M B) :
  terminates m -> (forall a, terminates (k a)) -> terminates (bind m k).
Proof. intros Hm Hk s. apply terminates_at_bind; [apply Hm|]. intros a s' _. apply Hk. Qed.

Lemma terminates_collect {A} (n : nat) (body : M A) :
  terminates body -> terminates (collect n body).
Proof.
  intros Hb. induction n as [|n IH]; cbn [collect]; [apply terminates_ret|].
  apply terminates_bind; [done|]. intros x.
  apply terminates_bind; [done|]. intros xs. apply terminates_ret.
Qed.

(** A [while] whose body brings a measure of the state down runs to its
    end when the bound exceeds the measure. *)
Lemma while_fuel_enough (mu : state -> nat) (cond : M bool) (body : M unit) :
  (forall s, exists c, cond s = (Ok c, s)) ->
  terminates body ->
  (forall s s', body s = (Ok tt, s') -> (mu s' < mu s)%nat) ->
  forall fuel s, (mu s < fuel)%nat -> terminates_at (while_ fuel cond body) s.
Proof.
  intros Hcond Hbody Hdec fuel. induction fuel as [|fuel IH]; intros s Hfuel; [lia|].
  cbn [while_]. apply terminates_at_bind.
  - destruct (Hcond s) as [c Hc]. unfold terminates_at. by rewrite Hc.
  - intros c s' Hc. destruct (Hcond s) as [c' Hc']. rewrite Hc' in Hc.
    injection Hc as -> ->. destruct c; [|by apply terminates_ret].
    apply terminates_at_bind; [apply Hbody|]. intros [] s1 Hs1.
    apply IH. apply Hdec in Hs1. lia.
Qed.

Lemma loop_fuel_enough {L A} (mu : state -> nat) (body : L -> M (L + A)) :
  (forall l, terminates (body l)) ->
  (forall l l' s s', body l s = (Ok (inl l'), s') -> (mu s' < mu s)%nat) ->
  forall fuel l s, (mu s < fuel)%nat -> terminates_at (loop fuel body l) s.
Proof.
  intros Hbody Hdec fuel. induction fuel as [|fuel IH]; intros l s Hfuel; [lia|].
  cbn [loop]. apply terminates_at_bind; [apply Hbody|].
  intros [l'|a] s' Hs'; [|by apply terminates_ret].
  apply IH. apply Hdec in Hs'. lia.
Qed.

Lemma terminates_current_result_object : terminates current_result_object.
Proof.
  unfold current_result_object. apply terminates_bind; [apply terminates_gets|].
  intros [r|]; [apply terminates_ret|apply terminates_raise].
Qed.

Lemma terminates_recv n : terminates (Connection.__recv n).
Proof.
  unfold Connection.__recv. apply terminates_bind; [apply terminates_gets|].
  intros [sock|]; [|apply terminates_raise].
  destruct (incoming sock); [apply terminates_ret|].
  apply terminates_bind; [apply terminates_modify|]. intros _. apply terminates_ret.
Qed.

Lemma terminates_send d : terminates (Connection.__send d).
Proof.
  unfold Connection.__send. apply terminates_bind; [apply terminates_gets|].
  intros [sock|]; [apply terminates_modify|apply terminates_raise].
Qed.

(** What [recv] does to the socket and the buffer. *)
Lemma recv_run (n : Z) (s s' : state) (d : list ascii) :
  Connection.__recv n s = (Ok d, s') ->
  __input_buffer s' = __input_buffer s
  /\ (bytes_left s' + length d = bytes_left s)%nat
  /\ (d ≠ [] -> chunks_left s' < chunks_left s)%nat.
Proof.
  unfold Connection.__recv, bind, gets, modify, ret, raise, bytes_left, chunks_left.
  destruct s as [? ? [[inc out]|] ? ? ? ? ? ? ? ? ? ? ? ? ? ? ? ? ?]; cbn; [|done].
  destruct inc as [|chunk rest]; cbn.
  - intros [= <- <-]. cbn. split; [done|]. split; [lia|done].
  - intros [= <- <-]. cbn. rewrite length_app. split; [done|]. split; lia.
Qed.

Lemma bytes_left_set_input_buffer (v : list ascii) (s : state) :
  (bytes_left (set___input_buffer v s) + length (__input_buffer s)
   = bytes_left s + length v)%nat
  /\ chunks_left (set___input_buffer v s) = chunks_left s.
Proof. destruct s. unfold bytes_left, chunks_left. cbn. split; [lia|done]. Qed.

(** One round of a read loop: a chunk moves from the socket to the buffer. *)
Lemma refill_run (s s' : state) :
  (d <- Connection.__recv 4096 ;;
   match d with
   | _ :: _ => modify (fun s => set___input_buffer (__input_buffer s ++ d) s)
   | [] => raise (OperationalError (b "Connection to backend closed"))
   end) s = (Ok tt, s') ->
  bytes_left s' = bytes_left s /\ (chunks_left s' < chunks_left s)%nat.
Proof.
  unfold bind at 1. destruct (Connection.__recv 4096 s) as [[d|e|] s1] eqn:Hrecv; [|done..].
  apply recv_run in Hrecv as (Hbuf & Hbytes & Hchunks).
  destruct d as [|ch d]; [done|]. unfold modify. intros [= <-].
  destruct (bytes_left_set_input_buffer (__input_buffer s1 ++ ch :: d) s1) as [Hb Hc].
  rewrite length_app in Hb. rewrite Hc. split; [lia|]. by apply Hchunks.
Qed.

End Termination.

Section Reads.
Local Open Scope py_scope.

Lemma refill_frames_bytes :
  frames bytes_left
    (d <- Connection.__recv 4096 ;;
     match d with
     | _ :: _ => modify (fun s => set___input_buffer (__input_buffer s ++ d) s)
     | [] => raise (OperationalError (b "Connection to backend closed"))
     end).
Proof.
  intros s. unfold bind at 1.
  destruct (Connection.__recv 4096 s) as [[d|e|] s1] eqn:Hrecv; cbn [snd].
  - apply recv_run in Hrecv as (Hbuf & Hbytes & _).
    destruct d as [|ch d]; cbn [raise modify snd]; [cbn in Hbytes; lia|].
    destruct (bytes_left_set_input_buffer (__input_buffer s1 ++ ch :: d) s1) as [Hb _].
    rewrite length_app in Hb. lia.
  - revert Hrecv. unfold Connection.__recv, bind, gets, modify, ret, raise.
    destruct (__socket s) as [[[|c inc] out]|]; cbn; congruence.
  - revert Hrecv. unfold Connection.__recv, bind, gets, modify, ret, raise.
    destruct (__socket s) as [[[|c inc] out]|]; cbn; congruence.
Qed.

Lemma refill_terminates :
  terminates
    (d <- Connection.__recv 4096 ;;
     match d with
     | _ :: _ => modify (fun s => set___input_buffer (__input_buffer s ++ d) s)
     | [] => raise (OperationalError (b "Connection to backend closed"))
     end).
Proof.
  apply terminates_bind; [apply terminates_recv|].
  intros [|ch d]; [apply terminates_raise|apply terminates_modify].
Qed.

Lemma terminates_read_bytes n : terminates (Connection.__read_bytes n).
Proof.
  intros s. unfold Connection.__read_bytes.
  apply terminates_at_bind; [apply terminates_gets|]. intros fuel s0 [= <- <-].
  apply terminates_at_bind.
  - apply (while_fuel_enough chunks_left); [by eexists|apply refill_terminates| |lia].
    intros s1 s2 Hrun. by apply refill_run in Hrun as [_ Hc].
  - intros _ s1 _. apply terminates_bind; [apply terminates_gets|]. intros buf.
    apply terminates_bind; [apply terminates_modify|]. intros _. apply terminates_ret.
Qed.

(** The bytes a read returns come off the input that is left; a read
    that raises takes nothing. *)
Lemma read_bytes_takes (n : Z) (s s' : state) (r : res (list ascii)) :
  Connection.__read_bytes n s = (r, s') ->
  match r with
  | Ok data => (bytes_left s' + length data = bytes_left s)%nat
  | _ => bytes_left s' = bytes_left s
  end.
Proof.
  unfold Connection.__read_bytes, bind at 1. cbn [gets]. unfold bind at 1.
  pose proof (frames_while bytes_left (S (chunks_left s))
                (buf <- gets __input_buffer ;; ret (len buf <? n)) _
                ltac:(frames_auto) refill_frames_bytes s) as Hloop.
  destruct (while_ _ _ _ s) as [[[]|e|] s1]; cbn [fst snd] in *;
    [|by intros [= <- <-]..].
  unfold bind, gets, modify, ret. intros [= <- <-].
  destruct (bytes_left_set_input_buffer (slice_from (__input_buffer s1) n) s1) as [Hb _].
  unfold slice_from, slice_to in *.
  pose proof (take_drop (slice_bound (__input_buffer s1) n) (__input_buffer s1)) as Hsplit.
  apply (f_equal length) in Hsplit. rewrite length_app in Hsplit. lia.
Qed.

Lemma shrinks_read_bytes n : shrinks (Connection.__read_bytes n).
Proof.
  intros s. pose proof (read_bytes_takes n s) as Htakes.
  destruct (Connection.__read_bytes n s) as [r s'].
  specialize (Htakes s' r eq_refl). destruct r; cbn; lia.
Qed.

Lemma split1_length (t : ascii) (buf before after : list ascii) :
  split1 t buf = Some (before, after) ->
  length buf = (length before + 1 + length after)%nat.
Proof.
  revert before. induction buf as [|ch buf IH]; intros before; cbn; [done|].
  case_decide; [intros [= <- <-]; cbn; lia|].
  destruct (split1 t buf) as [[b1 a1]|]; [|done].
  intros [= <- <-]. cbn. rewrite (IH b1 eq_refl). lia.
Qed.

Lemma read_string_body_terminates (t : ascii) :
  terminates
    (buf <- gets __input_buffer ;;
     match split1 t buf with
     | Some (result, rest) => modify (set___input_buffer rest) ;; ret (inr result)
     | None =>
         d <- Connection.__recv 4096 ;;
         match d with
         | _ :: _ =>
             modify (fun s => set___input_buffer (__input_buffer s ++ d) s) ;;
             ret (@inl unit (list ascii) tt)
         | [] => raise (OperationalError (b "Connection to backend closed"))
         end
     end).
Proof.
  apply terminates_bind; [apply terminates_gets|]. intros buf.
  destruct (split1 t buf) as [[result rest]|].
  - apply terminates_bind; [apply terminates_modify|]. intros _. apply terminates_ret.
  - apply terminates_bind; [apply terminates_recv|].
    intros [|ch d]; [apply terminates_raise|].
    apply terminates_bind; [apply terminates_modify|]. intros _. apply terminates_ret.
Qed.

Lemma terminates_read_string t : terminates (Connection.__read_string t).
Proof.
  intros s. unfold Connection.__read_string.
  apply terminates_at_bind; [apply terminates_gets|]. intros fuel s0 [= <- <-].
  apply (loop_fuel_enough chunks_left); [intros []; apply read_string_body_terminates| |lia].
  intros [] [] s1 s2. unfold bind at 1. cbn [gets].
  destruct (split1 t (__input_buffer s1)) as [[result rest]|]; [done|].
  unfold bind at 1.
  destruct (Connection.__recv 4096 s1) as [[d|e|] s3] eqn:Hrecv; [|done..].
  apply recv_run in Hrecv as (_ & _ & Hchunks).
  destruct d as [|ch d]; [done|]. unfold bind, modify, ret. intros [= <-].
  destruct (bytes_left_set_input_buffer (__input_buffer s3 ++ ch :: d) s3) as [_ Hc].
  rewrite Hc. by apply Hchunks.
Qed.

(** A string that is read comes off the input with its terminator. *)
Lemma read_string_loop_takes (t : ascii) (fuel : nat) :
  forall (s s' : state) (r : res (list ascii)),
    loop fuel
      (fun _ : unit =>
         buf <- gets __input_buffer ;;
         match split1 t buf with
         | Some (result, rest) => modify (set___input_buffer rest) ;; ret (inr result)
         | None =>
             d <- Connection.__recv 4096 ;;
             match d with
             | _ :: _ =>
                 modify (fun s => set___input_buffer (__input_buffer s ++ d) s) ;;
                 ret (inl tt)
             | [] => raise (OperationalError (b "Connection to backend closed"))
             end
         end) tt s = (r, s') ->
    match r with
    | Ok text => (bytes_left s' + length text + 1 = bytes_left s)%nat
    | _ => bytes_left s' = bytes_left s
    end.
Proof.
  induction fuel as [|fuel IH]; intros s s' r; [by intros [= <- <-]|].
  cbn [loop]. unfold bind at 1. unfold bind at 1. cbn [gets].
  destruct (split1 t (__input_buffer s)) as [[result rest]|] eqn:Hsplit.
  - unfold bind, modify, ret. intros [= <- <-].
    destruct (bytes_left_set_input_buffer rest s) as [Hb _].
    apply split1_length in Hsplit. lia.
  - pose proof (refill_frames_bytes s) as Hrefill. unfold bind at 1 in Hrefill.
    unfold bind at 1.
    destruct (Connection.__recv 4096 s) as [[d|e|] s1]; cbn [fst snd] in *;
      [|by intros [= <- <-]..].
    destruct d as [|ch d]; [by intros [= <- <-]|].
    unfold bind at 1. cbn [modify ret].
    change (bytes_left (set___input_buffer (__input_buffer s1 ++ ch :: d) s1) = bytes_left s)
      in Hrefill.
    intros Hrest. apply IH in Hrest. by rewrite Hrefill in Hrest.
Qed.

Lemma read_string_takes (t : ascii) (s s' : state) (r : res (list ascii)) :
  Connection.__read_string t s = (r, s') ->
  match r with
  | Ok text => (bytes_left s' + length text + 1 = bytes_left s)%nat
  | _ => bytes_left s' = bytes_left s
  end.
Proof.
  unfold Connection.__read_string, bind at 1. cbn [gets]. apply read_string_loop_takes.
Qed.

Lemma shrinks_read_string t : shrinks (Connection.__read_string t).
Proof.
  intros s. pose proof (read_string_takes t s) as Htakes.
  destruct (Connection.__read_string t s) as [r s'].
  specialize (Htakes s' r eq_refl). destruct r; cbn; lia.
Qed.

End Reads.

Section Shrinks.
Local Open Scope py_scope.

Lemma shrinks_ret {A} (a : A) : shrinks (ret a).
Proof. by intros s. Qed.

Lemma shrinks_raise {A} (e : exn) : shrinks (@raise A e).
Proof. by intros s. Qed.

Lemma shrinks_gets {A} (f : state -> A) : shrinks (gets f).
Proof. by intros s. Qed.

Lemma shrinks_lift {A} (r : outcome A) : shrinks (lift r).
Proof. by intros s. Qed.

Lemma shrinks_out_of_fuel {A} : shrinks (fun s => (@OutOfFuel A, s)).
Proof. by intros s. Qed.

Lemma shrinks_frames {A} (m : M A) : frames bytes_left m -> shrinks m.
Proof. intros Hm s. by rewrite Hm. Qed.

Lemma shrinks_bind {A B} (m : M A) (k : A -> M B) :
  shrinks m -> (forall a, shrinks (k a)) -> shrinks (bind m k).
Proof.
  intros Hm Hk s. unfold bind. specialize (Hm s).
  destruct (m s) as [[a|e|] s']; cbn in *; [|done..].
  specialize (Hk a s'). lia.
Qed.

Lemma shrinks_while (fuel : nat) (cond : M bool) (body : M unit) :
  shrinks cond -> shrinks body -> shrinks (while_ fuel cond body).
Proof.
  intros Hc Hb. induction fuel as [|fuel IH]; cbn [while_].
  - apply shrinks_bind; [done|]. intros []; [apply shrinks_out_of_fuel|apply shrinks_ret].
  - apply shrinks_bind; [done|]. intros []; [|apply shrinks_ret].
    apply shrinks_bind; auto.
Qed.

Lemma shrinks_loop {L A} (fuel : nat) (body : L -> M (L + A)) (l : L) :
  (forall l, shrinks (body l)) -> shrinks (loop fuel body l).
Proof.
  intros Hb. revert l. induction fuel as [|fuel IH]; intros l; cbn [loop].
  - apply shrinks_out_of_fuel.
  - apply shrinks_bind; [done|]. intros [l'|a]; [apply IH|apply shrinks_ret].
Qed.

Lemma shrinks_collect {A} (n : nat) (body : M A) :
  shrinks body -> shrinks (collect n body).
Proof.
  intros Hb. induction n as [|n IH]; cbn [collect]; [apply shrinks_ret|].
  apply shrinks_bind; [done|]. intros x.
  apply shrinks_bind; [done|]. intros xs. apply shrinks_ret.
Qed.

End Shrinks.

Create HintDb shrinks.
#[global] Hint Resolve shrinks_read_bytes shrinks_read_string : shrinks.

Ltac shrinks_step :=
  lazymatch goal with
  | |- shrinks (bind _ _) => apply shrinks_bind; [|intros ?]
  | |- shrinks (ret _) => apply shrinks_ret
  | |- shrinks (raise _) => apply shrinks_raise
  | |- shrinks (gets _) => apply shrinks_gets
  | |- shrinks (lift _) => apply shrinks_lift
  | |- shrinks (while_ _ _ _) => apply shrinks_while
  | |- shrinks (loop _ _ _) => apply shrinks_loop; intros ?
  | |- shrinks (collect _ _) => apply shrinks_collect
  | |- shrinks (modify _) =>
      apply shrinks_frames, frames_modify; intros [];
      first [reflexivity | cbn; repeat case_match; reflexivity]
  | |- shrinks (match ?x with _ => _ end) => destruct x
  | |- shrinks (let '(_, _) := ?x in _) => destruct x
  end.

Ltac shrinks_auto := repeat (first [solve [auto with shrinks] | shrinks_step]).

Create HintDb terminates.
#[global] Hint Resolve terminates_read_bytes terminates_read_string terminates_send
  terminates_current_result_object : terminates.

Ltac terminates_step :=
  lazymatch goal with
  | |- terminates (bind _ _) => apply terminates_bind; [|intros ?]
  | |- terminates (ret _) => apply terminates_ret
  | |- terminates (raise _) => apply terminates_raise
  | |- terminates (gets _) => apply terminates_gets
  | |- terminates (lift _) => apply terminates_lift
  | |- terminates (modify _) => apply terminates_modify
  | |- terminates (collect _ _) => apply terminates_collect
  | |- terminates (match ?x with _ => _ end) => destruct x
  | |- terminates (let '(_, _) := ?x in _) => destruct x
  end.

Ltac terminates_auto := repeat (first [solve [auto with terminates] | terminates_step]).

Section HandlersEnd.
Context `{PyLib}.
Local Open Scope py_scope.

Lemma send_frames_bytes d : frames bytes_left (Connection.__send d).
Proof.
  intros s. unfold Connection.__send, bind, gets, modify, raise, bytes_left.
  destruct s as [? ? [[inc out]|] ? ? ? ? ? ? ? ? ? ? ? ? ? ? ? ? ?]; reflexivity.
Qed.

Lemma shrinks_send d : shrinks (Connection.__send d).
Proof. apply shrinks_frames, send_frames_bytes. Qed.

Lemma shrinks_readline own : shrinks (Connection.readline own).
Proof. unfold Connection.readline. shrinks_auto. Qed.

Lemma shrinks_write own d : shrinks (Connection.write own d).
Proof. unfold Connection.write. shrinks_auto. Qed.

Lemma shrinks_read_fields (ascii : bool) (result : nat) (null_bits : Z) (fields : list nat) :
  forall field_mask row,
    shrinks (Connection.read_fields ascii result null_bits fields field_mask row).
Proof.
  induction fields as [|field_num fields IH]; intros field_mask row;
    cbn [Connection.read_fields]; shrinks_auto.
Qed.

Lemma terminates_read_fields (ascii : bool) (result : nat) (null_bits : Z)
    (fields : list nat) :
  forall field_mask row,
    terminates (Connection.read_fields ascii result null_bits fields field_mask row).
Proof.
  induction fields as [|field_num fields IH]; intros field_mask row;
    cbn [Connection.read_fields]; terminates_auto.
Qed.

Hint Resolve shrinks_send shrinks_readline shrinks_write shrinks_read_fields : shrinks.
Hint Resolve terminates_read_fields : terminates.

(** No handler adds to the input that is left. *)
Lemma methods_shrink (pkt_type : list ascii) (method : M unit) :
  Connection.lookup_method pkt_type = Some method -> shrinks method.
Proof.
  apply (lookup_method_Forall (fun _ m => shrinks m)).
  unfold Connection.method_table.
  repeat apply Forall_cons_2; try apply Forall_nil_2; cbn [fst snd];
    unfold Connection._pkt_A, Connection._pkt_B, Connection._pkt_C, Connection._pkt_D,
      Connection._pkt_E, Connection._pkt_G, Connection._pkt_H, Connection._pkt_I,
      Connection._pkt_K, Connection._pkt_N, Connection._pkt_P, Connection._pkt_R,
      Connection._pkt_T, Connection._pkt_V, Connection._pkt_Z, Connection.__read_row,
      Connection.__new_result, current_result_object, update_result;
    shrinks_auto.
Qed.

End HandlersEnd.

#[global] Hint Resolve shrinks_send shrinks_readline shrinks_write shrinks_read_fields
  : shrinks.
#[global] Hint Resolve terminates_read_fields : terminates.

Section EngineTerminates.
Context `{PyLib}.
Local Open Scope py_scope.

Lemma terminates_readline own : terminates (Connection.readline own).
Proof. unfold Connection.readline. terminates_auto. Qed.

Lemma terminates_write own d : terminates (Connection.write own d).
Proof. unfold Connection.write. terminates_auto. Qed.

Hint Resolve terminates_readline terminates_write : terminates.

Lemma send_frames_file own d : frames (file_of own) (Connection.__send d).
Proof. unfold Connection.__send. destruct own; frames_auto. Qed.

Lemma terminates_pkt_G : terminates Connection._pkt_G.
Proof.
  intros s. unfold Connection._pkt_G.
  apply terminates_at_bind; [apply terminates_gets|]. intros own s0 [= <- <-].
  apply terminates_at_bind; [apply terminates_gets|]. intros fuel s0 [= <- <-].
  apply terminates_at_bind;
    [|intros lastline s1 _; apply terminates_everywhere; terminates_auto].
  apply (loop_fuel_enough
           (fun st => length (file_of (bool_decide (is_Some (stdin s))) st)));
    [intros l; terminates_auto| |unfold file_of; lia].
  intros l l' s1 s2. unfold bind at 1.
  destruct (readline_run (bool_decide (is_Some (stdin s))) s1) as (s3 & Hrun & Hfile & _).
  rewrite Hrun. destruct (file_of _ s1) as [|line rest]; cbn [hd tl] in *; [done|].
  destruct (bool_decide (line = []) || bool_decide (line = BACKSLASH :: b "." ++ [NL]));
    [done|].
  unfold bind at 1. pose proof (send_frames_file (bool_decide (is_Some (stdin s))) line s3)
    as Hsend.
  destruct (Connection.__send line s3) as [[[]|e|] s4]; [|done..].
  intros [= <- <-]. cbn [snd] in Hsend. rewrite Hsend, Hfile. cbn. lia.
Qed.

Lemma terminates_pkt_H : terminates Connection._pkt_H.
Proof.
  intros s. unfold Connection._pkt_H.
  apply terminates_at_bind; [apply terminates_gets|]. intros own s0 [= <- <-].
  apply terminates_at_bind; [apply terminates_gets|]. intros fuel s0 [= <- <-].
  set (own := bool_decide (is_Some (stdout s))).
  apply (loop_fuel_enough bytes_left); [intros l; terminates_auto| |lia].
  intros [] [] s1 s2. unfold bind at 1.
  pose proof (read_string_takes NL s1) as Htakes.
  destruct (Connection.__read_string NL s1) as [[text|e|] s3]; [|done..].
  specialize (Htakes _ _ eq_refl). cbn in Htakes.
  destruct (bool_decide (text = BACKSLASH :: b ".")); [done|].
  intros Hrest.
  assert (Hw : shrinks (Connection.write own text ;; Connection.write own [NL] ;;
                        ret (@inl unit unit tt))) by shrinks_auto.
  specialize (Hw s3). rewrite Hrest in Hw. cbn in Hw. lia.
Qed.

Lemma terminates_pkt_V : terminates Connection._pkt_V.
Proof.
  intros s. unfold Connection._pkt_V.
  apply terminates_at_bind; [apply terminates_modify|]. intros [] s0 _.
  apply terminates_at_bind; [apply terminates_gets|]. intros fuel s1 [= <- <-].
  apply (loop_fuel_enough bytes_left); [intros l; terminates_auto| |lia].
  intros [] [] s1 s2. unfold bind at 1.
  pose proof (read_bytes_takes 1 s1) as Htakes.
  pose proof (read_bytes_length 1 s1) as Hlen.
  destruct (Connection.__read_bytes 1 s1) as [[ch|e|] s3]; [|done..].
  specialize (Htakes _ _ eq_refl). specialize (Hlen _ _ ltac:(lia) eq_refl).
  cbn in Htakes, Hlen.
  destruct (bool_decide (ch = b "0")); [done|].
  destruct (bool_decide (ch = b "G")); [|done].
  intros Hrest.
  match type of Hrest with ?K s3 = _ => assert (Hw : shrinks K) by shrinks_auto end.
  specialize (Hw s3). rewrite Hrest in Hw. cbn in Hw. lia.
Qed.

Hint Resolve terminates_pkt_G terminates_pkt_H terminates_pkt_V : terminates.

Lemma methods_terminate (pkt_type : list ascii) (method : M unit) :
  Connection.lookup_method pkt_type = Some method -> terminates method.
Proof.
  apply (lookup_method_Forall (fun _ m => terminates m)).
  unfold Connection.method_table.
  repeat apply Forall_cons_2; try apply Forall_nil_2; cbn [fst snd];
    try solve [auto with terminates];
    unfold Connection._pkt_A, Connection._pkt_B, Connection._pkt_C, Connection._pkt_D,
      Connection._pkt_E, Connection._pkt_I, Connection._pkt_K, Connection._pkt_N,
      Connection._pkt_P, Connection._pkt_R, Connection._pkt_T, Connection._pkt_Z,
      Connection.__read_row, Connection.__new_result, update_result;
    terminates_auto.
Qed.

Lemma terminates_read_response : terminates Connection.__read_response.
Proof.
  unfold Connection.__read_response.
  apply terminates_bind; [auto with terminates|]. intros pkt_type.
  apply terminates_bind; [apply terminates_modify|]. intros _.
  destruct (Connection.lookup_method pkt_type) eqn:Hm;
    [by eapply methods_terminate|apply terminates_raise].
Qed.

(** A response that is handled takes at least its type byte off the input. *)
Lemma read_response_takes (s s' : state) :
  Connection.__read_response s = (Ok tt, s') -> (bytes_left s' < bytes_left s)%nat.
Proof.
  unfold Connection.__read_response, bind at 1.
  pose proof (read_bytes_takes 1 s) as Htakes.
  pose proof (read_bytes_length 1 s) as Hlen.
  destruct (Connection.__read_bytes 1 s) as [[pkt_type|e|] s1]; [|done..].
  specialize (Htakes _ _ eq_refl). specialize (Hlen _ _ ltac:(lia) eq_refl).
  cbn in Htakes, Hlen.
  unfold bind at 1. cbn [modify].
  assert (Hlog : bytes_left (set_pkt_log (pkt_log s1 ++ [pkt_type]) s1) = bytes_left s1)
    by by destruct s1.
  revert Hlog. generalize (set_pkt_log (pkt_log s1 ++ [pkt_type]) s1). intros s2 Hlog.
  destruct (Connection.lookup_method pkt_type) as [method|] eqn:Hm; [|done].
  intros Hrun. pose proof (methods_shrink _ _ Hm s2) as Hshrink.
  rewrite Hrun in Hshrink. cbn in Hshrink. lia.
Qed.

Lemma terminates_read_until_ready : terminates Connection.read_until_ready.
Proof.
  intros s. unfold Connection.read_until_ready.
  apply terminates_at_bind; [apply terminates_gets|]. intros fuel s0 [= <- <-].
  apply (while_fuel_enough bytes_left);
    [by eexists|apply terminates_read_response|apply read_response_takes|lia].
Qed.

(** The bounds of the loops are never reached: the engine returns or
    raises on every state. *)
Theorem engine_terminates (cmd dbname user options : list ascii) :
  terminates (Connection._execute cmd)
  /\ terminates (Connection.startup dbname user options).
Proof.
  pose proof terminates_read_until_ready.
  split.
  - unfold Connection._execute, Connection.run_batch, Connection.__new_result.
    terminates_auto.
  - unfold Connection.startup. terminates_auto.
Qed.

End EngineTerminates.

(** ** What a row description declares *)

Section RowDescription.
Context `{PyLib}.
Local Open Scope py_scope.

Lemma batch_addresses_valid (cmd : list ascii) (s : state) :
  let s' := (Connection.run_batch cmd s).2 in
  Forall (fun r => (r < length (result_sets s'))%nat) (default [] (__result s'))
  /\ match __current_result s' with
     | Some r => (r < length (result_sets s'))%nat
     | None => True
     end.
Proof.
  intros s'. destruct (run_batch_inv cmd s) as (_ & _ & Hcur & Hlist).
  fold s' in Hcur, Hlist. split.
  - apply Forall_forall. intros r Hr.
    destruct (__result s') as [l|] eqn:Hl; cbn in Hr; [|by apply elem_of_nil in Hr].
    destruct (Hlist l r eq_refl Hr). lia.
  - destruct (__current_result s') as [r|]; [|done]. destruct (Hcur r eq_refl). lia.
Qed.

Lemma collect_length {A} (n : nat) (body : M A) :
  returns (fun xs => length xs = n) (collect n body).
Proof.
  induction n as [|n IH]; cbn [collect]; [by apply returns_ret|].
  apply returns_bind. intros x s xs. unfold bind.
  specialize (IH s). destruct (collect n body s) as [[xs'|e|] s']; [|done..].
  intros [= <-]. cbn. f_equal. by apply IH.
Qed.

Lemma lookup_total_alter_eq (f : _ResultSet -> _ResultSet) (sets : list _ResultSet) (r : nat) :
  (r < length sets)%nat -> alter f r sets !!! r = f (sets !!! r).
Proof.
  intros Hr. apply lookup_lt_is_Some in Hr as [x Hx].
  rewrite !list_lookup_total_alt, list_lookup_alter, Hx.
  rewrite decide_True by done. done.
Qed.

(** A row description that is handled leaves in the current bundle the
    field count it declares: the 16-bit count at its head (none when
    the count is negative), a description of that many fields, and no
    rows. *)
Lemma pkt_T_declares (s s' : state) (r : nat) :
  __current_result s = Some r ->
  (r < length (result_sets s))%nat ->
  Connection._pkt_T s = (Ok tt, s') ->
  exists raw s1 nFields,
    Connection.__read_bytes 2 s = (Ok raw, s1)
    /\ unpack_h raw = Returns nFields
    /\ described (Z.max 0 nFields) (result_sets s' !!! r)
    /\ (exists d, description (result_sets s' !!! r) = Some d /\ len d = Z.max 0 nFields)
    /\ rows (result_sets s' !!! r) = Some []
    /\ __current_result s' = Some r.
Proof.
  intros Hcur Hr. unfold Connection._pkt_T, bind at 1.
  pose proof (read_bytes_frames_results 2 s) as Hview1.
  destruct (Connection.__read_bytes 2 s) as [[raw|e|] s1]; [|done..]. cbn [snd] in Hview1.
  unfold bind at 1, lift at 1. destruct (unpack_h raw) as [nFields|e] eqn:Hunpack; [|done].
  unfold bind at 1.
  match goal with |- context [collect ?n ?body s1] =>
    pose proof (collect_length n body s1) as Hlen;
    assert (Hview2 : result_view (collect n body s1).2 = result_view s1)
      by (apply frames_collect; frames_auto);
    destruct (collect n body s1) as [[descr|e|] s2]; [|done..]
  end.
  specialize (Hlen descr eq_refl). cbn [snd] in Hview2.
  assert (Hs2 : __current_result s2 = Some r /\ result_sets s2 = result_sets s).
  { unfold result_view in *. split; congruence. }
  destruct Hs2 as [Hcur2 Hsets2].
  rewrite (bind_ok _ _ s2 s2 r (current_result_object_run s2 r Hcur2)).
  rewrite !(bind_ok (gets _) _ s2 s2 _ eq_refl).
  unfold bind at 1, update_result at 1, modify at 1.
  erewrite bind_ok; [|apply current_result_object_run; by destruct s2].
  unfold update_result, modify. intros [= <-].
  exists raw, s1, nFields. split; [done|]. split; [done|].
  destruct s2; cbn in *. subst.
  rewrite lookup_total_alter_eq by (by rewrite length_alter).
  rewrite lookup_total_alter_eq by done.
  destruct (set_description_fields descr type_manager0 descriptors0 (result_sets s !!! r))
    as (Hn & Hb & (d & Hd & Hdl) & Hrows & _).
  assert (Hcount : len descr = Z.max 0 nFields).
  { unfold len, range in *. rewrite Hlen, length_seq. lia. }
  destruct (set_description descr type_manager0 descriptors0 (result_sets s !!! r));
    cbn in *.
  unfold described. cbn. rewrite <- Hcount.
  split; [split; [unfold len; lia|done]|].
  split; [|done]. exists d. split; [done|]. unfold len. by rewrite Hdl.
Qed.

End RowDescription.

Ltac not_in_chars :=
  cbn; repeat (apply not_elem_of_cons; split; [done|]); apply not_elem_of_nil.

(** ** The connection string *)








Section ParseDSN.

Local Abbreviation locals := Build_dsn_locals.












End ParseDSN.


Lemma dsn_step_bound (l : dsn_locals) (ch : ascii) :
  dsn_bound l -> exists l', dsn_step l ch = Value l' /\ dsn_bound l'.
Proof.
  destruct l as [r st buf kw]. unfold dsn_bound, dsn_step, dsn_store. cbn.
  intros Hl.
  destruct (st =? 1) eqn:H1.
  { case_decide; eexists; (split; [reflexivity|]); cbn; [by right|left; lia]. }
  destruct Hl as [->|[k ->]]; [done|].
  repeat case_match; eexists; (split; [reflexivity|]); cbn; eauto.
Qed.

Lemma dsn_loop_bound (t : list ascii) :
  forall l, dsn_bound l -> exists l', dsn_loop l t = Value l' /\ dsn_bound l'.
Proof.
  induction t as [|ch t IH]; intros l Hl; [by exists l|].
  cbn [dsn_loop]. destruct (dsn_step_bound l ch Hl) as (l1 & -> & Hl1). by apply IH.
Qed.

(** X2: [_parseDSN] returns a dictionary for every argument: a string that is
    not a list of settings is no error, and the variable [keyword] is
    never read before it is bound. *)
Theorem parseDSN_never_raises (s : option (list ascii)) :
  exists d, _parseDSN s = Value d.
Proof.
  destruct s as [[|c s]|]; [by eexists..| |by eexists].
  unfold _parseDSN.
  destruct (dsn_loop_bound (strip (c :: s))
              {| dsn_result := ∅; dsn_state := 1; dsn_buf := []; dsn_keyword := None |})
    as (l & -> & Hl); [by left|].
  destruct (dsn_state l =? 4) eqn:H4; [|by eexists].
  destruct Hl as [Hl|[k Hk]]; [lia|].
  unfold dsn_store. rewrite Hk. by eexists.
Qed.

(** ** Cursors *)

Lemma slice_bound_nonneg {A} (l : list A) (n : Z) : 0 <= n -> slice_bound l n = Z.to_nat n.
Proof. intros Hn. unfold slice_bound. by rewrite (proj2 (Z.ltb_ge n 0)) by done. Qed.

Lemma index_nonneg {A} (l : list A) (n : Z) : 0 <= n -> index l n = l !! Z.to_nat n.
Proof. intros Hn. unfold index. by rewrite (proj2 (Z.ltb_ge n 0)) by done. Qed.

Lemma holds_set_rownumber rows n m c :
  holds rows n c -> holds rows m (Cursor.set_rownumber (Some m) c).
Proof. by intros (? & ? & ?). Qed.

(** One call of [next] on a cursor that holds rows. *)
Lemma next_holds rows n c :
  holds rows n c -> 0 <= n ->
  Cursor.next c
  = match rows !! Z.to_nat n with
    | Some row => (Value row, Cursor.set_rownumber (Some (n + 1)) c)
    | None => (Throws StopIteration, c)
    end.
Proof.
  intros (Hrows & Hcount & Hn) Hpos. unfold Cursor.next. rewrite Hrows, Hn, Hcount.
  rewrite index_nonneg by done. unfold len.
  destruct (rows !! Z.to_nat n) as [row|] eqn:Hrow.
  - apply lookup_lt_Some in Hrow. by rewrite (proj2 (Z.leb_gt _ _)) by lia.
  - apply lookup_ge_None in Hrow. by rewrite (proj2 (Z.leb_le _ _)) by lia.
Qed.

Lemma fetchmany_holds rows n size c :
  holds rows n c -> 0 <= n -> 0 <= size ->
  Cursor.fetchmany (Some size) c
  = (Value (take (Z.to_nat size) (drop (Z.to_nat n) rows)),
     Cursor.set_rownumber (Some (n + size)) c).
Proof.
  intros (Hrows & Hcount & Hn) Hpos Hsize. unfold Cursor.fetchmany.
  rewrite Hrows, Hn. change (default _ (Some size)) with size. unfold slice.
  rewrite !slice_bound_nonneg by lia.
  rewrite take_drop_commute. replace (Z.to_nat n + Z.to_nat size)%nat with (Z.to_nat (n + size)) by lia. done.
Qed.

Lemma iteration_holds rows c :
  forall fuel n,
    holds rows n c -> 0 <= n -> (length rows - Z.to_nat n < fuel)%nat ->
    Cursor.rows_of_iteration fuel c
    = Some (Value (drop (Z.to_nat n) rows),
            Cursor.set_rownumber (Some (Z.max n (len rows))) c).
Proof.
  intros fuel. revert c. induction fuel as [|fuel IH]; intros c n Hc Hn Hfuel; [lia|].
  cbn [Cursor.rows_of_iteration]. rewrite (next_holds rows n c) by done.
  destruct (rows !! Z.to_nat n) as [row|] eqn:Hrow.
  - pose proof (lookup_lt_Some _ _ _ Hrow) as Hlt.
    rewrite (IH _ (n + 1)); [|by eapply holds_set_rownumber|lia|lia].
    rewrite (drop_S _ _ _ Hrow).
    replace (Z.to_nat (n + 1)) with (S (Z.to_nat n)) by lia.
    replace (Z.max (n + 1) (len rows)) with (Z.max n (len rows)) by (unfold len; lia).
    reflexivity.
  - apply lookup_ge_None in Hrow. rewrite drop_ge by done.
    replace (Z.max n (len rows)) with n by (unfold len; lia).
    destruct Hc as (_ & _ & Hc). destruct c. cbn in Hc. by rewrite Hc.
Qed.

Lemma fetchall_holds rows n c :
  holds rows n c -> 0 <= n <= len rows ->
  Cursor.fetchall c
  = (Value (drop (Z.to_nat n) rows), Cursor.set_rownumber (Some (len rows)) c).
Proof.
  intros Hc Hn. pose proof Hc as (Hrows & Hcount & Hpos).
  unfold Cursor.fetchall. rewrite Hrows, Hpos, Hcount.
  rewrite (fetchmany_holds rows n) by (done || lia).
  rewrite take_ge by (rewrite length_drop; unfold len; lia).
  by replace (n + (len rows - n)) with (len rows) by lia.
Qed.

(** X3: From [execute] to the end of the rows: iterating over the cursor and
    [fetchall] both give the rows from the current one on, in order, and
    leave the cursor at the end, where a further [fetchall] gives no
    row, [fetchone] gives [None] and [next] raises StopIteration. *)
Theorem cursor_reads_remaining_rows (rows : list (list pyval)) (n : Z) (c : Cursor.t) :
  holds rows n c -> 0 <= n <= len rows ->
  let rest := drop (Z.to_nat n) rows in
  let c' := Cursor.set_rownumber (Some (len rows)) c in
  Cursor.rows_of_iteration (S (length rest)) c = Some (Value rest, c')
  /\ Cursor.fetchall c = (Value rest, c')
  /\ holds rows (len rows) c'
  /\ Cursor.fetchall c' = (Value [], c')
  /\ Cursor.fetchone c' = (Value None, c')
  /\ Cursor.next c' = (Throws StopIteration, c').
Proof.
  intros Hc Hn rest c'.
  assert (Hc' : holds rows (len rows) c') by by eapply holds_set_rownumber.
  assert (Hend : Cursor.next c' = (Throws StopIteration, c')).
  { rewrite (next_holds rows (len rows) c') by (done || unfold len; lia).
    unfold len. by rewrite Nat2Z.id, lookup_ge_None_2 by lia. }
  pose proof (fetchall_holds rows) as Hall.
  split.
  { rewrite (iteration_holds rows c _ n) by (done || lia || subst rest; rewrite length_drop; lia).
    by replace (Z.max n (len rows)) with (len rows) by lia. }
  split; [by apply Hall|]. split; [done|]. split.
  { rewrite (Hall (len rows) c') by (done || unfold len; lia).
    unfold len. rewrite Nat2Z.id, drop_all. by destruct c. }
  split; [|done]. unfold Cursor.fetchone. by rewrite Hend.
Qed.



(** X5: A [fetchmany] that asks for more rows than are left gives the rows
    that are left and moves the cursor by the size asked for, past the
    end; from there [next] raises StopIteration and [fetchall] gives no
    row and brings the cursor back to the end. *)
Theorem fetchmany_past_the_end (rows : list (list pyval)) (n size : Z) (c : Cursor.t) :
  holds rows n c -> 0 <= n -> len rows < n + size ->
  let c1 := Cursor.set_rownumber (Some (n + size)) c in
  Cursor.fetchmany (Some size) c = (Value (drop (Z.to_nat n) rows), c1)
  /\ Cursor.next c1 = (Throws StopIteration, c1)
  /\ Cursor.fetchall c1 = (Value [], Cursor.set_rownumber (Some (len rows)) c).
Proof.
  intros Hc Hn Hsize c1. pose proof Hc as (Hrows & Hcount & Hpos).
  assert (Hc1 : holds rows (n + size) c1) by by eapply holds_set_rownumber.
  unfold len in *. split; [|split].
  - unfold Cursor.fetchmany. rewrite Hrows, Hpos.
    change (default _ (Some size)) with size. unfold slice.
    rewrite !slice_bound_nonneg by lia. by rewrite take_ge by lia.
  - rewrite (next_holds rows (n + size) c1) by (done || lia).
    by rewrite lookup_ge_None_2 by lia.
  - unfold Cursor.fetchall, Cursor.fetchmany. destruct c; cbn in *. subst.
    change (default _ (Some ?x)) with x. unfold slice, Cursor.set_rownumber. cbn.
    rewrite !slice_bound_nonneg by (unfold len; lia).
    rewrite drop_ge by (rewrite length_take; unfold len; lia).
    by replace (n + size + (Z.of_nat (length rows) - (n + size)))
      with (Z.of_nat (length rows)) by lia.
Qed.

Lemma fetchmany_past_the_end_witness :
  let rows := [[PyInt 1]; [PyInt 2]; [PyInt 3]] in
  let c := {| Cursor.arraysize := 1; Cursor.connection := Some Cursor.TheConnection;
              Cursor.description := None; Cursor.lastrowid := None;
              Cursor.messages := []; Cursor.rowcount := 3;
              Cursor.rownumber := Some 1; Cursor.__rows := Some rows;
              Cursor.query := [] |} in
  let c1 := Cursor.set_rownumber (Some (1 + 5)) c in
  Cursor.fetchmany (Some 5) c = (Value (drop (Z.to_nat 1) rows), c1)
  /\ Cursor.next c1 = (Throws StopIteration, c1)
  /\ Cursor.fetchall c1 = (Value [], Cursor.set_rownumber (Some (len rows)) c).
Proof.
  intros rows c. apply (fetchmany_past_the_end rows 1 5 c); [done|lia|done].
Defined.

(** X6: [scroll] to a row of the result set makes it the row [next] gives;
    a target outside the result set raises IndexError and an unknown
    mode ProgrammingError, and both leave the cursor where it was. *)
Theorem scroll_then_next (rows : list (list pyval)) (n k : Z) (mode : list ascii)
    (c : Cursor.t) :
  holds rows n c ->
  let target :=
    if decide (mode = b "relative") then Some (n + k)
    else if decide (mode = b "absolute") then Some k else None in
  match target with
  | Some pos =>
      match (if pos <? 0 then None else rows !! Z.to_nat pos) with
      | Some row =>
          Cursor.scroll k mode c = (Value tt, Cursor.set_rownumber (Some pos) c)
          /\ Cursor.next (Cursor.set_rownumber (Some pos) c)
             = (Value row, Cursor.set_rownumber (Some (pos + 1)) c)
      | None => Cursor.scroll k mode c = (Throws (Raised IndexError), c)
      end
  | None =>
      Cursor.scroll k mode c
      = (Throws (ProgrammingError (b "Unknown scroll mode [" ++ mode ++ b "]")), c)
  end.
Proof.
  intros Hc target. pose proof Hc as (Hrows & Hcount & Hpos).
  assert (Hgo : forall pos,
            match (if pos <? 0 then None else rows !! Z.to_nat pos) with
            | Some row =>
                (if (pos <? 0) || (Cursor.rowcount c <=? pos)
                 then (Throws (Raised IndexError), c)
                 else (Value tt, Cursor.set_rownumber (Some pos) c))
                = (Value tt, Cursor.set_rownumber (Some pos) c)
                /\ Cursor.next (Cursor.set_rownumber (Some pos) c)
                   = (Value row, Cursor.set_rownumber (Some (pos + 1)) c)
            | None =>
                (if (pos <? 0) || (Cursor.rowcount c <=? pos)
                 then (Throws (Raised IndexError), c)
                 else (Value tt, Cursor.set_rownumber (Some pos) c))
                = (Throws (Raised IndexError), c)
            end).
  { intros pos. rewrite Hcount. unfold len.
    destruct (pos <? 0) eqn:Hneg; [done|]. apply Z.ltb_ge in Hneg.
    destruct (rows !! Z.to_nat pos) as [row|] eqn:Hrow.
    - pose proof (lookup_lt_Some _ _ _ Hrow).
      rewrite (proj2 (Z.leb_gt _ _)) by lia. split; [done|].
      rewrite (next_holds rows pos) by (by eapply holds_set_rownumber || done).
      rewrite Hrow. by destruct c.
    - apply lookup_ge_None in Hrow. by rewrite (proj2 (Z.leb_le _ _)) by lia. }
  unfold Cursor.scroll. rewrite Hrows, Hpos. subst target.
  destruct (decide (mode = b "relative")); [apply Hgo|].
  destruct (decide (mode = b "absolute")); [apply Hgo|done].
Qed.

Lemma scroll_then_next_witness :
  let rows := [[PyInt 1]; [PyInt 2]; [PyInt 3]] in
  let c := {| Cursor.arraysize := 1; Cursor.connection := Some Cursor.TheConnection;
              Cursor.description := None; Cursor.lastrowid := None;
              Cursor.messages := []; Cursor.rowcount := 3;
              Cursor.rownumber := Some 2; Cursor.__rows := Some rows;
              Cursor.query := [] |} in
  Cursor.scroll (-1) (b "relative") c = (Value tt, Cursor.set_rownumber (Some 1) c)
  /\ Cursor.next (Cursor.set_rownumber (Some 1) c)
     = (Value [PyInt 2], Cursor.set_rownumber (Some 2) c).
Proof.
  intros rows c. apply (scroll_then_next rows 2 (-1) (b "relative") c). done.
Defined.

Lemma cursor_reads_remaining_rows_witness :
  let rows := [[PyInt 1]; [PyInt 2]; [PyInt 3]] in
  let c := {| Cursor.arraysize := 1; Cursor.connection := Some Cursor.TheConnection;
              Cursor.description := None; Cursor.lastrowid := None;
              Cursor.messages := []; Cursor.rowcount := 3;
              Cursor.rownumber := Some 1; Cursor.__rows := Some rows;
              Cursor.query := [] |} in
  let c' := Cursor.set_rownumber (Some 3) c in
  Cursor.rows_of_iteration 3 c = Some (Value [[PyInt 2]; [PyInt 3]], c')
  /\ Cursor.fetchall c = (Value [[PyInt 2]; [PyInt 3]], c')
  /\ holds rows 3 c'
  /\ Cursor.fetchall c' = (Value [], c')
  /\ Cursor.fetchone c' = (Value None, c')
  /\ Cursor.next c' = (Throws StopIteration, c').
Proof.
  intros rows c. apply (cursor_reads_remaining_rows rows 1 c); [done|]. unfold len. cbn. lia.
Defined.

Lemma no_rows_refuses (c : Cursor.t) : Cursor.__rows c = None -> refuses_fetches c.
Proof.
  intros Hrows. unfold refuses_fetches, Cursor.fetchone, Cursor.next, Cursor.fetchmany,
    Cursor.fetchall, Cursor.scroll.
  rewrite Hrows. done.
Qed.

Section CursorExecute.
Context `{PyLib}.

(** X7: [execute] hands the cursor what [_execute] returns: the rows of a
    query, from the first one on, or no result set when the command
    gives no rows or fails, whatever the cursor held before. *)
Theorem execute_then_fetch (cmd : list ascii) (c : Cursor.t) (s : state) :
  Cursor.connection c = Some Cursor.TheConnection ->
  match Connection._execute cmd s with
  | (Ok (d, rows, m, q), s') =>
      exists c',
        Cursor.execute cmd c s = (Ok tt, c', s')
        /\ Cursor.description c' = d /\ Cursor.messages c' = m /\ Cursor.query c' = q
        /\ match rows with
           | Some rows =>
               holds rows 0 c'
               /\ Cursor.fetchall c'
                  = (Value rows, Cursor.set_rownumber (Some (len rows)) c')
           | None => Cursor.rowcount c' = -1 /\ refuses_fetches c'
           end
  | (Raise e, s') =>
      exists c',
        Cursor.execute cmd c s = (Raise e, c', s')
        /\ Cursor.description c' = None /\ Cursor.rowcount c' = -1
        /\ refuses_fetches c'
  | (OutOfFuel, _) => False
  end.
Proof.
  intros Hconn. unfold Cursor.execute. cbn [Cursor.connection]. rewrite Hconn.
  pose proof (proj1 (engine_terminates cmd [] [] []) s) as Hterm.
  unfold terminates_at in Hterm.
  destruct (Connection._execute cmd s) as [[[[[d rows] m] q]|e|] s'];
    cbn [fst] in Hterm; [| |done].
  - destruct rows as [rows|]; eexists; (split; [reflexivity|]).
    + split; [done|]. split; [done|]. split; [done|]. split; [done|].
      rewrite (fetchall_holds rows 0) by (done || unfold len; lia). done.
    + split; [done|]. split; [done|]. split; [done|]. split; [done|].
      by apply no_rows_refuses.
  - eexists. split; [reflexivity|]. split; [done|]. split; [done|].
    by apply no_rows_refuses.
Qed.

End CursorExecute.

Lemma execute_then_fetch_witness :
  let wire := b "T" ++ be_bytes 2 1 ++ b "n" ++ [NUL] ++ be_bytes 4 23 ++ be_bytes 2 4
              ++ be_bytes 4 (-1)
              ++ b "D" ++ [chr 128] ++ be_bytes 4 5 ++ b "7"
              ++ b "D" ++ [chr 0]
              ++ b "C" ++ b "SELECT" ++ [NUL] ++ b "Z" in
  let s := set___ready 1
             (new_connection {| incoming := [wire]; outgoing := [] |} [] (b "user")
                (TypeManager._clone (@DEFAULT_TYPE_MANAGER ascii_lib))
                (@default_registrations ascii_lib).2 []) in
  let c := Cursor.set_rownumber (Some 5) (Cursor.__init__ (Some Cursor.TheConnection)) in
  let rows := [[PyUnicode (u "7")]; [PyNone]] in
  exists c' s',
    @Cursor.execute ascii_lib (b "SELECT n FROM t") c s = (Ok tt, c', s')
    /\ holds rows 0 c'
    /\ Cursor.fetchall c' = (Value rows, Cursor.set_rownumber (Some 2) c').
Proof.
  intros wire s c rows.
  assert (Hfst : (@Connection._execute ascii_lib (b "SELECT n FROM t") s).1
                 = Ok (Some [(b "n", TagName (b "unknown"))], Some rows, [],
                       b "SELECT n FROM t"))
    by (vm_compute; reflexivity).
  pose proof (@execute_then_fetch ascii_lib (b "SELECT n FROM t") c s eq_refl) as Hexec.
  revert Hexec Hfst.
  generalize (@Connection._execute ascii_lib (b "SELECT n FROM t") s).
  intros [r s'] Hexec Hfst. cbn [fst] in Hfst. rewrite Hfst in Hexec.
  destruct Hexec as (c' & Hc & _ & _ & _ & Hholds & Hfetch).
  exists c', s'. split; [exact Hc|]. split; [exact Hholds|exact Hfetch].
Defined.

(** X8: A closed cursor has no result set and no connection: the fetches
    raise the module's [Error], and [execute] raises AttributeError,
    which is none. *)
Theorem closed_cursor_refuses `{PyLib} (c : Cursor.t) :
  let c' := Cursor.close c in
  refuses_fetches c'
  /\ is_Error Cursor.no_result_set = true
  /\ (forall cmd s, Cursor.execute cmd c' s = (Raise AttributeError, c', s))
  /\ is_library_error AttributeError = false.
Proof. intros c'. split; [by apply no_rows_refuses|done]. Qed.

(** ** Literals read back *)

Lemma read_quoted_escaped {A} `{EqDecision A} (backslash quote : A) (s rest : list A) :
  backslash <> quote ->
  read_quoted backslash quote (escaped backslash quote s ++ quote :: rest) = Some (s, rest).
Proof.
  intros Hne. induction s as [|ch s IH].
  - cbn. by rewrite decide_True by done.
  - cbn [escaped mbind list_bind]. fold (escaped backslash quote s).
    destruct (decide (ch = backslash \/ ch = quote)) as [Hch|Hch].
    + cbn [app read_quoted].
      rewrite decide_False by done. rewrite decide_True by done. by rewrite IH.
    + cbn [app read_quoted].
      rewrite !decide_False by (intros ->; apply Hch; auto). by rewrite IH.
Qed.

(** X9: The literal the encoder makes of a string is read back as that
    string, whatever characters it holds, and the reader stops right
    behind the closing quote: nothing in the string ends the literal
    early.  So two strings with the same literal are the same string. *)
Theorem string_literal_reads_back (tm : _TypeManager) :
  (python_converters tm !! StrType = None ->
   forall s rest : list ascii,
     exists lit,
       TypeManager.python_to_sql tm (PyStr s) = Returns (PyStr lit)
       /\ read_literal BACKSLASH QUOTE (lit ++ rest) = Some (s, rest))
  /\ (python_converters tm !! UnicodeType = None ->
      forall s rest : list N,
        exists lit,
          TypeManager.python_to_sql tm (PyUnicode s) = Returns (PyUnicode lit)
          /\ read_literal (N_of_ascii BACKSLASH) (N_of_ascii QUOTE) (lit ++ rest)
             = Some (s, rest)).
Proof.
  split; intros Hconv s rest; unfold TypeManager.python_to_sql; cbn [type_of];
    rewrite Hconv.
  - rewrite (bool_decide_eq_true_2 (StrType ∈ StringTypes)) by (by left).
    unfold TypeManager.quoted. rewrite replace_escaped by (vm_compute; discriminate).
    eexists. split; [reflexivity|].
    change (b "'") with [QUOTE]. cbn [app read_literal].
    rewrite decide_True by done. rewrite <- app_assoc.
    apply read_quoted_escaped. vm_compute; discriminate.
  - rewrite (bool_decide_eq_true_2 (UnicodeType ∈ StringTypes)) by (right; by left).
    unfold TypeManager.quoted. cbn [fmap list_fmap].
    rewrite replace_escaped by (vm_compute; discriminate).
    eexists. split; [reflexivity|].
    change (u "'") with [N_of_ascii QUOTE]. cbn [app read_literal].
    rewrite decide_True by done. rewrite <- app_assoc.
    apply read_quoted_escaped. vm_compute; discriminate.
Qed.

Lemma string_literal_reads_back_witness :
  exists lit,
    TypeManager.python_to_sql (@DEFAULT_TYPE_MANAGER ascii_lib)
      (PyStr (b "O'Hara" ++ [BACKSLASH]))
    = Returns (PyStr lit)
    /\ read_literal BACKSLASH QUOTE (lit ++ b " AND n = 1")
       = Some (b "O'Hara" ++ [BACKSLASH], b " AND n = 1").
Proof.
  apply (proj1 (string_literal_reads_back (@DEFAULT_TYPE_MANAGER ascii_lib))).
  vm_compute. reflexivity.
Defined.

(** ** Registration, then lookup *)

Section RegistryLookup.
Context `{PyLib}.

Lemma register_pgsql_names (conv : list ascii -> outcome pyval) (type_id : type_tag)
    (names : list (list ascii)) (name : list ascii) :
  forall st,
    name ∈ names ->
    let st' := foldl (TypeManager.register_pgsql_name conv type_id) st names in
    exists r, pg_types st'.1 !! name = Some r
              /\ st'.2 !! r = Some (new_PgType name conv type_id).
Proof.
  induction names as [|x names IH] using rev_ind; intros st Hin; [by apply elem_of_nil in Hin|].
  rewrite foldl_snoc. cbn zeta.
  set (st1 := foldl _ st names) in *.
  destruct (decide (name = x)) as [<-|Hne].
  - destruct st1 as [self h]. exists (length h). unfold TypeManager.register_pgsql_name.
    destruct (match pg_types self !! name with Some r => _ | None => _ end); cbn;
      rewrite lookup_insert_eq, list_lookup_middle; done.
  - apply elem_of_app in Hin as [Hin|Hin]; [|apply list_elem_of_singleton in Hin; done].
    destruct (IH st Hin) as (r & Hr & Hh). fold st1 in Hr, Hh.
    destruct st1 as [self h]. exists r. unfold TypeManager.register_pgsql_name.
    cbn [fst snd] in *.
    destruct (match pg_types self !! x with Some r => _ | None => _ end); cbn;
      (rewrite lookup_insert_ne by done); (split; [done|]);
      by apply lookup_app_l_Some.
Qed.

(** X10: A decoder registered under a type name is the decoder of the OID
    that [register_oid] then binds to the name, with the category it was
    registered with. *)
Theorem registered_decoder_serves_oid (typenames : list ascii + list (list ascii))
    (conv : list ascii -> outcome pyval) (type_id : type_tag)
    (st : _TypeManager * list _PgType) (name : list ascii) (oid : Z) :
  name ∈ match typenames with inl name => [name] | inr names => names end ->
  let st' := TypeManager.register_oid oid name
               (TypeManager.register_pgsql typenames conv type_id st) in
  TypeManager.get_conversion st'.1 st'.2 oid = conv
  /\ TypeManager.get_type st'.1 st'.2 oid
     = set_pg_oid (Some oid) (new_PgType name conv type_id).
Proof.
  intros Hin. unfold TypeManager.register_pgsql.
  destruct (register_pgsql_names conv type_id _ name st Hin) as (r & Hr & Hh).
  cbn zeta in *.
  destruct (foldl _ st _) as [self h]. cbn [fst snd] in *.
  unfold TypeManager.get_conversion, TypeManager.get_type, TypeManager.register_oid.
  rewrite Hr. cbn [fst snd set_oid_map oid_map]. rewrite lookup_insert_eq.
  rewrite list_lookup_total_alt, list_lookup_alter, Hh.
  rewrite decide_True by done. done.
Qed.

(** X11: An encoder registered for a class is what [python_to_sql] applies
    to the objects of the class, the null value and strings included;
    the objects of another class are encoded as before. *)
Theorem registered_encoder_is_applied (klass : pytype) (conv : pyval -> outcome pyval)
    (st : _TypeManager * list _PgType) (obj : pyval) :
  TypeManager.python_to_sql (TypeManager.register_python klass conv st).1 obj
  = if decide (type_of obj = klass) then conv obj
    else TypeManager.python_to_sql st.1 obj.
Proof.
  unfold TypeManager.python_to_sql, TypeManager.register_python.
  cbn [fst set_python_converters python_converters].
  destruct (decide (type_of obj = klass)) as [<-|Hne].
  - by rewrite lookup_insert_eq.
  - by rewrite lookup_insert_ne by done.
Qed.

End RegistryLookup.

Lemma registered_decoder_serves_oid_witness :
  let st' := @TypeManager.register_oid ascii_lib 1043 (b "varchar")
               (TypeManager.register_pgsql (inr [b "char"; b "varchar"; b "text"])
                  (@_char_convert ascii_lib) STRING (TypeManager.__init__, [])) in
  @TypeManager.get_conversion ascii_lib st'.1 st'.2 1043 = @_char_convert ascii_lib
  /\ @TypeManager.get_type ascii_lib st'.1 st'.2 1043
     = set_pg_oid (Some 1043) (new_PgType (b "varchar") (@_char_convert ascii_lib) STRING).
Proof.
  apply (@registered_decoder_serves_oid ascii_lib (inr [b "char"; b "varchar"; b "text"])).
  set_solver.
Defined.

(** ** Network byte order *)

Lemma ord_chr (z : Z) : ord (chr z) = z mod 256.
Proof.
  unfold ord, chr. rewrite N_ascii_embedding.
  - rewrite Z2N.id; [done|]. apply Z.mod_pos_bound. lia.
  - pose proof (Z.mod_pos_bound z 256 ltac:(lia)). lia.
Qed.

Lemma be_bytes_snoc (n : nat) (z : Z) :
  be_bytes (S n) z = be_bytes n (Z.shiftr z 8) ++ [chr z].
Proof.
  revert z. induction n as [|n IH]; intros z.
  - cbn. by rewrite Z.shiftr_0_r.
  - change (be_bytes (S (S n)) z)
      with (chr (Z.shiftr z (8 * Z.of_nat (S n))) :: be_bytes (S n) z).
    rewrite IH. cbn [be_bytes app]. f_equal.
    rewrite Z.shiftr_shiftr by lia. do 2 f_equal. lia.
Qed.

Lemma length_be_bytes (n : nat) (z : Z) : length (be_bytes n z) = n.
Proof. induction n as [|n IH]; cbn; [done|]. by rewrite IH. Qed.

Lemma lor_low_byte (a c : Z) : 0 <= c < 256 -> Z.lor (Z.shiftl a 8) c = a * 256 + c.
Proof.
  intros Hc. rewrite Z.shiftl_mul_pow2 by lia. change (2 ^ 8) with 256.
  rewrite <- Z.lxor_lor, <- Z.add_nocarry_lxor; [done| |].
  all: apply Z.bits_inj'; intros j Hj; rewrite Z.land_spec, Z.bits_0;
    destruct (decide (j < 8)).
  all: try (replace (a * 256) with (Z.shiftl a 8)
              by (rewrite Z.shiftl_mul_pow2 by lia; done);
            rewrite Z.shiftl_spec_low by lia; done).
  all: replace (Z.testbit c j) with false; [apply andb_false_r|].
  all: symmetry; destruct (decide (c = 0)) as [->|Hne]; [apply Z.bits_0|];
    apply Z.bits_above_log2; [lia|];
    assert (Z.log2 c < 8) by (apply Z.log2_lt_pow2; lia); lia.
Qed.

(** The big-endian value of the bytes of [z] is [z] modulo the width. *)
Lemma be_value_be_bytes (n : nat) (z : Z) :
  be_value (be_bytes n z) = z mod 2 ^ (8 * Z.of_nat n).
Proof.
  revert z. induction n as [|n IH]; intros z.
  - cbn. by rewrite Z.mod_1_r.
  - rewrite be_bytes_snoc, be_value_snoc, IH, ord_chr.
    rewrite lor_low_byte by (apply Z.mod_pos_bound; lia).
    rewrite Z.shiftr_div_pow2 by lia. change (2 ^ 8) with 256.
    replace (8 * Z.of_nat (S n)) with (8 + 8 * Z.of_nat n) by lia.
    rewrite Z.pow_add_r by lia. change (2 ^ 8) with 256.
    rewrite Z.rem_mul_r by lia. lia.
Qed.

(** [_unpack('!i', _pack('!i', z))] is [z]. *)
Lemma unpack_i_be_bytes (z : Z) :
  - 2 ^ 31 <= z < 2 ^ 31 -> unpack_i (be_bytes 4 z) = Returns z.
Proof.
  intros Hz. unfold unpack_i. rewrite decide_True by apply length_be_bytes.
  rewrite be_value_be_bytes. f_equal. unfold to_signed.
  change (2 ^ (8 * Z.of_nat 4)) with (2 ^ 32). change (32 - 1) with 31.
  destruct (decide (0 <= z)).
  - rewrite Z.mod_small by lia. by rewrite (proj2 (Z.ltb_lt _ _)) by lia.
  - replace (z mod 2 ^ 32) with (z + 2 ^ 32).
    + rewrite (proj2 (Z.ltb_ge _ _)) by lia. lia.
    + apply Z.mod_unique with (q := -1); lia.
Qed.

(** ** Public methods of the connection *)

Section Closed.
Context `{PyLib}.




End Closed.


Section Funcall.
Context `{PyLib}.

Lemma set_socket_twice v1 v2 s : set___socket v2 (set___socket v1 s) = set___socket v2 s.
Proof. by destruct s. Qed.

Lemma pack_i_fits (z : Z) : - 2 ^ 31 <= z < 2 ^ 31 -> pack_i z = Returns (be_bytes 4 z).
Proof.
  intros Hz. unfold pack_i.
  by rewrite (proj2 (andb_true_iff _ _)) by (split; [apply Z.leb_le|apply Z.ltb_lt]; lia).
Qed.

Lemma pack_I_fits (z : Z) : 0 <= z < 2 ^ 32 -> pack_I z = Returns (be_bytes 4 z).
Proof.
  intros Hz. unfold pack_I.
  by rewrite (proj2 (andb_true_iff _ _)) by (split; [apply Z.leb_le|apply Z.ltb_lt]; lia).
Qed.

Lemma send_arg_run (arg : funarg) (s : state) (inc : list (list ascii)) (out : list ascii) :
  __socket s = Some {| incoming := inc; outgoing := out |} ->
  arg_fits arg ->
  Public.send_arg arg s
  = (Ok tt,
     set___socket
       (Some {| incoming := inc;
                outgoing := out ++ be_bytes 4 (len (arg_bytes arg)) ++ arg_bytes arg |}) s).
Proof.
  intros Hsock Hfits. unfold Public.send_arg.
  destruct arg as [z|z|a]; cbn [arg_fits arg_bytes] in *.
  - rewrite (pack_i_fits 4), (pack_i_fits z) by lia.
    unfold bind at 1, lift at 1. unfold bind at 1, lift at 1.
    by rewrite (send_run _ _ _ Hsock).
  - destruct (0 <=? z) eqn:Hz.
    + apply Z.leb_le in Hz. rewrite (pack_i_fits 4), (pack_I_fits z) by lia.
      unfold bind at 1, lift at 1. unfold bind at 1, lift at 1.
      by rewrite (send_run _ _ _ Hsock).
    + apply Z.leb_gt in Hz. rewrite (pack_i_fits 4), (pack_i_fits z) by lia.
      unfold bind at 1, lift at 1. unfold bind at 1, lift at 1.
      by rewrite (send_run _ _ _ Hsock).
  - rewrite (pack_i_fits (len a)) by (unfold len in *; lia).
    unfold bind at 1, lift at 1. unfold bind at 1.
    rewrite (send_run _ _ _ Hsock). cbn [incoming outgoing].
    erewrite send_run by apply socket_set_socket.
    cbn [incoming outgoing]. by rewrite set_socket_twice, <- app_assoc.
Qed.

Lemma send_args_run (args : list funarg) :
  forall (s : state) (out : list ascii) (inc : list (list ascii)),
    __socket s = Some {| incoming := inc; outgoing := out |} ->
    Forall arg_fits args ->
    for_each args Public.send_arg s
    = (Ok tt,
       set___socket
         (Some {| incoming := inc;
                  outgoing :=
                    out ++ concat ((fun arg => be_bytes 4 (len (arg_bytes arg))
                                              ++ arg_bytes arg) <$> args) |}) s).
Proof.
  induction args as [|arg args IH]; intros s out inc Hsock Hfits.
  - cbn. rewrite app_nil_r. destruct s; cbn in *. by subst.
  - apply Forall_cons in Hfits as [Hfit Hfits]. cbn [for_each].
    unfold bind at 1. rewrite (send_arg_run arg s inc out) by done.
    erewrite IH; [|apply socket_set_socket|done].
    rewrite set_socket_twice. cbn [fmap list_fmap concat]. by rewrite <- !app_assoc.
Qed.

Lemma send_funcall_run (oid : Z) (args : list funarg) (s : state) (sock : socket) :
  __socket s = Some sock ->
  0 <= oid < 2 ^ 32 -> Forall arg_fits args -> len args < 2 ^ 31 ->
  Public.send_funcall oid args s
  = (Ok tt,
     set___socket
       (Some {| incoming := incoming sock;
                outgoing := outgoing sock ++ funcall_message oid args |})
       (set___ready 0 s)).
Proof.
  intros Hsock Hoid Hfits Hlen. destruct sock as [inc out].
  unfold Public.send_funcall. unfold bind at 1. cbn [modify].
  rewrite pack_I_fits, pack_i_fits by (unfold len in *; lia).
  unfold bind at 1, lift at 1. unfold bind at 1, lift at 1. unfold bind at 1.
  assert (Hsock' : __socket (set___ready 0 s) = Some {| incoming := inc; outgoing := out |})
    by by destruct s.
  rewrite (send_run _ _ _ Hsock'). cbn [incoming outgoing].
  erewrite send_args_run; [|apply socket_set_socket|done].
  rewrite set_socket_twice. unfold funcall_message. by rewrite <- !app_assoc.
Qed.

(** X13: What [funcall] sends before it waits for the answer: one
    FunctionCall message, each argument as a 32-bit size and that many
    bytes, an integer as four bytes. *)
Theorem funcall_sends_message (oid : Z) (args : list funarg) (s : state) (sock : socket) :
  __socket s = Some sock ->
  0 <= oid < 2 ^ 32 -> Forall arg_fits args -> len args < 2 ^ 31 ->
  Public.send_funcall oid args s
  = (Ok tt,
     set___socket
       (Some {| incoming := incoming sock;
                outgoing := outgoing sock ++ funcall_message oid args |})
       (set___ready 0 s)).
Proof. apply send_funcall_run. Qed.

End Funcall.

Lemma funcall_sends_message_witness :
  let s := new_connection {| incoming := []; outgoing := [] |} [] (b "user")
             TypeManager.__init__ [] [] in
  Public.send_funcall 954 [ArgInt 3; ArgStr (b "abc")] s
  = (Ok tt,
     set___socket
       (Some {| incoming := [];
                outgoing := [] ++ funcall_message 954 [ArgInt 3; ArgStr (b "abc")] |})
       (set___ready 0 s)).
Proof.
  intros s.
  apply (funcall_sends_message 954 [ArgInt 3; ArgStr (b "abc")] s
           {| incoming := []; outgoing := [] |}); [done|lia| |done].
  repeat constructor; cbn; lia.
Defined.

(** ** The input as a stream *)

Section Stream.
Context `{PyLib}.

Lemma with_input_same (s : state) (sock : socket) :
  __socket s = Some sock -> with_input (__input_buffer s) (incoming sock) s = s.
Proof. destruct s, sock. cbn. by intros ->. Qed.

Lemma with_input_twice buf1 inc1 buf2 inc2 s :
  with_input buf2 inc2 (with_input buf1 inc1 s) = with_input buf2 inc2 s.
Proof. by destruct s as [? ? [[? ?]|] ? ? ? ? ? ? ? ? ? ? ? ? ? ? ? ? ?]. Qed.

Lemma pending_with_input buf inc s :
  is_Some (__socket s) -> pending (with_input buf inc s) = buf ++ concat inc.
Proof. destruct s as [? ? [[? ?]|] ? ? ? ? ? ? ? ? ? ? ? ? ? ? ? ? ?]; [done|by intros [? ?]]. Qed.

Lemma receiving_with_input buf inc s :
  is_Some (__socket s) -> Forall (fun d => d <> []) inc -> receiving (with_input buf inc s).
Proof.
  destruct s as [? ? [[? ?]|] ? ? ? ? ? ? ? ? ? ? ? ? ? ? ? ? ?]; [|by intros [? ?]].
  intros _ Hinc. by eexists.
Qed.

(** The refill loop of [__read_bytes]: chunks move to the buffer until
    it holds [n] bytes or the stream ends. *)
Lemma refill_loop (n : Z) (inc : list (list ascii)) :
  forall (fuel : nat) (buf : list ascii) (s : state),
    is_Some (__socket s) ->
    Forall (fun d => d <> []) inc ->
    (length inc < fuel)%nat ->
    exists buf' inc',
      buf' ++ concat inc' = buf ++ concat inc
      /\ Forall (fun d => d <> []) inc'
      /\ while_ fuel
           (buf <- gets __input_buffer ;; ret (len buf <? n))
           (d <- Connection.__recv 4096 ;;
            match d with
            | _ :: _ => modify (fun s => set___input_buffer (__input_buffer s ++ d) s)
            | [] => raise (OperationalError (b "Connection to backend closed"))
            end) (with_input buf inc s)
         = (if n <=? len (buf ++ concat inc) then Ok tt
            else Raise (OperationalError (b "Connection to backend closed")),
            with_input buf' inc' s)
      /\ (n <= len (buf ++ concat inc) -> n <= len buf').
Proof.
  induction inc as [|d inc IH]; intros fuel buf s Hsock Hinc Hfuel;
    (destruct fuel as [|fuel]; [cbn in Hfuel; lia|]).
  - exists buf, []. split; [done|]. split; [done|].
    rewrite app_nil_r. cbn [concat].
    destruct s as [? ? [[? ?]|] ? ? ? ? ? ? ? ? ? ? ? ? ? ? ? ? ?]; [|by destruct Hsock].
    cbn. unfold bind. cbn. destruct (len buf <? n) eqn:Hlt.
    + apply Z.ltb_lt in Hlt. rewrite (proj2 (Z.leb_gt _ _)) by lia.
      cbn. split; [done|lia].
    + apply Z.ltb_ge in Hlt. rewrite (proj2 (Z.leb_le _ _)) by lia. done.
  - apply Forall_cons in Hinc as [Hd Hinc].
    destruct (len buf <? n) eqn:Hlt.
    + destruct (IH fuel (buf ++ d) s Hsock Hinc ltac:(cbn in Hfuel; lia))
        as (buf' & inc' & Hsame & Hinc' & Hrun & Hlen).
      exists buf', inc'. cbn [concat]. rewrite app_assoc.
      split; [done|]. split; [done|]. split; [|done].
      rewrite <- Hrun. clear Hrun.
      destruct s as [? ? [[? ?]|] ? ? ? ? ? ? ? ? ? ? ? ? ? ? ? ? ?]; [|by destruct Hsock].
      destruct d as [|ch d]; [done|].
      cbn [while_]. unfold bind at 1. unfold bind at 1. cbn [with_input gets ret].
      cbn. rewrite Hlt. reflexivity.
    + exists buf, (d :: inc). split; [done|]. split; [by constructor|].
      apply Z.ltb_ge in Hlt.
      rewrite (proj2 (Z.leb_le _ _)) by (unfold len in *; rewrite length_app; lia).
      split; [|done].
      destruct s as [? ? [[? ?]|] ? ? ? ? ? ? ? ? ? ? ? ? ? ? ? ? ?]; [|by destruct Hsock].
      cbn [while_]. unfold bind at 1. unfold bind at 1. cbn.
      rewrite (proj2 (Z.ltb_ge _ _)) by done. reflexivity.
Qed.


Lemma receiving_socket (s : state) :
  receiving s ->
  exists inc out, __socket s = Some {| incoming := inc; outgoing := out |}
                  /\ Forall (fun d => d <> []) inc
                  /\ pending s = __input_buffer s ++ concat inc
                  /\ with_input (__input_buffer s) inc s = s
                  /\ chunks_left s = length inc.
Proof.
  intros ([inc out] & Hsock & Hinc). exists inc, out.
  unfold pending, chunks_left. rewrite Hsock. repeat split; try done.
  by apply (with_input_same s {| incoming := inc; outgoing := out |}).
Qed.

(** [__read_bytes] takes the next [n] bytes of the stream, however the
    stream is cut into chunks, and leaves the rest. *)
Lemma read_bytes_stream (n : Z) (s : state) (w : list ascii) :
  receiving s -> pending s = w -> 0 <= n <= len w ->
  exists buf' inc',
    Connection.__read_bytes n s = (Ok (take (Z.to_nat n) w), with_input buf' inc' s)
    /\ buf' ++ concat inc' = drop (Z.to_nat n) w
    /\ Forall (fun d => d <> []) inc'.
Proof.
  intros Hs Hw Hn. destruct (receiving_socket s Hs) as (inc & out & Hsock & Hinc & Hp & Hsame & Hc).
  rewrite Hp in Hw.
  destruct (refill_loop n inc (S (length inc)) (__input_buffer s) s
              ltac:(by rewrite Hsock) Hinc ltac:(lia))
    as (buf1 & inc1 & Hsame1 & Hinc1 & Hrun & Hlen).
  rewrite Hsame, Hw in Hrun. rewrite (proj2 (Z.leb_le _ _)) in Hrun by lia.
  rewrite Hw in Hlen, Hsame1. specialize (Hlen ltac:(lia)).
  exists (drop (Z.to_nat n) buf1), inc1.
  unfold Connection.__read_bytes. unfold bind at 1. cbn [gets]. rewrite Hc.
  unfold bind at 1. rewrite Hrun.
  unfold bind at 1. cbn [gets]. unfold bind at 1. cbn [modify]. cbn [ret].
  assert (Hbuf : __input_buffer (with_input buf1 inc1 s) = buf1) by by destruct s.
  rewrite Hbuf. unfold slice_to, slice_from. rewrite slice_bound_nonneg by lia.
  assert (Hset : set___input_buffer (drop (Z.to_nat n) buf1) (with_input buf1 inc1 s)
                 = with_input (drop (Z.to_nat n) buf1) inc1 s).
  { destruct s as [? ? [[? ?]|] ? ? ? ? ? ? ? ? ? ? ? ? ? ? ? ? ?]; done. }
  rewrite Hset. rewrite <- Hsame1.
  rewrite take_app_le, drop_app_le by (unfold len in Hlen; lia).
  done.
Qed.

Lemma read_bytes_prefix (x w : list ascii) (s : state) :
  receiving s -> pending s = x ++ w ->
  exists buf' inc',
    Connection.__read_bytes (len x) s = (Ok x, with_input buf' inc' s)
    /\ buf' ++ concat inc' = w
    /\ Forall (fun d => d <> []) inc'.
Proof.
  intros Hs Hw.
  destruct (read_bytes_stream (len x) s (x ++ w) Hs Hw) as (buf & inc & Hrun & Hrest & Hinc).
  { unfold len. rewrite length_app. lia. }
  unfold len in Hrun, Hrest. rewrite Nat2Z.id in Hrun, Hrest.
  rewrite take_app_length in Hrun. rewrite drop_app_length in Hrest.
  by exists buf, inc.
Qed.

(** When the stream ends before [n] bytes have come, [__read_bytes]
    raises OperationalError. *)
Lemma read_bytes_eof (n : Z) (s : state) :
  receiving s -> len (pending s) < n ->
  exists buf' inc',
    Connection.__read_bytes n s
    = (Raise (OperationalError (b "Connection to backend closed")), with_input buf' inc' s)
    /\ buf' ++ concat inc' = pending s
    /\ Forall (fun d => d <> []) inc'.
Proof.
  intros Hs Hn. destruct (receiving_socket s Hs) as (inc & out & Hsock & Hinc & Hp & Hsame & Hc).
  rewrite Hp in *.
  destruct (refill_loop n inc (S (length inc)) (__input_buffer s) s
              ltac:(by rewrite Hsock) Hinc ltac:(lia))
    as (buf1 & inc1 & Hsame1 & Hinc1 & Hrun & Hlen).
  rewrite Hsame in Hrun. rewrite (proj2 (Z.leb_gt _ _)) in Hrun by lia.
  exists buf1, inc1.
  unfold Connection.__read_bytes. unfold bind at 1. cbn [gets]. rewrite Hc.
  unfold bind at 1. rewrite Hrun. done.
Qed.

Lemma split1_found (t : ascii) (text rest : list ascii) :
  t ∉ text -> split1 t (text ++ t :: rest) = Some (text, rest).
Proof.
  induction text as [|ch text IH]; intros Ht; cbn.
  - by rewrite decide_True.
  - apply not_elem_of_cons in Ht as [Hch Ht].
    rewrite decide_False by done. by rewrite IH.
Qed.

Lemma split1_missing (t : ascii) (buf : list ascii) : t ∉ buf -> split1 t buf = None.
Proof.
  induction buf as [|ch buf IH]; intros Ht; cbn; [done|].
  apply not_elem_of_cons in Ht as [Hch Ht].
  rewrite decide_False by done. by rewrite IH.
Qed.

Lemma read_string_loop (t : ascii) (text rest : list ascii) (inc : list (list ascii)) :
  forall (fuel : nat) (buf : list ascii) (s : state),
    is_Some (__socket s) ->
    Forall (fun d => d <> []) inc ->
    (length inc < fuel)%nat ->
    t ∉ text ->
    buf ++ concat inc = text ++ t :: rest ->
    exists buf' inc',
      buf' ++ concat inc' = rest
      /\ Forall (fun d => d <> []) inc'
      /\ loop fuel
           (fun _ : unit =>
              buf <- gets __input_buffer ;;
              match split1 t buf with
              | Some (result, rest) => modify (set___input_buffer rest) ;; ret (inr result)
              | None =>
                  d <- Connection.__recv 4096 ;;
                  match d with
                  | _ :: _ =>
                      modify (fun s => set___input_buffer (__input_buffer s ++ d) s) ;;
                      ret (inl tt)
                  | [] => raise (OperationalError (b "Connection to backend closed"))
                  end
              end) tt (with_input buf inc s)
         = (Ok text, with_input buf' inc' s).
Proof.
  induction inc as [|d inc IH]; intros fuel buf s Hsock Hinc Hfuel Ht Hw;
    (destruct fuel as [|fuel]; [cbn in Hfuel; lia|]);
    (destruct s as [? ? [[? out]|] ? ? ? ? ? ? ? ? ? ? ? ? ? ? ? ? ?]; [|by destruct Hsock]).
  - cbn [concat] in Hw. rewrite app_nil_r in Hw. subst buf.
    exists rest, []. split; [by rewrite app_nil_r|]. split; [done|].
    cbn [loop]. unfold bind at 1. unfold bind at 1. cbn [with_input gets]. cbn.
    rewrite split1_found by done. reflexivity.
  - apply Forall_cons in Hinc as [Hd Hinc].
    destruct (decide (t ∈ buf)) as [Hin|Hnin].
    + assert (Hbuf : exists k, buf = text ++ t :: k /\ rest = k ++ concat (d :: inc)).
      { apply app_eq_inv in Hw as [(k & -> & Hk)|(k & -> & Hk)].
        - destruct k as [|c k].
          + rewrite app_nil_r in Hin. done.
          + injection Hk as <- ->. by exists k.
        - exfalso. apply Ht. apply elem_of_app. by left. }
      destruct Hbuf as (k & -> & ->).
      exists k, (d :: inc). split; [done|]. split; [by constructor|].
      cbn [loop]. unfold bind at 1. unfold bind at 1. cbn [with_input gets]. cbn.
      rewrite split1_found by done. reflexivity.
    + destruct d as [|ch d]; [done|].
      match goal with |- context [with_input buf (_ :: inc) ?s0] =>
        destruct (IH fuel (buf ++ ch :: d) s0) as (buf' & inc' & Hrest & Hinc' & Hrun)
      end;
        [done|done|cbn in Hfuel; lia|done|by rewrite <- app_assoc|].
      exists buf', inc'. split; [done|]. split; [done|].
      cbn [loop]. unfold bind at 1. unfold bind at 1. cbn [with_input gets]. cbn.
      rewrite split1_missing by done. cbn in Hrun. exact Hrun.
Qed.

(** [__read_string] takes the text before the first terminator of the
    stream and the terminator itself, however the stream is cut into
    chunks. *)
Lemma read_string_stream (t : ascii) (s : state) (text rest : list ascii) :
  receiving s -> pending s = text ++ t :: rest -> t ∉ text ->
  exists buf' inc',
    Connection.__read_string t s = (Ok text, with_input buf' inc' s)
    /\ buf' ++ concat inc' = rest
    /\ Forall (fun d => d <> []) inc'.
Proof.
  intros Hs Hw Ht.
  destruct (receiving_socket s Hs) as (inc & out & Hsock & Hinc & Hp & Hsame & Hc).
  rewrite Hp in Hw.
  destruct (read_string_loop t text rest inc (S (length inc)) (__input_buffer s) s
              ltac:(by rewrite Hsock) Hinc ltac:(lia) Ht Hw)
    as (buf' & inc' & Hrest & Hinc' & Hrun).
  rewrite Hsame in Hrun. exists buf', inc'.
  unfold Connection.__read_string. unfold bind at 1. cbn [gets]. rewrite Hc. done.
Qed.

End Stream.

Section StreamTheorems.
Context `{PyLib}.

Lemma advanced_sent (w : list ascii) (s s' : state) : advanced w s s' -> sent s' = sent s.
Proof.
  intros (buf & inc & -> & _).
  by destruct s as [? ? [[? ?]|] ? ? ? ? ? ? ? ? ? ? ? ? ? ? ? ? ?].
Qed.

(** X14: What [__read_bytes] returns depends on the bytes of the stream
    only, not on the chunks they arrive in: the next [n] bytes when the
    stream has that many, and OperationalError, with nothing lost, when
    the backend closes the stream before. *)
Theorem read_bytes_ignores_chunking (n : Z) (s : state) :
  receiving s -> 0 <= n ->
  exists s',
    Connection.__read_bytes n s
    = (if n <=? len (pending s) then Ok (take (Z.to_nat n) (pending s))
       else Raise (OperationalError (b "Connection to backend closed")), s')
    /\ pending s'
       = (if n <=? len (pending s) then drop (Z.to_nat n) (pending s) else pending s)
    /\ receiving s'
    /\ sent s' = sent s.
Proof.
  intros Hs Hn.
  assert (Hsock : is_Some (__socket s)) by (destruct Hs as (? & -> & _); done).
  destruct (n <=? len (pending s)) eqn:Hle.
  - apply Z.leb_le in Hle.
    destruct (read_bytes_stream n s (pending s) Hs eq_refl ltac:(lia))
      as (buf & inc & Hrun & Hw & Hinc).
    exists (with_input buf inc s). split; [done|].
    rewrite pending_with_input by done. split; [done|].
    split; [by apply receiving_with_input|].
    apply (advanced_sent (buf ++ concat inc)). by exists buf, inc.
  - apply Z.leb_gt in Hle.
    destruct (read_bytes_eof n s Hs Hle) as (buf & inc & Hrun & Hw & Hinc).
    exists (with_input buf inc s). split; [done|].
    rewrite pending_with_input by done. split; [done|].
    split; [by apply receiving_with_input|].
    apply (advanced_sent (buf ++ concat inc)). by exists buf, inc.
Qed.

Lemma split1_inv (t : ascii) (l text rest : list ascii) :
  split1 t l = Some (text, rest) -> l = text ++ t :: rest /\ t ∉ text.
Proof.
  revert text. induction l as [|ch l IH]; intros text; cbn; [done|].
  case_decide as Hch.
  - intros [= <- <-]. subst. split; [done|]. apply not_elem_of_nil.
  - destruct (split1 t l) as [[a r]|]; [|done]. intros [= <- <-].
    destruct (IH a eq_refl) as [-> Ha]. split; [done|].
    apply not_elem_of_cons. split; [congruence|done].
Qed.

Lemma split1_None (t : ascii) (l : list ascii) : split1 t l = None -> t ∉ l.
Proof.
  induction l as [|ch l IH]; cbn; [intros _; apply not_elem_of_nil|].
  case_decide as Hch; [done|].
  destruct (split1 t l) as [[a r]|]; [done|]. intros _.
  apply not_elem_of_cons. split; [congruence|by apply IH].
Qed.

Lemma read_string_loop_eof (t : ascii) (inc : list (list ascii)) :
  forall (fuel : nat) (buf : list ascii) (s : state),
    is_Some (__socket s) ->
    Forall (fun d => d <> []) inc ->
    (length inc < fuel)%nat ->
    t ∉ buf ++ concat inc ->
    loop fuel
      (fun _ : unit =>
         buf <- gets __input_buffer ;;
         match split1 t buf with
         | Some (result, rest) => modify (set___input_buffer rest) ;; ret (inr result)
         | None =>
             d <- Connection.__recv 4096 ;;
             match d with
             | _ :: _ =>
                 modify (fun s => set___input_buffer (__input_buffer s ++ d) s) ;;
                 ret (inl tt)
             | [] => raise (OperationalError (b "Connection to backend closed"))
             end
         end) tt (with_input buf inc s)
    = (Raise (OperationalError (b "Connection to backend closed")),
       with_input (buf ++ concat inc) [] s).
Proof.
  induction inc as [|d inc IH]; intros fuel buf s Hsock Hinc Hfuel Ht;
    (destruct fuel as [|fuel]; [cbn in Hfuel; lia|]);
    (destruct s as [s_pid s_key [[? out]|] s_buf s_auth s_ready s_result s_cur s_queue
                    s_func s_tm s_pw s_user s_in s_out s_sets s_desc s_sysin s_sysout s_log];
     [|by destruct Hsock]).
  - cbn [concat] in *. rewrite app_nil_r in *.
    cbn [loop]. unfold bind at 1. unfold bind at 1. cbn [with_input gets]. cbn.
    by rewrite split1_missing by done.
  - apply Forall_cons in Hinc as [Hd Hinc]. cbn [concat] in Ht.
    destruct d as [|ch d]; [done|].
    cbn [loop]. unfold bind at 1. unfold bind at 1. cbn [with_input gets]. cbn.
    rewrite split1_missing by (intros Hin; apply Ht; apply elem_of_app; by left).
    specialize (IH fuel (buf ++ ch :: d)
                  (Build_state s_pid s_key
                     (Some {| incoming := inc; outgoing := out |}) s_buf
                     s_auth s_ready s_result s_cur s_queue
                     s_func s_tm s_pw s_user s_in s_out
                     s_sets s_desc s_sysin s_sysout s_log)
                  ltac:(done) Hinc ltac:(cbn in Hfuel; lia)
                  ltac:(by rewrite <- app_assoc)).
    cbn in IH. rewrite <- app_assoc in IH. exact IH.
Qed.

(** X15: [__read_string] likewise: the text before the first terminator of
    the stream, and OperationalError when the stream ends without one. *)
Theorem read_string_ignores_chunking (t : ascii) (s : state) :
  receiving s ->
  exists s',
    receiving s' /\ sent s' = sent s
    /\ match split1 t (pending s) with
       | Some (text, rest) =>
           Connection.__read_string t s = (Ok text, s') /\ pending s' = rest
       | None =>
           Connection.__read_string t s
           = (Raise (OperationalError (b "Connection to backend closed")), s')
           /\ pending s' = pending s
       end.
Proof.
  intros Hs.
  assert (Hsock : is_Some (__socket s)) by (destruct Hs as (? & -> & _); done).
  destruct (split1 t (pending s)) as [[text rest]|] eqn:Hsplit.
  - apply split1_inv in Hsplit as [Hw Ht].
    destruct (read_string_stream t s text rest Hs Hw Ht) as (buf & inc & Hrun & Hrest & Hinc).
    exists (with_input buf inc s).
    split; [by apply receiving_with_input|].
    split; [apply (advanced_sent (buf ++ concat inc)); by exists buf, inc|].
    split; [done|]. by rewrite pending_with_input.
  - apply split1_None in Hsplit.
    destruct (receiving_socket s Hs) as (inc & out & Hso & Hinc & Hp & Hsame & Hc).
    rewrite Hp in *.
    pose proof (read_string_loop_eof t inc (S (length inc)) (__input_buffer s) s
                  Hsock Hinc ltac:(lia) Hsplit) as Hrun.
    rewrite Hsame in Hrun.
    exists (with_input (__input_buffer s ++ concat inc) [] s).
    split; [by apply receiving_with_input|].
    split; [apply (advanced_sent (__input_buffer s ++ concat inc)); eexists _, [];
            by rewrite app_nil_r|].
    split.
    + unfold Connection.__read_string. unfold bind at 1. cbn [gets]. by rewrite Hc.
    + rewrite pending_with_input by done. cbn. by rewrite app_nil_r.
Qed.

End StreamTheorems.

Lemma read_bytes_ignores_chunking_witness :
  let s := new_connection
             {| incoming := [b "ab"; b "c"; b "def"]; outgoing := [] |}
             [] (b "user") TypeManager.__init__ [] [] in
  exists s',
    Connection.__read_bytes 4 s = (Ok (b "abcd"), s')
    /\ pending s' = b "ef"
    /\ receiving s'
    /\ sent s' = sent s.
Proof.
  intros s. apply (read_bytes_ignores_chunking 4 s).
  - eexists. split; [reflexivity|]. repeat constructor; discriminate.
  - lia.
Defined.

Lemma read_string_ignores_chunking_witness :
  let s := new_connection
             {| incoming := [b "SEL"; b "ECT" ++ [NUL] ++ b "Z"]; outgoing := [] |}
             [] (b "user") TypeManager.__init__ [] [] in
  exists s',
    receiving s' /\ sent s' = sent s
    /\ Connection.__read_string NUL s = (Ok (b "SELECT"), s') /\ pending s' = b "Z".
Proof.
  intros s. apply (read_string_ignores_chunking NUL s).
  eexists. split; [reflexivity|]. repeat constructor; discriminate.
Defined.

(** ** The packet loop, one response at a time *)

Section Responses.
Context `{PyLib}.

Lemma bind_run {A B} (m : M A) (k : A -> M B) (s : state) :
  bind m k s
  = match m s with
    | (Ok a, s') => k a s'
    | (Raise e, s') => (Raise e, s')
    | (OutOfFuel, s') => (OutOfFuel, s')
    end.
Proof. reflexivity. Qed.

Lemma while_more_fuel (cond : M bool) (body : M unit) :
  forall (fuel fuel' : nat) (s : state),
    (fuel <= fuel')%nat ->
    (while_ fuel cond body s).1 <> OutOfFuel ->
    while_ fuel' cond body s = while_ fuel cond body s.
Proof.
  induction fuel as [|fuel IH]; intros fuel' s Hle Hrun.
  - destruct fuel' as [|fuel']; [done|].
    cbn [while_] in *. rewrite !(bind_run cond) in *.
    by destruct (cond s) as [[[|]|e|] s1].
  - destruct fuel' as [|fuel']; [lia|].
    cbn [while_] in *. rewrite !(bind_run cond) in *.
    destruct (cond s) as [[[|]|e|] s1]; try done.
    rewrite !(bind_run body) in *.
    destruct (body s1) as [[[]|e|] s2]; try done.
    apply IH; [lia|done].
Qed.

Lemma read_until_ready_step (s : state) :
  Connection.read_until_ready s
  = if __ready s =? 0 then
      match Connection.__read_response s with
      | (Ok _, s1) =>
          while_ (bytes_left s) (ready <- gets __ready ;; ret (ready =? 0))
            Connection.__read_response s1
      | (Raise e, s1) => (Raise e, s1)
      | (OutOfFuel, s1) => (OutOfFuel, s1)
      end
    else (Ok tt, s).
Proof.
  unfold Connection.read_until_ready. rewrite bind_run. cbn [gets while_].
  rewrite bind_run. rewrite (bind_run (gets __ready)). cbn [gets ret].
  destruct (__ready s =? 0); [|done]. by rewrite bind_run.
Qed.

Lemma read_until_ready_done (s : state) :
  __ready s <> 0 -> Connection.read_until_ready s = (Ok tt, s).
Proof.
  intros Hr. rewrite read_until_ready_step. by rewrite (proj2 (Z.eqb_neq _ _)) by done.
Qed.

Lemma read_until_ready_raise (s s1 : state) (e : exn) :
  __ready s = 0 -> Connection.__read_response s = (Raise e, s1) ->
  Connection.read_until_ready s = (Raise e, s1).
Proof. intros Hr Hrun. by rewrite read_until_ready_step, Hr, Hrun. Qed.

Lemma read_until_ready_next (s s1 : state) :
  __ready s = 0 -> Connection.__read_response s = (Ok tt, s1) ->
  Connection.read_until_ready s = Connection.read_until_ready s1.
Proof.
  intros Hr Hrun. rewrite read_until_ready_step, Hr, Hrun. cbn [Z.eqb].
  pose proof (read_response_takes s s1 Hrun) as Htakes.
  pose proof (terminates_read_until_ready s1) as Hterm.
  unfold terminates_at, Connection.read_until_ready in Hterm.
  rewrite bind_run in Hterm. cbn [gets] in Hterm.
  unfold Connection.read_until_ready. rewrite bind_run. cbn [gets].
  apply while_more_fuel; [lia|done].
Qed.

End Responses.

(** ** Responses read off the stream *)

Ltac state_simpl :=
  cbn [with_input logged pending
       set___backend set___socket set___input_buffer set___authenticated set___ready
       set___result set___current_result set___notify_queue set___func_result
       set_stdin set_stdout set_result_sets set_sys_stdin set_sys_stdout set_pkt_log
       __backend_pid __backend_key __socket __input_buffer __authenticated __ready
       __result __current_result __notify_queue __func_result type_manager __passwd
       __userid stdin stdout result_sets descriptors sys_stdin sys_stdout pkt_log
       incoming outgoing].

Ltac state_simpl_in H :=
  cbn [with_input logged pending
       set___backend set___socket set___input_buffer set___authenticated set___ready
       set___result set___current_result set___notify_queue set___func_result
       set_stdin set_stdout set_result_sets set_sys_stdin set_sys_stdout set_pkt_log
       __backend_pid __backend_key __socket __input_buffer __authenticated __ready
       __result __current_result __notify_queue __func_result type_manager __passwd
       __userid stdin stdout result_sets descriptors sys_stdin sys_stdout pkt_log
       incoming outgoing] in H.

Ltac bytes_simpl :=
  cbn [take drop b list_ascii_of_string app]; rewrite ?firstn_O, ?drop_0.

Ltac bytes_simpl_in H :=
  cbn [take drop b list_ascii_of_string app] in H; rewrite ?firstn_O, ?drop_0 in H.

(** Takes the socket of a receiving state apart and names the fields of
    the state. *)
Ltac open_state s Hs Hw :=
  let inc := fresh "inc" in
  let out := fresh "out" in
  let Hinc := fresh "Hinc" in
  destruct s as [s_pid s_key [[inc out]|] s_buf s_auth s_ready s_result s_cur s_queue
                 s_func s_tm s_pw s_user s_in s_out s_sets s_desc s_sysin s_sysout s_log];
    [|by destruct Hs as (? & ? & _)];
  destruct Hs as (? & [= <-] & Hinc); state_simpl_in Hinc;
  unfold pending in Hw; state_simpl_in Hw.

(** Reads [n] bytes off the stream of the state in the goal. *)
Ltac read_bytes_step Hw Hinc :=
  lazymatch goal with
  | |- context [Connection.__read_bytes ?n ?s] =>
      let buf := fresh "buf" in
      let inc := fresh "inc" in
      let Hrun := fresh "Hrun" in
      let Hw' := fresh "Hw" in
      let Hinc' := fresh "Hinc" in
      edestruct (read_bytes_stream n s) as (buf & inc & Hrun & Hw' & Hinc');
        [by eexists; split; [reflexivity|exact Hinc]
        |unfold pending; state_simpl; exact Hw
        |
        |rewrite Hrun; clear Hrun;
         lazymatch n with
         | Zpos _ => let k := eval vm_compute in (Z.to_nat n) in
                     change (Z.to_nat n) with k in Hw' |- *
         | _ => idtac
         end;
         state_simpl; bytes_simpl; bytes_simpl_in Hw']
  end.

(** Reads the bytes [x] that head the stream of the state in the goal. *)
Ltac read_prefix_step n x Hw Hinc :=
  lazymatch goal with
  | |- context [Connection.__read_bytes n ?s] =>
      let buf := fresh "buf" in
      let inc := fresh "inc" in
      let Hrun := fresh "Hrun" in
      let Hw' := fresh "Hw" in
      let Hinc' := fresh "Hinc" in
      edestruct (fun w0 => read_bytes_prefix x w0 s) as (buf & inc & Hrun & Hw' & Hinc');
        [by eexists; split; [reflexivity|exact Hinc]
        |unfold pending; state_simpl; exact Hw
        |change (len x) with n in Hrun; rewrite Hrun; clear Hrun; state_simpl]
  end.

Ltac read_string_step t Hw Hinc :=
  lazymatch goal with
  | |- context [Connection.__read_string t ?s] =>
      let buf := fresh "buf" in
      let inc := fresh "inc" in
      let Hrun := fresh "Hrun" in
      let Hw' := fresh "Hw" in
      let Hinc' := fresh "Hinc" in
      edestruct (read_string_stream t s) as (buf & inc & Hrun & Hw' & Hinc');
        [by eexists; split; [reflexivity|exact Hinc]
        |unfold pending; state_simpl; exact Hw
        |
        |rewrite Hrun; clear Hrun; state_simpl; bytes_simpl; bytes_simpl_in Hw']
  end.

Ltac len_solve :=
  unfold len; cbn [b list_ascii_of_string app]; rewrite ?length_app; cbn [length]; lia.

Section ResponseRuns.
Context `{PyLib}.

Lemma advanced_receiving (w : list ascii) (s s' : state) :
  is_Some (__socket s) -> advanced w s s' -> receiving s' /\ pending s' = w.
Proof.
  intros Hsock (buf & inc & -> & <- & Hinc).
  split; [by apply receiving_with_input|by apply pending_with_input].
Qed.

(** The type byte of a response, and the handler it selects. *)
Lemma response_method (ch : ascii) (w : list ascii) (s : state) (method : M unit) :
  receiving s -> pending s = ch :: w ->
  Connection.lookup_method [ch] = Some method ->
  exists s1, advanced w (logged [ch] s) s1
             /\ Connection.__read_response s = method s1.
Proof.
  intros Hs Hw Hm. open_state s Hs Hw.
  unfold Connection.__read_response. rewrite bind_run.
  read_bytes_step Hw Hinc; [len_solve|].
  rewrite bind_run. cbn [modify]. rewrite Hm. state_simpl.
  eexists. split; [|reflexivity]. by exists buf, inc0.
Qed.

Lemma response_unknown (ch : ascii) (w : list ascii) (s : state) :
  receiving s -> pending s = ch :: w ->
  Connection.lookup_method [ch] = None ->
  exists s1, advanced w (logged [ch] s) s1
             /\ Connection.__read_response s
                = (Raise (InterfaceError (b "Unrecognized packet type from server: " ++ [ch])),
                   s1).
Proof.
  intros Hs Hw Hm. open_state s Hs Hw.
  unfold Connection.__read_response. rewrite bind_run.
  read_bytes_step Hw Hinc; [len_solve|].
  rewrite bind_run. cbn [modify]. rewrite Hm. state_simpl.
  eexists. split; [|reflexivity]. by exists buf, inc0.
Qed.

(** ErrorResponse while a bundle is open: the message becomes the error
    of the bundle and a new bundle is started. *)
Lemma response_E_bundle (msg w : list ascii) (s : state) (r : nat) :
  receiving s -> pending s = b "E" ++ msg ++ NUL :: w -> NUL ∉ msg ->
  __current_result s = Some r ->
  exists s',
    Connection.__read_response s = (Ok tt, s')
    /\ advanced w
         (Connection.__new_result
            (set_result_sets (alter (set_error (Some msg)) r (result_sets s))
               (logged (b "E") s))).2 s'.
Proof.
  intros Hs Hw Hmsg Hcur. open_state s Hs Hw. state_simpl_in Hcur. subst.
  unfold Connection.__read_response. rewrite bind_run.
  read_bytes_step Hw Hinc; [len_solve|].
  rewrite bind_run. cbn [modify].
  change (Connection.lookup_method ["E"%char]) with (Some Connection._pkt_E).
  unfold Connection._pkt_E. rewrite bind_run. cbn [gets]. state_simpl.
  rewrite bind_run. read_string_step NUL Hw0 Hinc0; [done|].
  unfold current_result_object. rewrite !bind_run. cbn [gets]. state_simpl.
  cbn [ret]. unfold update_result. cbn [modify]. state_simpl.
  unfold Connection.__new_result. cbn [modify]. state_simpl.
  eexists. split; [reflexivity|]. exists buf0, inc1. by destruct s_result.
Qed.

(** ErrorResponse outside a batch *)
Lemma response_E_outside (msg w : list ascii) (s : state) :
  receiving s -> pending s = b "E" ++ msg ++ NUL :: w -> NUL ∉ msg ->
  __current_result s = None ->
  exists s',
    Connection.__read_response s = (Raise (DatabaseError msg), s')
    /\ advanced w (logged (b "E") s) s'.
Proof.
  intros Hs Hw Hmsg Hcur. open_state s Hs Hw. state_simpl_in Hcur. subst.
  unfold Connection.__read_response. rewrite bind_run.
  read_bytes_step Hw Hinc; [len_solve|].
  rewrite bind_run. cbn [modify].
  change (Connection.lookup_method ["E"%char]) with (Some Connection._pkt_E).
  unfold Connection._pkt_E. rewrite bind_run. cbn [gets]. state_simpl.
  rewrite bind_run. read_string_step NUL Hw0 Hinc0; [done|].
  cbn [raise].
  eexists. split; [reflexivity|]. by exists buf0, inc1.
Qed.

(** CommandComplete *)
Lemma response_C (tag w : list ascii) (s : state) (r : nat) :
  receiving s -> pending s = b "C" ++ tag ++ NUL :: w -> NUL ∉ tag ->
  __current_result s = Some r ->
  exists s',
    Connection.__read_response s = (Ok tt, s')
    /\ advanced w
         (Connection.__new_result
            (set_result_sets (alter (set_completed (Some tag)) r (result_sets s))
               (logged (b "C") s))).2 s'.
Proof.
  intros Hs Hw Htag Hcur. open_state s Hs Hw. state_simpl_in Hcur. subst.
  unfold Connection.__read_response. rewrite bind_run.
  read_bytes_step Hw Hinc; [len_solve|].
  rewrite bind_run. cbn [modify].
  change (Connection.lookup_method ["C"%char]) with (Some Connection._pkt_C).
  unfold Connection._pkt_C. rewrite bind_run.
  read_string_step NUL Hw0 Hinc0; [done|].
  unfold current_result_object. rewrite !bind_run. cbn [gets]. state_simpl.
  cbn [ret]. unfold update_result. cbn [modify]. state_simpl.
  unfold Connection.__new_result. cbn [modify]. state_simpl.
  eexists. split; [reflexivity|]. exists buf0, inc1. by destruct s_result.
Qed.

(** ReadyForQuery *)
Lemma response_Z (s : state) (w : list ascii) :
  receiving s -> pending s = b "Z" ++ w ->
  exists s', Connection.__read_response s = (Ok tt, s')
             /\ advanced w (set___ready 1 (logged (b "Z") s)) s'.
Proof.
  intros Hs Hw. open_state s Hs Hw.
  unfold Connection.__read_response. rewrite bind_run.
  read_bytes_step Hw Hinc; [len_solve|].
  rewrite bind_run. cbn [modify].
  change (Connection.lookup_method ["Z"%char]) with (Some Connection._pkt_Z).
  unfold Connection._pkt_Z. cbn [modify]. state_simpl.
  eexists. split; [reflexivity|]. by exists buf, inc0.
Qed.

(** AuthenticationOk *)
Lemma response_R_ok (w : list ascii) (s : state) :
  receiving s -> pending s = b "R" ++ be_bytes 4 0 ++ w ->
  exists s', Connection.__read_response s = (Ok tt, s')
             /\ advanced w (set___authenticated 1 (logged (b "R") s)) s'.
Proof.
  intros Hs Hw. open_state s Hs Hw.
  unfold Connection.__read_response. rewrite bind_run.
  read_bytes_step Hw Hinc; [len_solve|].
  rewrite bind_run. cbn [modify].
  change (Connection.lookup_method ["R"%char]) with (Some Connection._pkt_R).
  unfold Connection._pkt_R. rewrite bind_run. state_simpl.
  read_prefix_step 4 (be_bytes 4 0) Hw0 Hinc0.
  rewrite bind_run. change (unpack_i (be_bytes 4 0)) with (Returns 0 : outcome Z).
  cbn [lift Z.eqb modify]. state_simpl.
  eexists. split; [reflexivity|]. by exists buf0, inc1.
Qed.

(** BackendKeyData *)
Lemma response_K (pid key : Z) (w : list ascii) (s : state) :
  receiving s -> pending s = b "K" ++ be_bytes 4 pid ++ be_bytes 4 key ++ w ->
  - 2 ^ 31 <= pid < 2 ^ 31 -> - 2 ^ 31 <= key < 2 ^ 31 ->
  exists s', Connection.__read_response s = (Ok tt, s')
             /\ advanced w (set___backend (Some pid) (Some key) (logged (b "K") s)) s'.
Proof.
  intros Hs Hw Hpid Hkey. open_state s Hs Hw.
  unfold Connection.__read_response. rewrite bind_run.
  read_bytes_step Hw Hinc; [len_solve|].
  rewrite bind_run. cbn [modify].
  change (Connection.lookup_method ["K"%char]) with (Some Connection._pkt_K).
  unfold Connection._pkt_K. rewrite bind_run. state_simpl.
  rewrite app_assoc in Hw0.
  read_prefix_step 8 (be_bytes 4 pid ++ be_bytes 4 key) Hw0 Hinc0.
  rewrite (take_app_length' (be_bytes 4 pid)) by (by rewrite length_be_bytes).
  rewrite (drop_app_length' (be_bytes 4 pid)) by (by rewrite length_be_bytes).
  rewrite !unpack_i_be_bytes by done.
  rewrite !bind_run. cbn [lift modify]. state_simpl.
  eexists. split; [reflexivity|]. by exists buf0, inc1.
Qed.

(** FunctionResultResponse: a result, or none. *)
Lemma response_V (result : option (list ascii)) (w : list ascii) (s : state) :
  receiving s ->
  pending s
  = b "V" ++ match result with
             | Some data => b "G" ++ be_bytes 4 (len data) ++ data
             | None => []
             end ++ b "0" ++ w ->
  len (default [] result) < 2 ^ 31 ->
  exists s', Connection.__read_response s = (Ok tt, s')
             /\ advanced w (set___func_result result (logged (b "V") s)) s'.
Proof.
  intros Hs Hw Hlen. open_state s Hs Hw.
  unfold Connection.__read_response. rewrite bind_run.
  read_bytes_step Hw Hinc; [len_solve|].
  rewrite bind_run. cbn [modify].
  change (Connection.lookup_method ["V"%char]) with (Some Connection._pkt_V).
  unfold Connection._pkt_V. rewrite bind_run. cbn [modify]. state_simpl.
  rewrite bind_run. cbn [gets]. cbn [loop]. rewrite bind_run.
  destruct result as [data|]; cbn [default from_option id] in Hlen.
  - rewrite bind_run.
    bytes_simpl_in Hw0.
    read_prefix_step 1 (b "G") Hw0 Hinc0.
    rewrite bool_decide_eq_false_2 by done. rewrite bool_decide_eq_true_2 by done.
    rewrite bind_run.
    read_prefix_step 4 (be_bytes 4 (len data)) Hw1 Hinc1.
    rewrite bind_run, unpack_i_be_bytes by (unfold len in *; lia). cbn [lift].
    rewrite bind_run.
    read_prefix_step (len data) data Hw2 Hinc2.
    rewrite bind_run. cbn [modify ret]. state_simpl.
    lazymatch goal with |- context [loop ?fuel _ _ _] =>
      assert (Hfuel : (0 < fuel)%nat)
    end.
    { unfold bytes_left. state_simpl. rewrite <- length_app, Hw0. cbn [length]. lia. }
    destruct (bytes_left _) as [|fuel]; [lia|]. clear Hfuel.
    cbn [loop]. rewrite !bind_run.
    read_prefix_step 1 (b "0") Hw3 Hinc3.
    rewrite bool_decide_eq_true_2 by done. cbn [ret].
    eexists. split; [reflexivity|]. by exists buf3, inc4.
  - rewrite bind_run.
    bytes_simpl_in Hw0.
    read_prefix_step 1 (b "0") Hw0 Hinc0.
    rewrite bool_decide_eq_true_2 by done. cbn [ret].
    eexists. split; [reflexivity|]. by exists buf0, inc1.
Qed.

End ResponseRuns.

Ltac receiving_now Hinc := by eexists; split; [reflexivity|exact Hinc].

Ltac run_pure :=
  repeat first [rewrite bind_run
               |progress cbn [modify gets ret raise lift default from_option id app]
               |progress state_simpl].

(** Takes the next response off the stream with [lemma] and goes on with
    the packet loop. *)
Ltac next_response lemma Hinc Hw :=
  lazymatch goal with |- context [Connection.read_until_ready ?s0] =>
    let s1 := fresh "s" in
    let Hrun := fresh "Hrun" in
    let buf := fresh "buf" in
    let inc := fresh "inc" in
    let Hw' := fresh "Hw" in
    let Hinc' := fresh "Hinc" in
    edestruct (lemma s0) as (s1 & Hrun & (buf & inc & -> & Hw' & Hinc'));
      [receiving_now Hinc|unfold pending; state_simpl; exact Hw|..
      |rewrite (read_until_ready_next s0 _ eq_refl Hrun); clear Hrun; state_simpl]
  end.

(** ** A batch of one statement *)

Section OneStatement.
Context `{PyLib}.

Lemma closed_bundle_lookup (f : _ResultSet -> _ResultSet) (sets later : list _ResultSet) :
  (alter f (length sets) (sets ++ [new_ResultSet]) ++ later) !!! length sets
  = f new_ResultSet.
Proof.
  rewrite list_lookup_total_alt.
  rewrite lookup_app_l by (rewrite length_alter, length_app; cbn; lia).
  rewrite list_lookup_alter, list_lookup_middle by done.
  by rewrite decide_True by done.
Qed.

(** X16: The answer to a statement that fails: an ErrorResponse and
    ReadyForQuery.  [_execute] sends the query, reads exactly these two
    responses and raises DatabaseError with the message of the backend;
    an empty message is taken for no error. *)
Theorem execute_error_response (cmd msg w : list ascii) (s : state) :
  receiving s ->
  pending s = b "E" ++ msg ++ [NUL] ++ b "Z" ++ w ->
  NUL ∉ msg ->
  exists s',
    Connection._execute cmd s
    = (match msg with
       | [] => Ok (None, None, [], cmd)
       | _ :: _ => Raise (DatabaseError msg)
       end, s')
    /\ sent s' = sent s ++ b "Q" ++ cmd ++ [NUL]
    /\ pending s' = w
    /\ __ready s' = 1
    /\ __result s' = None.
Proof.
  intros Hs Hw Hmsg. open_state s Hs Hw.
  unfold Connection._execute, Connection.run_batch.
  unfold Connection.__new_result, Connection.__send. run_pure.
  lazymatch goal with |- context [Connection.read_until_ready ?s0] =>
    destruct (response_E_bundle msg (b "Z" ++ w) s0 (length s_sets))
      as (s1 & Hrun1 & (buf1 & inc1 & -> & Hw1 & Hinc1));
      [receiving_now Hinc|exact Hw|done|reflexivity|];
    rewrite (read_until_ready_next s0 _ eq_refl Hrun1); clear Hrun1
  end.
  unfold Connection.__new_result. cbn [modify snd]. state_simpl.
  lazymatch goal with |- context [Connection.read_until_ready ?s0] =>
    destruct (response_Z s0 w) as (s2 & Hrun2 & (buf2 & inc2 & -> & Hw2 & Hinc2));
      [receiving_now Hinc1|exact Hw1|];
    rewrite (read_until_ready_next s0 _ eq_refl Hrun2); clear Hrun2
  end.
  state_simpl. rewrite read_until_ready_done by done.
  run_pure.
  lazymatch goal with |- context [slice_to [?a; ?c] (-1)] =>
    change (slice_to [a; c] (-1)) with [a]
  end.
  run_pure.
  rewrite closed_bundle_lookup. cbn [error set_error new_ResultSet].
  eexists. split; [by destruct msg|]. unfold sent, pending. by state_simpl.
Qed.

(** X17: The answer to a command without rows: CommandComplete and
    ReadyForQuery.  [_execute] returns no description and no rows. *)
Theorem execute_command_complete (cmd tag w : list ascii) (s : state) :
  receiving s ->
  pending s = b "C" ++ tag ++ [NUL] ++ b "Z" ++ w ->
  NUL ∉ tag ->
  exists s',
    Connection._execute cmd s = (Ok (None, None, [], cmd), s')
    /\ sent s' = sent s ++ b "Q" ++ cmd ++ [NUL]
    /\ pending s' = w
    /\ __ready s' = 1
    /\ __result s' = None.
Proof.
  intros Hs Hw Htag. open_state s Hs Hw.
  unfold Connection._execute, Connection.run_batch.
  unfold Connection.__new_result, Connection.__send. run_pure.
  lazymatch goal with |- context [Connection.read_until_ready ?s0] =>
    destruct (response_C tag (b "Z" ++ w) s0 (length s_sets))
      as (s1 & Hrun1 & (buf1 & inc1 & -> & Hw1 & Hinc1));
      [receiving_now Hinc|exact Hw|done|reflexivity|];
    rewrite (read_until_ready_next s0 _ eq_refl Hrun1); clear Hrun1
  end.
  unfold Connection.__new_result. cbn [modify snd]. state_simpl.
  lazymatch goal with |- context [Connection.read_until_ready ?s0] =>
    destruct (response_Z s0 w) as (s2 & Hrun2 & (buf2 & inc2 & -> & Hw2 & Hinc2));
      [receiving_now Hinc1|exact Hw1|];
    rewrite (read_until_ready_next s0 _ eq_refl Hrun2); clear Hrun2
  end.
  state_simpl. rewrite read_until_ready_done by done.
  run_pure.
  lazymatch goal with |- context [slice_to [?a; ?c] (-1)] =>
    change (slice_to [a; c] (-1)) with [a]
  end.
  run_pure.
  rewrite closed_bundle_lookup. cbn [error set_completed new_ResultSet].
  eexists. split; [reflexivity|]. unfold sent, pending. by state_simpl.
Qed.

End OneStatement.

Lemma execute_error_response_witness :
  let s := new_connection
             {| incoming := [b "Esyn"; b "tax" ++ [NUL] ++ b "Z"; b "N"]; outgoing := [] |}
             [] (b "user") TypeManager.__init__ [] [] in
  exists s',
    @Connection._execute ascii_lib (b "SELEC 1") s
    = (Raise (DatabaseError (b "syntax")), s')
    /\ sent s' = sent s ++ b "Q" ++ b "SELEC 1" ++ [NUL]
    /\ pending s' = b "N"
    /\ __ready s' = 1
    /\ __result s' = None.
Proof.
  intros s.
  apply (@execute_error_response ascii_lib (b "SELEC 1") (b "syntax") (b "N") s).
  - eexists. split; [reflexivity|]. repeat constructor; discriminate.
  - reflexivity.
  - not_in_chars.
Defined.

Lemma execute_command_complete_witness :
  let s := new_connection
             {| incoming := [b "C"; b "INSERT 0 1" ++ [NUL]; b "Z"]; outgoing := [] |}
             [] (b "user") TypeManager.__init__ [] [] in
  exists s',
    @Connection._execute ascii_lib (b "INSERT INTO t VALUES (1)") s
    = (Ok (None, None, [], b "INSERT INTO t VALUES (1)"), s')
    /\ sent s' = sent s ++ b "Q" ++ b "INSERT INTO t VALUES (1)" ++ [NUL]
    /\ pending s' = []
    /\ __ready s' = 1
    /\ __result s' = None.
Proof.
  intros s.
  apply (@execute_command_complete ascii_lib (b "INSERT INTO t VALUES (1)")
           (b "INSERT 0 1") [] s).
  - eexists. split; [reflexivity|]. repeat constructor; discriminate.
  - reflexivity.
  - not_in_chars.
Defined.

(** ** What a batch reports *)

Section FirstBundle.
Context `{PyLib}.

Lemma grows_frames {A} (m : M A) : frames __result m -> grows m.
Proof. intros Hm s l0 Hl. exists []. by rewrite Hm, app_nil_r. Qed.

Lemma grows_bind {A B} (m : M A) (k : A -> M B) :
  grows m -> (forall a, grows (k a)) -> grows (bind m k).
Proof.
  intros Hm Hk s l0 Hl. unfold bind.
  destruct (Hm s l0 Hl) as (l1 & Hl1).
  destruct (m s) as [[a|e|] s1]; cbn [snd] in *; [|by exists l1..].
  destruct (Hk a s1 _ Hl1) as (l2 & Hl2). exists (l1 ++ l2). by rewrite app_assoc.
Qed.

Lemma grows_while (fuel : nat) (cond : M bool) (body : M unit) :
  grows cond -> grows body -> grows (while_ fuel cond body).
Proof.
  intros Hc Hb. induction fuel as [|fuel IH]; cbn [while_].
  - apply grows_bind; [done|]. intros [|]; by apply grows_frames.
  - apply grows_bind; [done|]. intros [|]; [|by apply grows_frames].
    apply grows_bind; [done|]. by intros _.
Qed.

Lemma grows_new_result : grows Connection.__new_result.
Proof.
  intros s l0 Hl. exists [length (result_sets s)].
  destruct s. cbn in *. by subst.
Qed.

Lemma grows_pkt_C : grows Connection._pkt_C.
Proof.
  unfold Connection._pkt_C.
  apply grows_bind; [apply grows_frames; unfold_engine; frames_auto|]. intros tag.
  apply grows_bind; [apply grows_frames; unfold_engine; frames_auto|]. intros cur.
  apply grows_bind; [apply grows_frames; unfold_engine; frames_auto|]. intros _.
  apply grows_new_result.
Qed.

Lemma grows_pkt_E : grows Connection._pkt_E.
Proof.
  unfold Connection._pkt_E.
  apply grows_bind; [apply grows_frames; frames_auto|]. intros [r|].
  - apply grows_bind; [apply grows_frames; unfold_engine; frames_auto|]. intros msg.
    apply grows_bind; [apply grows_frames; unfold_engine; frames_auto|]. intros cur.
    apply grows_bind; [apply grows_frames; unfold_engine; frames_auto|]. intros _.
    apply grows_new_result.
  - apply grows_frames. unfold_engine. frames_auto.
Qed.

Lemma grows_method (pkt_type : list ascii) (method : M unit) :
  Connection.lookup_method pkt_type = Some method -> grows method.
Proof.
  intros Hm.
  destruct (decide (pkt_type = b "C")) as [->|HC].
  { injection Hm as <-. apply grows_pkt_C. }
  destruct (decide (pkt_type = b "E")) as [->|HE].
  { injection Hm as <-. apply grows_pkt_E. }
  apply grows_frames. by eapply methods_frame_result_list.
Qed.

Lemma grows_read_response : grows Connection.__read_response.
Proof.
  unfold Connection.__read_response.
  apply grows_bind; [apply grows_frames; unfold_engine; frames_auto|]. intros pkt_type.
  apply grows_bind; [apply grows_frames; frames_auto|]. intros _.
  destruct (Connection.lookup_method pkt_type) as [method|] eqn:Hm.
  - by eapply grows_method.
  - apply grows_frames. frames_auto.
Qed.

Lemma grows_read_until_ready : grows Connection.read_until_ready.
Proof.
  unfold Connection.read_until_ready.
  apply grows_bind; [apply grows_frames; frames_auto|]. intros fuel.
  apply grows_while; [apply grows_frames; frames_auto|apply grows_read_response].
Qed.

(** The list of bundles at the end of the packet loop of a batch starts
    with the bundle the batch started with. *)
Lemma run_batch_first (cmd : list ascii) (s : state) :
  exists later,
    __result (Connection.run_batch cmd s).2 = Some (length (result_sets s) :: later).
Proof.
  unfold Connection.run_batch.
  rewrite bind_run. cbn [modify]. rewrite bind_run. cbn [modify]. rewrite bind_run.
  set (s1 := (Connection.__new_result (set___result None (set___ready 0 s))).2).
  assert (Hnew : Connection.__new_result (set___result None (set___ready 0 s)) = (Ok tt, s1))
    by reflexivity.
  rewrite Hnew. clear Hnew.
  assert (Hs1 : __result s1 = Some [length (result_sets s)]) by by destruct s.
  clearbody s1. rewrite bind_run.
  assert (Hsend : frames __result (Connection.__send (b "Q" ++ cmd ++ [NUL])))
    by (unfold_engine; frames_auto).
  specialize (Hsend s1).
  destruct (Connection.__send _ s1) as [[[]|e|] s2]; cbn [fst snd] in *;
    [|exists []; congruence..].
  destruct (grows_read_until_ready s2 [length (result_sets s)]) as (l & Hl); [congruence|].
  by exists l.
Qed.

(** X18: [_execute] reports the first statement of a batch only: when the
    packet loop ends normally, what it returns or raises is read off the
    bundle the batch started with, and the bundles of the statements that
    follow, their errors included, play no part. *)
Theorem execute_reports_first_bundle (cmd : list ascii) (s : state) :
  (Connection.run_batch cmd s).1 = Ok tt ->
  let s1 := (Connection.run_batch cmd s).2 in
  let first := result_sets s1 !!! length (result_sets s) in
  exists later,
    __result s1 = Some (length (result_sets s) :: later)
    /\ (Connection._execute cmd s).1
       = match later with
         | [] => Raise IndexError
         | _ :: _ =>
             match error first with
             | Some (ch :: msg) => Raise (DatabaseError (ch :: msg))
             | _ => Ok (description first, rows first, messages first, cmd)
             end
         end.
Proof.
  intros Hok s1 first. destruct (run_batch_first cmd s) as (later & Hl).
  fold s1 in Hl. exists later. split; [done|].
  unfold Connection._execute. rewrite bind_run.
  subst first. subst s1.
  destruct (Connection.run_batch cmd s) as [[[]|e|] s1]; cbn [fst snd] in *; [|done..].
  rewrite bind_run. cbn [gets]. rewrite Hl.
  unfold slice_to, slice_bound. cbn [Z.ltb Z.compare].
  replace (Z.to_nat (Z.max 0 (len (length (result_sets s) :: later) + -1)))
    with (length later) by (unfold len; cbn [length]; lia).
  destruct later as [|r later]; [done|].
  cbn [length take]. rewrite bind_run. cbn [modify]. rewrite bind_run. cbn [gets].
  assert (Hsets : result_sets (set___result None s1) = result_sets s1) by by destruct s1.
  rewrite Hsets.
  by destruct (error (result_sets s1 !!! length (result_sets s))) as [[|ch msg]|].
Qed.

End FirstBundle.

Lemma execute_reports_first_bundle_witness :
  let s := new_connection
             {| incoming := [b "CINSERT 0 1" ++ [NUL] ++ b "Eduplicate key" ++ [NUL] ++ b "Z"];
                outgoing := [] |}
             [] (b "user") TypeManager.__init__ [] [] in
  let cmd := b "INSERT INTO t VALUES (1); INSERT INTO t VALUES (1)" in
  (@Connection.run_batch ascii_lib cmd s).1 = Ok tt
  /\ (@Connection._execute ascii_lib cmd s).1 = Ok (None, None, [], cmd).
Proof.
  intros s cmd.
  assert (Hbatch : (@Connection.run_batch ascii_lib cmd s).1 = Ok tt)
    by (vm_compute; reflexivity).
  split; [exact Hbatch|].
  destruct (@execute_reports_first_bundle ascii_lib cmd s Hbatch) as (later & Hres & Hexec).
  rewrite Hexec. vm_compute in Hres. injection Hres as <-. vm_compute. reflexivity.
Defined.

(** ** Startup *)

Section StartupRuns.
Context `{PyLib}.

Lemma length_pack_s (n : nat) (s : list ascii) : length (Connection.pack_s n s) = n.
Proof. unfold Connection.pack_s. rewrite length_take, length_app, length_replicate. lia. Qed.

Lemma length_startup_packet (dbname user options : list ascii) :
  length (startup_packet dbname user options) = 296%nat.
Proof.
  unfold startup_packet. by rewrite !length_app, !length_pack_s, !length_be_bytes.
Qed.

(** X19: The handshake without a password: AuthenticationOk, BackendKeyData
    and ReadyForQuery.  [startup] sends one startup packet, of the 296
    bytes its head announces, and keeps the process id and the key of
    the backend. *)
Theorem startup_handshake (dbname user options w : list ascii) (pid key : Z) (s : state) :
  receiving s -> __ready s = 0 ->
  pending s = b "R" ++ be_bytes 4 0 ++ b "K" ++ be_bytes 4 pid ++ be_bytes 4 key ++ b "Z" ++ w ->
  - 2 ^ 31 <= pid < 2 ^ 31 -> - 2 ^ 31 <= key < 2 ^ 31 ->
  exists s',
    Connection.startup dbname user options s = (Ok tt, s')
    /\ sent s' = sent s ++ startup_packet dbname user options
    /\ len (startup_packet dbname user options) = 296
    /\ be_value (take 4 (startup_packet dbname user options)) = 296
    /\ __authenticated s' = 1
    /\ __backend_pid s' = Some pid /\ __backend_key s' = Some key
    /\ __ready s' = 1
    /\ pending s' = w.
Proof.
  intros Hs Hready Hw Hpid Hkey. open_state s Hs Hw. state_simpl_in Hready. subst.
  unfold Connection.startup, Connection.__send. run_pure.
  fold (startup_packet dbname user options).
  next_response (response_R_ok (b "K" ++ be_bytes 4 pid ++ be_bytes 4 key ++ b "Z" ++ w))
    Hinc Hw.
  next_response (response_K pid key (b "Z" ++ w)) Hinc0 Hw0; [done|done|].
  next_response (fun s0 => response_Z s0 w) Hinc1 Hw1.
  rewrite read_until_ready_done by done.
  eexists. split; [reflexivity|]. unfold sent, pending, len. state_simpl.
  rewrite length_startup_packet. by repeat split.
Qed.

(** X20: An ErrorResponse during startup, when the backend refuses the
    connection: [startup] raises DatabaseError with the message. *)
Theorem startup_error_response (dbname user options msg w : list ascii) (s : state) :
  receiving s -> __ready s = 0 -> __current_result s = None ->
  pending s = b "E" ++ msg ++ [NUL] ++ w ->
  NUL ∉ msg ->
  exists s',
    Connection.startup dbname user options s = (Raise (DatabaseError msg), s')
    /\ sent s' = sent s ++ startup_packet dbname user options
    /\ pending s' = w
    /\ is_library_error (DatabaseError msg) = true.
Proof.
  intros Hs Hready Hcur Hw Hmsg. open_state s Hs Hw.
  state_simpl_in Hready. state_simpl_in Hcur. subst.
  unfold Connection.startup, Connection.__send. run_pure.
  fold (startup_packet dbname user options).
  lazymatch goal with |- context [Connection.read_until_ready ?s0] =>
    destruct (response_E_outside msg w s0)
      as (s1 & Hrun & (buf1 & inc1 & -> & Hw1 & Hinc1));
      [receiving_now Hinc|exact Hw|done|reflexivity|];
    rewrite (read_until_ready_raise s0 _ _ eq_refl Hrun); clear Hrun
  end.
  eexists. split; [reflexivity|]. unfold sent, pending. by state_simpl.
Qed.

End StartupRuns.

Lemma startup_handshake_witness :
  let s := new_connection
             {| incoming := [b "R" ++ be_bytes 4 0 ++ b "K"; be_bytes 4 4711;
                             be_bytes 4 99 ++ b "Z"];
                outgoing := [] |}
             [] (b "user") TypeManager.__init__ [] [] in
  exists s',
    @Connection.startup ascii_lib (b "db") (b "user") [] s = (Ok tt, s')
    /\ sent s' = sent s ++ startup_packet (b "db") (b "user") []
    /\ len (startup_packet (b "db") (b "user") []) = 296
    /\ be_value (take 4 (startup_packet (b "db") (b "user") [])) = 296
    /\ __authenticated s' = 1
    /\ __backend_pid s' = Some 4711 /\ __backend_key s' = Some 99
    /\ __ready s' = 1
    /\ pending s' = [].
Proof.
  intros s.
  apply (@startup_handshake ascii_lib (b "db") (b "user") [] [] 4711 99 s).
  - eexists. split; [reflexivity|]. repeat constructor; discriminate.
  - reflexivity.
  - reflexivity.
  - lia.
  - lia.
Defined.

Lemma startup_error_response_witness :
  let s := new_connection
             {| incoming := [b "Eno such"; b " database" ++ [NUL]]; outgoing := [] |}
             [] (b "user") TypeManager.__init__ [] [] in
  exists s',
    @Connection.startup ascii_lib (b "db") (b "user") [] s
    = (Raise (DatabaseError (b "no such database")), s')
    /\ sent s' = sent s ++ startup_packet (b "db") (b "user") []
    /\ pending s' = []
    /\ is_library_error (DatabaseError (b "no such database")) = true.
Proof.
  intros s.
  apply (@startup_error_response ascii_lib (b "db") (b "user") [] (b "no such database") [] s).
  - eexists. split; [reflexivity|]. repeat constructor; discriminate.
  - reflexivity.
  - reflexivity.
  - reflexivity.
  - not_in_chars.
Defined.

(** ** The answer to a function call *)

Section FuncallRuns.
Context `{PyLib}.

(** X21: [funcall] returns what the FunctionResultResponse carries: the
    bytes of the result, or [None] for a function without one, and
    forgets the result in the connection. *)
Theorem funcall_returns_result (oid : Z) (args : list funarg)
    (result : option (list ascii)) (w : list ascii) (s : state) :
  receiving s ->
  0 <= oid < 2 ^ 32 -> Forall arg_fits args -> len args < 2 ^ 31 ->
  pending s
  = b "V" ++ match result with
             | Some data => b "G" ++ be_bytes 4 (len data) ++ data
             | None => []
             end ++ b "0" ++ b "Z" ++ w ->
  len (default [] result) < 2 ^ 31 ->
  exists s',
    Public.funcall oid args s = (Ok result, s')
    /\ sent s' = sent s ++ funcall_message oid args
    /\ __func_result s' = None
    /\ __ready s' = 1
    /\ pending s' = w.
Proof.
  intros Hs Hoid Hargs Hlen Hw Hres. open_state s Hs Hw.
  unfold Public.funcall. rewrite bind_run.
  erewrite send_funcall_run; [|reflexivity|done..]. state_simpl.
  rewrite bind_run.
  next_response (response_V result (b "Z" ++ w)) Hinc Hw; [done|].
  next_response (fun s0 => response_Z s0 w) Hinc0 Hw0.
  rewrite read_until_ready_done by done. run_pure.
  eexists. split; [reflexivity|]. unfold sent, pending. by state_simpl.
Qed.

End FuncallRuns.

Lemma funcall_returns_result_witness :
  let s := new_connection
             {| incoming := [b "VG"; be_bytes 4 2; b "ok0Z"]; outgoing := [] |}
             [] (b "user") TypeManager.__init__ [] [] in
  exists s',
    @Public.funcall ascii_lib 955 [ArgInt 7; ArgStr (b "data")] s = (Ok (Some (b "ok")), s')
    /\ sent s' = sent s ++ funcall_message 955 [ArgInt 7; ArgStr (b "data")]
    /\ __func_result s' = None
    /\ __ready s' = 1
    /\ pending s' = [].
Proof.
  intros s.
  apply (@funcall_returns_result ascii_lib 955 [ArgInt 7; ArgStr (b "data")]
           (Some (b "ok")) [] s).
  - eexists. split; [reflexivity|]. repeat constructor; discriminate.
  - lia.
  - repeat constructor; cbn; lia.
  - done.
  - reflexivity.
  - done.
Defined.

(** ** A backend that stops or sends something else *)

Section BrokenStream.
Context `{PyLib}.

Lemma lookup_method_unknown (ch : ascii) :
  ch ∉ b "ABCDEGHIKNPRTVZ" -> Connection.lookup_method [ch] = None.
Proof.
  intros Hch. unfold Connection.lookup_method, Connection.method_table.
  cbn [find fst].
  repeat (rewrite bool_decide_eq_false_2;
          [|intros [= <-]; apply Hch; cbn; set_solver]).
  reflexivity.
Qed.

Lemma response_eof (s : state) :
  receiving s -> pending s = [] ->
  exists s',
    Connection.__read_response s
    = (Raise (OperationalError (b "Connection to backend closed")), s').
Proof.
  intros Hs Hw. unfold Connection.__read_response. rewrite bind_run.
  destruct (read_bytes_eof 1 s Hs) as (buf & inc & -> & _); [rewrite Hw; unfold len; cbn [length]; lia|].
  by eexists.
Qed.

(** X22: The two ways the packet loop gives up: when the backend closes the
    connection, [_execute] raises OperationalError; when a response
    starts with a byte that is no packet type, InterfaceError naming the
    byte.  Both are errors of the module. *)
Theorem execute_on_broken_stream (cmd : list ascii) (s : state) :
  receiving s ->
  (pending s = [] ->
   (Connection._execute cmd s).1
   = Raise (OperationalError (b "Connection to backend closed")))
  /\ (forall ch w,
        pending s = ch :: w -> ch ∉ b "ABCDEGHIKNPRTVZ" ->
        (Connection._execute cmd s).1
        = Raise (InterfaceError (b "Unrecognized packet type from server: " ++ [ch])))
  /\ is_library_error (OperationalError (b "Connection to backend closed")) = true
  /\ (forall msg, is_library_error (InterfaceError msg) = true).
Proof.
  intros Hs. split; [|split; [|done]].
  - intros Hw. open_state s Hs Hw.
    unfold Connection._execute, Connection.run_batch.
    unfold Connection.__new_result, Connection.__send. run_pure.
    lazymatch goal with |- context [Connection.read_until_ready ?s0] =>
      destruct (response_eof s0) as (s1 & Hrun);
        [receiving_now Hinc|exact Hw|];
      rewrite (read_until_ready_raise s0 _ _ eq_refl Hrun)
    end.
    reflexivity.
  - intros ch w Hw Hch. open_state s Hs Hw.
    unfold Connection._execute, Connection.run_batch.
    unfold Connection.__new_result, Connection.__send. run_pure.
    lazymatch goal with |- context [Connection.read_until_ready ?s0] =>
      destruct (response_unknown ch w s0) as (s1 & _ & Hrun);
        [receiving_now Hinc|exact Hw|by apply lookup_method_unknown|];
      rewrite (read_until_ready_raise s0 _ _ eq_refl Hrun)
    end.
    reflexivity.
Qed.

End BrokenStream.

Lemma execute_on_broken_stream_witness :
  let s := new_connection {| incoming := [b "?"]; outgoing := [] |}
             [] (b "user") TypeManager.__init__ [] [] in
  (@Connection._execute ascii_lib (b "SELECT 1") s).1
  = Raise (InterfaceError (b "Unrecognized packet type from server: ?")).
Proof.
  intros s.
  apply (proj1 (proj2 (@execute_on_broken_stream ascii_lib (b "SELECT 1") s
                         ltac:(eexists; split; [reflexivity|repeat constructor; discriminate])))
           "?"%char []); [reflexivity|not_in_chars].
Defined.

(** ** Password authentication *)

Section Password.
Context `{PyLib}.

(** An authentication request that asks for the password *)
Lemma response_R_password (challenge : option (list ascii)) (w : list ascii) (s : state) :
  receiving s -> pending s = password_request challenge ++ w ->
  (forall salt, challenge = Some salt -> length salt = 4%nat) ->
  len (password_answer challenge s) + 4 < 2 ^ 31 ->
  exists s',
    Connection.__read_response s = (Ok tt, s')
    /\ advanced w
         (Connection.__send (password_packet (password_answer challenge s))
            (logged (b "R") s)).2 s'.
Proof.
  intros Hs Hw Hsalt Hlen. unfold password_request in Hw. open_state s Hs Hw.
  unfold password_answer, password_packet in *. state_simpl_in Hlen.
  unfold Connection.__read_response. rewrite bind_run.
  read_bytes_step Hw Hinc; [len_solve|].
  rewrite bind_run. cbn [modify].
  change (Connection.lookup_method ["R"%char]) with (Some Connection._pkt_R).
  unfold Connection._pkt_R. rewrite bind_run. state_simpl.
  destruct challenge as [salt|].
  - specialize (Hsalt salt eq_refl). rewrite <- app_assoc in Hw0.
    read_prefix_step 4 (be_bytes 4 5) Hw0 Hinc0.
    rewrite bind_run. change (unpack_i (be_bytes 4 5)) with (Returns 5 : outcome Z).
    cbn [lift Z.eqb Pos.eqb]. run_pure.
    lazymatch goal with |- context [Connection.__read_bytes 4 ?s0] =>
      destruct (read_bytes_prefix salt w s0) as (buf1 & inc2 & Hrun & Hw2 & Hinc2);
        [receiving_now Hinc1|unfold pending; state_simpl; exact Hw1|];
      replace (len salt) with 4 in Hrun by (unfold len; lia);
      rewrite Hrun; clear Hrun; state_simpl
    end.
    rewrite bind_run, pack_i_fits by (unfold len in *; lia). cbn [lift].
    unfold Connection.__send. run_pure.
    eexists. split; [reflexivity|]. exists buf1, inc2.
    split; [|done]. unfold bind. cbn [gets modify snd]. state_simpl. reflexivity.
  - read_prefix_step 4 (be_bytes 4 3) Hw0 Hinc0.
    rewrite bind_run. change (unpack_i (be_bytes 4 3)) with (Returns 3 : outcome Z).
    cbn [lift Z.eqb Pos.eqb]. run_pure.
    rewrite pack_i_fits
      by (unfold len in *; rewrite length_app in Hlen; cbn [length] in Hlen; lia).
    cbn [lift]. unfold Connection.__send. run_pure.
    eexists. split; [reflexivity|]. exists buf0, inc1.
    split; [|done]. unfold bind. cbn [gets modify snd]. state_simpl.
    replace (len (s_pw ++ [NUL]) + 4) with (len s_pw + 5); [by rewrite <- ?app_assoc|].
    unfold len. rewrite length_app. cbn [length]. lia.
Qed.

Ltac same_answer Hanswer :=
  lazymatch type of Hanswer with
  | ?a = _ =>
      repeat lazymatch goal with
      | |- context [password_answer ?c ?x] =>
          change (password_answer c x) with a; rewrite Hanswer
      end
  end.

(** X23: Password authentication at startup: to a request for the password
    in clear, or as MD5 digest with a salt, [startup] answers with one
    packet, the answer behind its own length, and goes on to
    AuthenticationOk and ReadyForQuery. *)
Theorem startup_sends_password (dbname user options w : list ascii)
    (challenge : option (list ascii)) (s : state) :
  receiving s -> __ready s = 0 ->
  pending s = password_request challenge ++ b "R" ++ be_bytes 4 0 ++ b "Z" ++ w ->
  (forall salt, challenge = Some salt -> length salt = 4%nat) ->
  len (password_answer challenge s) + 4 < 2 ^ 31 ->
  exists s',
    Connection.startup dbname user options s = (Ok tt, s')
    /\ sent s'
       = sent s ++ startup_packet dbname user options
           ++ password_packet (password_answer challenge s)
    /\ be_value (take 4 (password_packet (password_answer challenge s)))
       = len (password_packet (password_answer challenge s))
    /\ __authenticated s' = 1
    /\ __ready s' = 1
    /\ pending s' = w.
Proof.
  intros Hs Hready Hw Hsalt Hlen.
  assert (Hhead : be_value (take 4 (password_packet (password_answer challenge s)))
                  = len (password_packet (password_answer challenge s))).
  { unfold password_packet.
    rewrite (take_app_length' (be_bytes 4 _)) by (by rewrite length_be_bytes).
    rewrite be_value_be_bytes. change (2 ^ (8 * Z.of_nat 4)) with (2 ^ 32).
    unfold len in *. rewrite length_app, length_be_bytes.
    rewrite Z.mod_small by lia. lia. }
  revert Hlen Hhead. generalize (eq_refl (password_answer challenge s)).
  generalize (password_answer challenge s) at 2 3 4 5 6. intros answer Hanswer Hlen Hhead.
  open_state s Hs Hw. state_simpl_in Hready. subst s_ready.
  unfold Connection.startup, Connection.__send. run_pure.
  fold (startup_packet dbname user options).
  lazymatch goal with |- context [Connection.read_until_ready ?s0] =>
    destruct (response_R_password challenge (b "R" ++ be_bytes 4 0 ++ b "Z" ++ w) s0)
      as (s1 & Hrun1 & (buf1 & inc1 & -> & Hw1 & Hinc1));
      [receiving_now Hinc|unfold pending; state_simpl; exact Hw|done
      |same_answer Hanswer; exact Hlen|];
    rewrite (read_until_ready_next s0 _ eq_refl Hrun1); clear Hrun1
  end.
  same_answer Hanswer.
  unfold Connection.__send, bind. cbn [gets modify snd]. state_simpl.
  next_response (response_R_ok (b "Z" ++ w)) Hinc1 Hw1.
  next_response (fun s0 => response_Z s0 w) Hinc0 Hw0.
  rewrite read_until_ready_done by done.
  eexists. split; [reflexivity|]. unfold sent, pending. state_simpl.
  rewrite <- !app_assoc. by repeat split.
Qed.

End Password.

Lemma startup_sends_password_witness :
  let s := new_connection
             {| incoming := [b "R" ++ be_bytes 4 5 ++ b "salt"; b "R" ++ be_bytes 4 0;
                             b "Z"];
                outgoing := [] |}
             (b "secret") (b "user") TypeManager.__init__ [] [] in
  let answer := @password_answer ascii_lib (Some (b "salt")) s in
  exists s',
    @Connection.startup ascii_lib (b "db") (b "user") [] s = (Ok tt, s')
    /\ sent s' = sent s ++ startup_packet (b "db") (b "user") [] ++ password_packet answer
    /\ be_value (take 4 (password_packet answer)) = len (password_packet answer)
    /\ __authenticated s' = 1
    /\ __ready s' = 1
    /\ pending s' = [].
Proof.
  intros s answer.
  apply (@startup_sends_password ascii_lib (b "db") (b "user") [] [] (Some (b "salt")) s).
  - eexists. split; [reflexivity|]. repeat constructor; discriminate.
  - reflexivity.
  - reflexivity.
  - intros salt [= <-]. reflexivity.
  - vm_compute. reflexivity.
Defined.

(** ** Copy-out *)

Section CopyOut.
Context `{PyLib}.

Lemma write_run (own : bool) (l : list ascii) (s : state) :
  Connection.write own l s
  = (Ok tt, if own then set_stdout (Some (default [] (stdout s) ++ [l])) s
            else set_sys_stdout (sys_stdout s ++ [l]) s).
Proof. by destruct own. Qed.

(** The loop of [_pkt_H] on a stream of copy-out lines. *)
Lemma copy_out_loop (w : list ascii) (lines : list (list ascii)) :
  forall (fuel : nat) (s : state),
    receiving s -> pending s = copy_out_stream lines ++ w ->
    Forall (fun line => (NL ∉ line) /\ line <> BACKSLASH :: b ".") lines ->
    (length lines < fuel)%nat ->
    exists s',
      loop fuel
        (fun _ : unit =>
           l <- Connection.__read_string NL ;;
           if bool_decide (l = BACKSLASH :: b ".") then ret (inr tt)
           else Connection.write (bool_decide (is_Some (stdout s))) l ;;
                Connection.write (bool_decide (is_Some (stdout s))) [NL] ;; ret (inl tt))
        tt s
      = (Ok tt, s')
      /\ receiving s' /\ pending s' = w /\ sent s' = sent s
      /\ copy_sink s' = copy_sink s ++ concat ((fun line => [line; [NL]]) <$> lines).
Proof.
  induction lines as [|line rest IH]; intros fuel s Hs Hw Hlines Hfuel.
  - destruct fuel as [|fuel]; [cbn in Hfuel; lia|].
    unfold copy_out_stream, copy_terminator in Hw. cbn [fmap list_fmap concat app] in Hw.
    open_state s Hs Hw. cbn [loop]. rewrite bind_run. cbn beta. rewrite bind_run.
    change (BACKSLASH :: b "." ++ [NL]) with ((BACKSLASH :: b ".") ++ [NL]) in Hw.
    rewrite <- app_assoc in Hw. cbn [app] in Hw.
    lazymatch goal with |- context [Connection.__read_string NL ?s0] =>
      destruct (read_string_stream NL s0 (BACKSLASH :: b ".") w)
        as (buf1 & inc1 & Hrun & Hw1 & Hinc1);
        [by eexists; split; [reflexivity|exact Hinc]
        |unfold pending; state_simpl; exact Hw
        |not_in_chars|]
    end.
    rewrite Hrun. rewrite bool_decide_eq_true_2 by done. cbn [ret]. state_simpl.
    eexists. split; [reflexivity|]. unfold sent, pending, copy_sink. state_simpl.
    rewrite app_nil_r. repeat split; try done.
    eexists. split; [reflexivity|]. exact Hinc1.
  - destruct fuel as [|fuel]; [cbn in Hfuel; lia|].
    apply Forall_cons in Hlines as [[Hnl Hline] Hrest].
    unfold copy_out_stream in Hw. cbn [fmap list_fmap concat] in Hw.
    rewrite <- !app_assoc in Hw. cbn [app] in Hw.
    fold (copy_out_stream rest) in Hw.
    change (list_fmap _ _ ?f rest) with (f <$> rest) in Hw.
    rewrite app_assoc in Hw. fold (copy_out_stream rest) in Hw.
    open_state s Hs Hw. cbn [loop]. rewrite bind_run. cbn beta. rewrite bind_run.
    lazymatch goal with |- context [Connection.__read_string NL ?s0] =>
      destruct (read_string_stream NL s0 line (copy_out_stream rest ++ w))
        as (buf1 & inc1 & Hrun & Hw1 & Hinc1);
        [by eexists; split; [reflexivity|exact Hinc]
        |unfold pending; state_simpl; exact Hw
        |exact Hnl|]
    end.
    rewrite Hrun. rewrite bool_decide_eq_false_2 by done. state_simpl.
    destruct s_out as [f|].
    + rewrite (bool_decide_eq_true_2 (is_Some (Some f))) by done.
      cbn iota beta. rewrite bind_run, write_run, bind_run, write_run.
      cbn iota beta. cbn [ret]. state_simpl.
      lazymatch goal with |- context [loop fuel _ tt ?s0] =>
        destruct (IH fuel s0) as (s' & Hloop & Hs' & Hw' & Hsent & Hsink);
          [by eexists; split; [reflexivity|exact Hinc1]
          |unfold pending; state_simpl; exact Hw1
          |exact Hrest|cbn in Hfuel; lia|]
      end.
      state_simpl_in Hloop.
      rewrite (bool_decide_eq_true_2 (is_Some (Some _))) in Hloop by done.
      exists s'. split; [exact Hloop|].
      unfold sent, copy_sink in *. state_simpl_in Hsent. state_simpl_in Hsink.
      state_simpl. cbn [fmap list_fmap concat]. rewrite Hsink.
      cbn [default id]. rewrite <- !app_assoc. by repeat split.
    + rewrite (bool_decide_eq_false_2 (is_Some None)) by (by intros [? ?]).
      cbn iota beta. rewrite bind_run, write_run, bind_run, write_run.
      cbn iota beta. cbn [ret]. state_simpl.
      lazymatch goal with |- context [loop fuel _ tt ?s0] =>
        destruct (IH fuel s0) as (s' & Hloop & Hs' & Hw' & Hsent & Hsink);
          [by eexists; split; [reflexivity|exact Hinc1]
          |unfold pending; state_simpl; exact Hw1
          |exact Hrest|cbn in Hfuel; lia|]
      end.
      state_simpl_in Hloop.
      rewrite (bool_decide_eq_false_2 (is_Some None)) in Hloop by (by intros [? ?]).
      exists s'. split; [exact Hloop|].
      unfold sent, copy_sink in *. state_simpl_in Hsent. state_simpl_in Hsink.
      state_simpl. cbn [fmap list_fmap concat]. rewrite Hsink.
      rewrite <- !app_assoc. by repeat split.
Qed.

Lemma length_copy_out_stream (lines : list (list ascii)) :
  (length lines < length (copy_out_stream lines))%nat.
Proof.
  unfold copy_out_stream. rewrite length_app.
  assert (length lines <= length (concat ((fun line => line ++ [NL]) <$> lines)))%nat.
  { induction lines as [|line rest IH]; [done|].
    rewrite fmap_cons. cbn [concat length]. rewrite !length_app. cbn [length]. lia. }
  change (length copy_terminator) with 3%nat. lia.
Qed.

(** X24: A CopyOut response: [_pkt_H] writes every line of the stream and a
    newline after it to [self.stdout], or to [sys.stdout] when there is
    none, up to the terminator line, which it takes off the stream and
    does not write; it sends nothing. *)
Theorem copy_out_writes_lines (lines : list (list ascii)) (w : list ascii) (s : state) :
  receiving s ->
  pending s = copy_out_stream lines ++ w ->
  Forall (fun line => (NL ∉ line) /\ line <> BACKSLASH :: b ".") lines ->
  exists s',
    Connection._pkt_H s = (Ok tt, s')
    /\ copy_sink s' = copy_sink s ++ concat ((fun line => [line; [NL]]) <$> lines)
    /\ pending s' = w
    /\ sent s' = sent s.
Proof.
  intros Hs Hw Hlines.
  destruct (copy_out_loop w lines (S (bytes_left s)) s Hs Hw Hlines)
    as (s' & Hloop & Hs' & Hw' & Hsent & Hsink).
  { assert (Hlen : (length (copy_out_stream lines ++ w)
                    = bytes_left s)%nat).
    { rewrite <- Hw. unfold pending, bytes_left.
      rewrite length_app. by destruct (__socket s). }
    pose proof (length_copy_out_stream lines). rewrite length_app in Hlen. lia. }
  exists s'. unfold Connection._pkt_H. rewrite !bind_run. cbn [gets]. cbn iota beta.
  rewrite bind_run. cbn [gets]. cbn iota beta. rewrite Hloop. done.
Qed.

End CopyOut.

Lemma copy_out_writes_lines_witness :
  let s := new_connection
             {| incoming := [b "1 on"; b "e" ++ [NL]; [NL; BACKSLASH];
                             b "." ++ [NL] ++ b "C"];
                outgoing := [] |}
             [] (b "user") TypeManager.__init__ [] [] in
  exists s',
    Connection._pkt_H s = (Ok tt, s')
    /\ copy_sink s' = copy_sink s ++ [b "1 one"; [NL]; []; [NL]]
    /\ pending s' = b "C"
    /\ sent s' = sent s.
Proof.
  intros s.
  apply (copy_out_writes_lines [b "1 one"; []] (b "C") s).
  - eexists. split; [reflexivity|]. repeat constructor; discriminate.
  - reflexivity.
  - repeat constructor; (not_in_chars || discriminate).
Defined.
